(** * Room reservations: repositories, service and validator

    A shallow embedding of the reservation core of the repository
    (models/, repositories/, services/) together with the properties
    its specification states about it.

    Modelling conventions.
    - Python [str] values are Rocq strings, one [ascii] per character
      (ASCII text).
    - Python [int] values are [Z].
    - [datetime], [date] and [time] values are the naive ones of the
      standard [datetime] module: records of calendar fields, compared
      field by field in lexicographic order.
    - The dictionary of the in-memory repository is a [gmap]; Python
      iterates a dictionary in insertion order, which the map forgets,
      so results that are lists are characterised up to permutation.
    - The backing file of the file repository is a JSON value (or is
      missing, or holds text that is no JSON), with a flag that says
      whether the file can be opened for writing. *)

From Stdlib Require Import ZArith Lia Ascii String.
From stdpp Require Import base option list gmap strings fin_maps pretty.

Local Open Scope string_scope.
Local Open Scope Z_scope.

(** ** Naive dates and times (the [datetime] module) *)

Module Dt.

Record time := mk_time {
  hour : Z; minute : Z; second : Z; microsecond : Z }.

Record date := mk_date {
  year : Z; month : Z; day : Z }.

(** A naive [datetime] is a date and a time of day; [.date()] and
    [.time()] are the two projections. *)
Record datetime := mk_datetime {
  date_of : date; time_of : time }.

#[export] Instance time_eq_dec : EqDecision time.
Proof. solve_decision. Defined.
#[export] Instance date_eq_dec : EqDecision date.
Proof. solve_decision. Defined.
#[export] Instance datetime_eq_dec : EqDecision datetime.
Proof. solve_decision. Defined.

(** Lexicographic combination of two comparisons. *)
Definition lex (c1 c2 : comparison) : comparison :=
  match c1 with Eq => c2 | _ => c1 end.

Definition time_cmp (a b : time) : comparison :=
  lex (hour a ?= hour b)
   (lex (minute a ?= minute b)
    (lex (second a ?= second b) (microsecond a ?= microsecond b))).

Definition date_cmp (a b : date) : comparison :=
  lex (year a ?= year b) (lex (month a ?= month b) (day a ?= day b)).

Definition datetime_cmp (a b : datetime) : comparison :=
  lex (date_cmp (date_of a) (date_of b)) (time_cmp (time_of a) (time_of b)).

Definition is_lt (c : comparison) : bool :=
  match c with Lt => true | _ => false end.
Definition is_gt (c : comparison) : bool :=
  match c with Gt => true | _ => false end.

Definition time_lt (a b : time) : bool := is_lt (time_cmp a b).
Definition time_gt (a b : time) : bool := is_gt (time_cmp a b).
Definition lt (a b : datetime) : bool := is_lt (datetime_cmp a b).
Definition gt (a b : datetime) : bool := is_gt (datetime_cmp a b).

(** Calendar arithmetic, as in the pure-Python [datetime] module. *)
Definition is_leap (y : Z) : bool :=
  (y mod 4 =? 0) && (negb (y mod 100 =? 0) || (y mod 400 =? 0)).

Definition days_before_year (y : Z) : Z :=
  let p := y - 1 in p * 365 + p / 4 - p / 100 + p / 400.

Definition days_in_month (y m : Z) : Z :=
  if m =? 2 then (if is_leap y then 29 else 28)
  else if (m =? 4) || (m =? 6) || (m =? 9) || (m =? 11) then 30
  else 31.

Definition days_before_month_table : list Z :=
  [0; 31; 59; 90; 120; 151; 181; 212; 243; 273; 304; 334].

Definition days_before_month (y m : Z) : Z :=
  nth (Z.to_nat (m - 1)) days_before_month_table 0
  + (if (2 <? m) && is_leap y then 1 else 0).

Definition toordinal (d : date) : Z :=
  days_before_year (year d) + days_before_month (year d) (month d) + day d.

(** [(a - b).days] for two dates. *)
Definition date_diff_days (a b : date) : Z := toordinal a - toordinal b.

Definition time_micros (t : time) : Z :=
  ((hour t * 60 + minute t) * 60 + second t) * 1000000 + microsecond t.

(** [a - b] for two naive datetimes, as a number of microseconds. *)
Definition sub_micros (a b : datetime) : Z :=
  (toordinal (date_of a) - toordinal (date_of b)) * 86400000000
  + (time_micros (time_of a) - time_micros (time_of b)).

(** The constructors of the module reject fields out of range. *)
Definition valid_date (d : date) : bool :=
  (1 <=? year d) && (year d <=? 9999) &&
  (1 <=? month d) && (month d <=? 12) &&
  (1 <=? day d) && (day d <=? days_in_month (year d) (month d)).

Definition valid_time (t : time) : bool :=
  (0 <=? hour t) && (hour t <? 24) &&
  (0 <=? minute t) && (minute t <? 60) &&
  (0 <=? second t) && (second t <? 60) &&
  (0 <=? microsecond t) && (microsecond t <? 1000000).

Definition valid_datetime (t : datetime) : bool :=
  valid_date (date_of t) && valid_time (time_of t).

(** *** Fixed-width decimal fields *)

Definition digit_char (d : Z) : ascii := ascii_of_nat (48 + Z.to_nat d).

Definition digit_val (c : ascii) : option Z :=
  let n := Z.of_nat (nat_of_ascii c) in
  if (48 <=? n) && (n <=? 57) then Some (n - 48) else None.

(** [zpad w n] is the decimal text of [n] on [w] digits, padded with
    zeros on the left ([%0wd] for [0 <= n < 10^w]). *)
Fixpoint zpad (w : nat) (n : Z) : string :=
  match w with
  | O => ""
  | S w' => String (digit_char ((n / 10 ^ Z.of_nat w') mod 10)) (zpad w' n)
  end.

(** Reads exactly [w] decimal digits from the front of [s]. *)
Fixpoint take_digits (w : nat) (s : string) : option (Z * string) :=
  match w with
  | O => Some (0, s)
  | S w' =>
      match s with
      | String c s' =>
          match digit_val c with
          | Some d =>
              match take_digits w' s' with
              | Some (v, rest) => Some (d * 10 ^ Z.of_nat w' + v, rest)
              | None => None
              end
          | None => None
          end
      | EmptyString => None
      end
  end.

Definition expect (c : ascii) (s : string) : option string :=
  match s with
  | String c' s' => if Ascii.eqb c c' then Some s' else None
  | EmptyString => None
  end.

(** [time.strftime('%H:%M')] *)
Definition strftime_HM (t : time) : string :=
  zpad 2 (hour t) +:+ ":" +:+ zpad 2 (minute t).

(** [datetime.isoformat()]: [YYYY-MM-DDTHH:MM:SS], followed by
    [.ffffff] when the microsecond field is not zero. *)
Definition isoformat (t : datetime) : string :=
  let d := date_of t in
  let c := time_of t in
  zpad 4 (year d) +:+ "-" +:+ zpad 2 (month d) +:+ "-" +:+ zpad 2 (day d)
  +:+ "T" +:+ zpad 2 (hour c) +:+ ":" +:+ zpad 2 (minute c)
  +:+ ":" +:+ zpad 2 (second c)
  +:+ (if microsecond c =? 0 then "" else "." +:+ zpad 6 (microsecond c)).

(** [datetime.fromisoformat], on the two layouts that [isoformat]
    writes, which are the ones that the repository finds in a file it
    wrote. [None] stands for every other text: Python raises
    [ValueError] on most of them and reads some (a date alone, a blank
    for the [T], a time without seconds, an offset), which are not
    modelled. *)
Definition fromisoformat (s : string) : option datetime :=
  '(y, s) ← take_digits 4 s;
  s ← expect "-" s;
  '(m, s) ← take_digits 2 s;
  s ← expect "-" s;
  '(d, s) ← take_digits 2 s;
  s ← expect "T" s;
  '(hh, s) ← take_digits 2 s;
  s ← expect ":" s;
  '(mm, s) ← take_digits 2 s;
  s ← expect ":" s;
  '(ss, s) ← take_digits 2 s;
  '(us, s) ← (match s with
              | EmptyString => Some (0, s)
              | _ => s ← expect "." s; take_digits 6 s
              end);
  let t := mk_datetime (mk_date y m d) (mk_time hh mm ss us) in
  match s with
  | EmptyString => if valid_datetime t then Some t else None
  | _ => None
  end.

End Dt.

Import Dt.

(** [l.append(x)] on a Python list. *)
Definition append {A : Type} (l : list A) (x : A) : list A := (l ++ [x])%list.

(** ** Rooms (models/room.py, models/room_types.py) *)

(** The four concrete subclasses of the abstract [Room]; the first
    three fields of each are the attributes of the base class. *)
Inductive Room :=
  | Classroom (room_id name : string) (capacity : Z)
      (has_projector whiteboard : bool)
  | ConferenceRoom (room_id name : string) (capacity : Z)
      (video_conference sound_system : bool)
  | Laboratory (room_id name : string) (capacity : Z)
      (lab_type : string) (safety_equipment : bool)
  | ComputerLab (room_id name : string) (capacity : Z)
      (num_computers : Z) (has_printer : bool).

#[export] Instance Room_eq_dec : EqDecision Room.
Proof. solve_decision. Defined.

(** The constructors with the default arguments of the source. *)
Definition new_Classroom (room_id name : string) (capacity : Z) : Room :=
  Classroom room_id name capacity true true.
Definition new_ConferenceRoom (room_id name : string) (capacity : Z) : Room :=
  ConferenceRoom room_id name capacity true true.
Definition new_Laboratory (room_id name : string) (capacity : Z) : Room :=
  Laboratory room_id name capacity "General" true.
(** [ComputerLab.__init__]: a count that is not positive is replaced
    by the capacity. *)
Definition init_ComputerLab (room_id name : string) (capacity : Z)
    (num_computers : Z) (has_printer : bool) : Room :=
  ComputerLab room_id name capacity
    (if 0 <? num_computers then num_computers else capacity) has_printer.
Definition new_ComputerLab (room_id name : string) (capacity : Z) : Room :=
  init_ComputerLab room_id name capacity 0 true.

Definition room_id (r : Room) : string :=
  match r with
  | Classroom i _ _ _ _ | ConferenceRoom i _ _ _ _
  | Laboratory i _ _ _ _ | ComputerLab i _ _ _ _ => i
  end.

Definition name (r : Room) : string :=
  match r with
  | Classroom _ n _ _ _ | ConferenceRoom _ n _ _ _
  | Laboratory _ n _ _ _ | ComputerLab _ n _ _ _ => n
  end.

Definition capacity (r : Room) : Z :=
  match r with
  | Classroom _ _ c _ _ | ConferenceRoom _ _ c _ _
  | Laboratory _ _ c _ _ | ComputerLab _ _ c _ _ => c
  end.

Definition get_room_type (r : Room) : string :=
  match r with
  | Classroom _ _ _ _ _ => "Classroom"
  | ConferenceRoom _ _ _ _ _ => "Conference Room"
  | Laboratory _ _ _ lab_type _ => "Laboratory (" +:+ lab_type +:+ ")"
  | ComputerLab _ _ _ _ _ => "Computer Lab"
  end.

(** The values of an equipment dictionary. *)
Inductive equipment_value :=
  | EBool (b : bool)
  | EInt (n : Z)
  | EStr (s : string).

Definition get_equipment (r : Room) : list (string * equipment_value) :=
  match r with
  | Classroom _ _ _ has_projector whiteboard =>
      [("projector", EBool has_projector); ("whiteboard", EBool whiteboard);
       ("desks", EBool true)]
  | ConferenceRoom _ _ _ video_conference sound_system =>
      [("video_conference", EBool video_conference);
       ("sound_system", EBool sound_system);
       ("projector", EBool true); ("conference_table", EBool true)]
  | Laboratory _ _ _ lab_type safety_equipment =>
      [("lab_type", EStr lab_type);
       ("safety_equipment", EBool safety_equipment);
       ("workbenches", EBool true); ("storage", EBool true)]
  | ComputerLab _ _ _ num_computers has_printer =>
      [("computers", EInt num_computers); ("printer", EBool has_printer);
       ("network", EBool true)]
  end.

(** The variant (class) of a room. *)
Inductive room_kind := KClassroom | KConferenceRoom | KLaboratory | KComputerLab.

Definition kind_of (r : Room) : room_kind :=
  match r with
  | Classroom _ _ _ _ _ => KClassroom
  | ConferenceRoom _ _ _ _ _ => KConferenceRoom
  | Laboratory _ _ _ _ _ => KLaboratory
  | ComputerLab _ _ _ _ _ => KComputerLab
  end.

(** ** Reservations (models/reservation.py) *)

(** Modelled from the spec: models/reservation.py is not among the
    sources. The record has the attributes that the repositories, the
    service and the tests read; construction yields a CONFIRMED
    reservation, [overlaps_with] is the half-open overlap rule and
    [cancel] sets the status to CANCELLED unconditionally. The status
    is the string that the repositories compare and store. *)
Record Reservation := mk_Reservation {
  reservation_id : string;
  room : Room;
  user_name : string;
  start_time : datetime;
  end_time : datetime;
  purpose : string;
  status : string }.

#[export] Instance Reservation_eq_dec : EqDecision Reservation.
Proof. solve_decision. Defined.

(** Modelled from the spec: the constructor of the absent
    [Reservation] class ("reservation in CONFIRMED state"). *)
Definition new_Reservation (reservation_id : string) (room : Room)
    (user_name : string) (start_time end_time : datetime)
    (purpose : string) : Reservation :=
  mk_Reservation reservation_id room user_name start_time end_time
    purpose "CONFIRMED".

(** Modelled from the spec: [Reservation.overlaps_with], "overlap is
    defined as start_A < end_B AND start_B < end_A". *)
Definition overlaps_with (r : Reservation) (start_time' end_time' : datetime)
    : bool :=
  Dt.lt (start_time r) end_time' && Dt.lt start_time' (end_time r).

(** Modelled from the spec: [Reservation.cancel], "unconditionally
    sets status to CANCELLED". *)
Definition cancel (r : Reservation) : Reservation :=
  mk_Reservation (reservation_id r) (room r) (user_name r) (start_time r)
    (end_time r) (purpose r) "CANCELLED".

(** [reservation._status = s], used by the file repository on load. *)
Definition set_status (s : string) (r : Reservation) : Reservation :=
  mk_Reservation (reservation_id r) (room r) (user_name r) (start_time r)
    (end_time r) (purpose r) s.

(** ** The validator (services/validation_service.py) *)

Module Validator.

Record ReservationValidator := mk_validator {
  min_duration_hours : Z;
  max_duration_hours : Z;
  business_start : time;
  business_end : time;
  max_advance_days : Z }.

(** The default arguments of [ReservationValidator.__init__]. *)
Definition default : ReservationValidator :=
  mk_validator 1 8 (mk_time 7 0 0 0) (mk_time 22 0 0 0) 90.

Section Rules.
Variable self : ReservationValidator.

Definition _validate_time_order (start end_ : datetime) : bool :=
  Dt.lt start end_.

(** [duration_hours] is [(end - start).total_seconds() / 3600], a
    float that is compared with an integer number of hours. The
    comparison is made here on the exact number of microseconds:
    [d / 3.6e9 < n] iff [d < n * 3.6e9]. The float is rounded, so the
    code can decide otherwise when the span is within the rounding of
    a bound, which takes a span of centuries. *)
Definition _validate_duration (start end_ : datetime) : option string :=
  let duration_micros := sub_micros end_ start in
  if duration_micros <? min_duration_hours self * 3600000000 then
    Some ("Minimum reservation duration is "
          +:+ pretty (min_duration_hours self) +:+ " hour(s)")
  else if max_duration_hours self * 3600000000 <? duration_micros then
    Some ("Maximum reservation duration is "
          +:+ pretty (max_duration_hours self) +:+ " hours")
  else None.

Definition _validate_business_hours (start end_ : datetime) : option string :=
  let start_time := time_of start in
  let end_time := time_of end_ in
  if time_lt start_time (business_start self)
     || time_gt end_time (business_end self) then
    Some ("Reservations must be between "
          +:+ strftime_HM (business_start self)
          +:+ " and " +:+ strftime_HM (business_end self))
  else None.

(** [now] is the value that [datetime.now()] returns at the call. *)
Definition _validate_advance_booking (now start : datetime) : option string :=
  let days_ahead := date_diff_days (date_of start) (date_of now) in
  if max_advance_days self <? days_ahead then
    Some ("Cannot book more than " +:+ pretty (max_advance_days self)
          +:+ " days in advance")
  else None.

Definition _validate_not_in_past (now start : datetime) : bool :=
  Dt.gt start now.

(** [str.strip()] on ASCII text. *)
Definition is_space (c : ascii) : bool :=
  let n := nat_of_ascii c in
  ((9 <=? n) && (n <=? 13) || (28 <=? n) && (n <=? 32))%nat.

Fixpoint lstrip (s : string) : string :=
  match s with
  | String c s' => if is_space c then lstrip s' else s
  | EmptyString => s
  end.

Definition strip (s : string) : string :=
  String.rev (lstrip (String.rev (lstrip s))).

Definition _validate_user_name (user_name : string) : bool :=
  (2 <=? String.length (strip user_name))%nat.

Definition small_capacity_warning (room : Room) : string :=
  "⚠️ Warning: Small room capacity (" +:+ pretty (capacity room)
  +:+ " people)".

(** [validate_all]; [now1] and [now2] are the two readings of the
    clock, made by the advance-booking rule and by the past rule. *)
Definition validate_all (now1 now2 : datetime) (room : Room)
    (start_time end_time : datetime) (user_name : string)
    : bool * list string :=
  let errors := [] in
  let errors :=
    if negb (_validate_time_order start_time end_time)
    then append errors "End time must be after start time" else errors in
  let duration_error := _validate_duration start_time end_time in
  let errors :=
    match duration_error with
    | Some e => append errors e
    | None => errors
    end in
  let hours_error := _validate_business_hours start_time end_time in
  let errors :=
    match hours_error with
    | Some e => append errors e
    | None => errors
    end in
  let advance_error := _validate_advance_booking now1 start_time in
  let errors :=
    match advance_error with
    | Some e => append errors e
    | None => errors
    end in
  let errors :=
    if negb (_validate_not_in_past now2 start_time)
    then append errors "Cannot book reservations in the past" else errors in
  let errors :=
    if negb (_validate_user_name user_name)
    then append errors "User name must be at least 2 characters" else errors in
  let errors :=
    if capacity room <? 5
    then append errors (small_capacity_warning room) else errors in
  (bool_decide (length errors = 0%nat), errors).

End Rules.
End Validator.

(** ** The repository interface (repositories/repository_interface.py) *)

(** [IReservationRepository]: the five abstract methods, over the
    state [S] of an implementation. The two methods that write return
    the new state with their result. *)
Class IReservationRepository (S : Type) := {
  save : Reservation → S → bool * S;
  find_by_id : string → S → option Reservation;
  find_by_room_and_time : Room → datetime → datetime → S → list Reservation;
  find_all : S → list Reservation;
  delete : string → S → bool * S }.

(** The test of the conflict query, shared by the two implementations:
    same room identifier, overlapping times, not cancelled. *)
Definition conflicts_with (room' : Room) (start_time' end_time' : datetime)
    (reservation : Reservation) : bool :=
  bool_decide (room_id (room reservation) = room_id room')
  && overlaps_with reservation start_time' end_time'
  && negb (bool_decide (status reservation = "CANCELLED")).

(** The loop of the conflict query: every reservation that passes the
    test is appended to [overlapping]. *)
Definition collect_overlapping (room' : Room) (start_time' end_time' : datetime)
    (reservations : list Reservation) : list Reservation :=
  fold_left
    (λ overlapping reservation,
       if conflicts_with room' start_time' end_time' reservation
       then append overlapping reservation else overlapping)
    reservations [].

(** ** The in-memory repository (repositories/in_memory_repository.py) *)

Module InMemoryRepository.

(** [self._reservations], a dictionary from identifiers to
    reservations. The dictionary holds references: the objects that the
    queries return are the stored ones. The model stores values, which
    gives the same results as long as a stored object is changed only
    through [save] (see [ReservationService.cancel_reservation]). *)
Abbreviation t := (gmap string Reservation).

Definition init : t := ∅.

(** [dict.values()] *)
Definition values (self : t) : list Reservation := (map_to_list self).*2.

(** The assignment in the [try] block cannot raise (the key is a
    string), so [save] always returns true. *)
Definition save (reservation : Reservation) (self : t) : bool * t :=
  (true, <[reservation_id reservation := reservation]> self).

Definition find_by_id (reservation_id : string) (self : t)
    : option Reservation :=
  self !! reservation_id.

Definition find_by_room_and_time (room : Room) (start_time end_time : datetime)
    (self : t) : list Reservation :=
  collect_overlapping room start_time end_time (values self).

Definition find_all (self : t) : list Reservation := values self.

Definition delete (reservation_id : string) (self : t) : bool * t :=
  if bool_decide (is_Some (self !! reservation_id))
  then (true, base.delete reservation_id self)
  else (false, self).

End InMemoryRepository.

#[export] Instance InMemory_repository
    : IReservationRepository (gmap string Reservation) := {
  save := InMemoryRepository.save;
  find_by_id := InMemoryRepository.find_by_id;
  find_by_room_and_time := InMemoryRepository.find_by_room_and_time;
  find_all := InMemoryRepository.find_all;
  delete := InMemoryRepository.delete }.

(** ** JSON values and the backing file *)

#[warnings="-register-all"]
Inductive json :=
  | JNull
  | JBool (b : bool)
  | JNum (n : Z)
  | JStr (s : string)
  | JArr (items : list json)
  | JObj (fields : list (string * json)).

(** [obj[key]] on a parsed JSON object; [None] stands for the
    [KeyError] or [TypeError] that Python raises. The parser yields
    objects whose keys are distinct. *)
Fixpoint lookup_field (key : string) (fields : list (string * json))
    : option json :=
  match fields with
  | [] => None
  | (k, v) :: fields' =>
      if bool_decide (k = key) then Some v else lookup_field key fields'
  end.

Definition jget (key : string) (j : json) : option json :=
  match j with JObj fields => lookup_field key fields | _ => None end.

Definition as_str (j : json) : option string :=
  match j with JStr s => Some s | _ => None end.

Definition as_num (j : json) : option Z :=
  match j with JNum n => Some n | _ => None end.

(** [obj[key]] where a string, respectively an integer, is expected. *)
Definition get_str (key : string) (j : json) : option string :=
  jget key j ≫= as_str.

Definition get_num (key : string) (j : json) : option Z :=
  jget key j ≫= as_num.

(** What the path of the repository holds: no file, text that
    [json.load] rejects, or a JSON document. *)
Inductive file_content :=
  | Missing
  | Garbage
  | Json (j : json).

(** How the medium answers an attempt to rewrite the file: the write
    succeeds, [open] fails and the file is untouched, or the file is
    truncated and the write fails before completing. *)
Inductive medium := WriteOk | WriteDenied | WriteTorn.

#[export] Instance medium_eq_dec : EqDecision medium.
Proof. solve_decision. Defined.

Record file_state := mk_file_state {
  content : file_content;
  disk : medium }.

(** [needle in hay] on strings. *)
Fixpoint contains (needle hay : string) : bool :=
  String.prefix needle hay
  || match hay with
     | String _ hay' => contains needle hay'
     | EmptyString => false
     end.

Definition json_of_equipment (v : equipment_value) : json :=
  match v with EBool b => JBool b | EInt n => JNum n | EStr s => JStr s end.

(** ** The file repository (repositories/file_repository.py) *)

Module FileRepository.

(** The state of the repository is the state of the file at
    [self._filepath]. *)
Abbreviation t := file_state.

(** [open(path, 'w')] followed by [json.dump(data, f)]: the new state
    of the file, and whether the write completed. *)
Definition write_file (data : json) (self : t) : bool * t :=
  match disk self with
  | WriteOk => (true, mk_file_state (Json data) (disk self))
  | WriteDenied => (false, self)
  | WriteTorn => (false, mk_file_state Garbage (disk self))
  end.

(** [_ensure_file_exists], called by [__init__]; [None] stands for
    the exception that escapes when the file cannot be created. *)
Definition _ensure_file_exists (self : t) : option t :=
  match content self with
  | Missing =>
      let '(ok, self') := write_file (JArr []) self in
      if ok then Some self' else None
  | _ => Some self
  end.

Definition _serialize_room (room : Room) : json :=
  JObj [("type", JStr (get_room_type room));
        ("room_id", JStr (room_id room));
        ("name", JStr (name room));
        ("capacity", JNum (capacity room));
        ("equipment",
         JObj (prod_map id json_of_equipment <$> get_equipment room))].

(** [None] stands for the exception raised on a missing key, and for
    a field that is not of the JSON type that [_serialize_room] writes:
    Python raises on some of these and hands others on to the
    constructor, giving rooms that the type [Room] does not hold.
    [room_raises] below tells the entries on which Python raises. *)
Definition _deserialize_room (data : json) : option Room :=
  room_type ← get_str "type" data;
  room_id ← get_str "room_id" data;
  name ← get_str "name" data;
  capacity ← get_num "capacity" data;
  if contains "Classroom" room_type then
    Some (new_Classroom room_id name capacity)
  else if contains "Conference" room_type then
    Some (new_ConferenceRoom room_id name capacity)
  else if contains "Computer" room_type then
    Some (new_ComputerLab room_id name capacity)
  else
    Some (new_Laboratory room_id name capacity).

(** One record of [_save_reservations]. *)
Definition serialize_reservation (reservation : Reservation) : json :=
  JObj [("reservation_id", JStr (reservation_id reservation));
        ("room", _serialize_room (room reservation));
        ("user_name", JStr (user_name reservation));
        ("start_time", JStr (isoformat (start_time reservation)));
        ("end_time", JStr (isoformat (end_time reservation)));
        ("purpose", JStr (purpose reservation));
        ("status", JStr (status reservation))].

(** [item.get(key, default)] for a string field. *)
Definition get_str_default (key default : string) (item : json)
    : option string :=
  match item with
  | JObj fields =>
      match lookup_field key fields with
      | Some v => as_str v
      | None => Some default
      end
  | _ => None
  end.

(** The body of the loop of [_load_reservations], on the records
    that [_save_reservations] writes and on those with a key left out.
    [None] stands for the exception raised, and for a record with a
    field of another JSON type or a timestamp of another layout, which
    is not modelled; [item_raises] below tells the records on which
    Python raises. *)
Definition load_item (item : json) : option Reservation :=
  room ← jget "room" item ≫= _deserialize_room;
  reservation_id ← get_str "reservation_id" item;
  user_name ← get_str "user_name" item;
  start_time ← get_str "start_time" item ≫= fromisoformat;
  end_time ← get_str "end_time" item ≫= fromisoformat;
  purpose ← get_str_default "purpose" "" item;
  status ← get_str_default "status" "CONFIRMED" item;
  Some (set_status status
          (new_Reservation reservation_id room user_name start_time end_time
             purpose)).

(** The [try] block of [_load_reservations]; [None] stands for any
    exception raised in it, and for a file with a record that
    [load_item] does not model. A document that is not an array either
    raises or yields no record. *)
Definition try_load (self : t) : option (list Reservation) :=
  match content self with
  | Json (JArr data) => mapM load_item data
  | _ => None
  end.

(** [_load_reservations]: an exception is caught and the empty list
    returned. The line that the [except] block prints is not
    modelled. *)
Definition _load_reservations (self : t) : list Reservation :=
  default [] (try_load self).

(** [_save_reservations]: an exception is caught and false returned.
    The line that the [except] block prints is not modelled. *)
Definition _save_reservations (reservations : list Reservation) (self : t)
    : bool * t :=
  write_file (JArr (serialize_reservation <$> reservations)) self.

(** The loop of [save]: the first record with the identifier of
    [reservation] is replaced; [None] when there is none ([updated]
    stays false). *)
Fixpoint update_first (reservation : Reservation)
    (reservations : list Reservation) : option (list Reservation) :=
  match reservations with
  | [] => None
  | res :: rest =>
      if bool_decide (reservation_id res = reservation_id reservation)
      then Some (reservation :: rest)
      else cons res <$> update_first reservation rest
  end.

Definition save (reservation : Reservation) (self : t) : bool * t :=
  let reservations := _load_reservations self in
  let reservations :=
    match update_first reservation reservations with
    | Some updated => updated
    | None => append reservations reservation
    end in
  _save_reservations reservations self.

Fixpoint first_with_id (reservation_id' : string)
    (reservations : list Reservation) : option Reservation :=
  match reservations with
  | [] => None
  | reservation :: rest =>
      if bool_decide (reservation_id reservation = reservation_id')
      then Some reservation
      else first_with_id reservation_id' rest
  end.

Definition find_by_id (reservation_id : string) (self : t)
    : option Reservation :=
  first_with_id reservation_id (_load_reservations self).

Definition find_by_room_and_time (room : Room) (start_time end_time : datetime)
    (self : t) : list Reservation :=
  collect_overlapping room start_time end_time (_load_reservations self).

Definition find_all (self : t) : list Reservation := _load_reservations self.

Definition delete (reservation_id' : string) (self : t) : bool * t :=
  let reservations := _load_reservations self in
  let reservations :=
    List.filter
      (λ r, negb (bool_decide (reservation_id r = reservation_id')))
      reservations in
  _save_reservations reservations self.

End FileRepository.

#[export] Instance File_repository : IReservationRepository file_state := {
  save := FileRepository.save;
  find_by_id := FileRepository.find_by_id;
  find_by_room_and_time := FileRepository.find_by_room_and_time;
  find_all := FileRepository.find_all;
  delete := FileRepository.delete }.

(** ** The reservation service (services/reservation_service.py) *)

Module ReservationService.

(** What the service itself does to the outside: the calls of the two
    hooks of the injected notifier, and the lines that its own [print]
    statements write. What a hook or a repository prints while it is
    called is not among the events. The boolean that a hook returns is
    not read by the service. *)
Inductive event :=
  | NotifyConfirmed (reservation : Reservation)
  | NotifyCancelled (reservation : Reservation)
  | Print (line : string).

(** The state that the methods of the service act on: the state of
    the injected repository and the events so far, oldest first. *)
Record world (S : Type) := mk_world {
  repository : S;
  events : list event }.
Arguments mk_world {S} _ _.
Arguments repository {S} _.
Arguments events {S} _.

(** [str.upper()] on ASCII text. *)
Definition upper_char (c : ascii) : ascii :=
  let n := nat_of_ascii c in
  if ((97 <=? n) && (n <=? 122))%nat then ascii_of_nat (n - 32) else c.

Fixpoint upper (s : string) : string :=
  match s with
  | String c s' => String (upper_char c) (upper s')
  | EmptyString => EmptyString
  end.

(** [_generate_reservation_id]; [uuid_hex] is the text of
    [uuid.uuid4().hex], drawn by the caller of the model. *)
Definition _generate_reservation_id (uuid_hex : string) : string :=
  "RES-" +:+ upper (substring 0 8 uuid_hex).

Section Service.
Context {S : Type} `{!IReservationRepository S}.

Definition emit (e : event) (w : world S) : world S :=
  mk_world (repository w) (append (events w) e).

Definition _validate_time_range (start_time end_time : datetime) : bool :=
  Dt.lt start_time end_time.

Definition _check_availability (room : Room) (start_time end_time : datetime)
    (w : world S) : bool :=
  let conflicts :=
    find_by_room_and_time room start_time end_time (repository w) in
  bool_decide (length conflicts = 0%nat).

Definition create_reservation (uuid_hex : string) (room : Room)
    (user_name : string) (start_time end_time : datetime) (purpose : string)
    (w : world S) : option Reservation * world S :=
  if negb (_validate_time_range start_time end_time) then
    (None,
     emit (Print "❌ Error: Invalid time range. End time must be after start time.") w)
  else if negb (_check_availability room start_time end_time w) then
    (None,
     emit (Print ("❌ Error: Room " +:+ name room
                  +:+ " is not available for the requested time slot.")) w)
  else
    let reservation_id := _generate_reservation_id uuid_hex in
    let reservation :=
      new_Reservation reservation_id room user_name start_time end_time
        purpose in
    let '(saved, repository') := save reservation (repository w) in
    let w := mk_world repository' (events w) in
    if saved then (Some reservation, emit (NotifyConfirmed reservation) w)
    else (None, emit (Print "❌ Error: Failed to save reservation.") w).

(** [cancel_reservation]. The reservation that [find_by_id] returns is
    cancelled and handed to [save]. (With the in-memory repository the
    object found is the stored one, so [cancel()] already changes the
    store; its [save] always succeeds and leaves the same store.) *)
Definition cancel_reservation (reservation_id : string) (w : world S)
    : bool * world S :=
  match find_by_id reservation_id (repository w) with
  | None =>
      (false,
       emit (Print ("❌ Error: Reservation " +:+ reservation_id
                    +:+ " not found.")) w)
  | Some reservation =>
      if bool_decide (status reservation = "CANCELLED") then
        (false,
         emit (Print ("⚠ Warning: Reservation " +:+ reservation_id
                      +:+ " is already cancelled.")) w)
      else
        let reservation := cancel reservation in
        let '(saved, repository') := save reservation (repository w) in
        let w := mk_world repository' (events w) in
        if saved then (true, emit (NotifyCancelled reservation) w)
        else (false, emit (Print "❌ Error: Failed to update reservation.") w)
  end.

Definition get_reservation (reservation_id : string) (w : world S)
    : option Reservation :=
  find_by_id reservation_id (repository w).

Definition get_all_reservations (w : world S) : list Reservation :=
  find_all (repository w).

Definition get_room_availability (room : Room) (start_time end_time : datetime)
    (w : world S) : list Reservation :=
  find_by_room_and_time room start_time end_time (repository w).

End Service.
End ReservationService.

(** ** Vocabulary of the properties *)

(** The message of a rule that returns one, as a list. *)
Definition option_to_list {A} (o : option A) : list A :=
  match o with Some x => [x] | None => [] end.

(** The room that [_deserialize_room] builds from the serialized
    form of [room']: the variant is chosen from the type tag, and the
    attributes of the variant take their default values. *)
Definition reloaded_room (room' : Room) : Room :=
  let room_type := get_room_type room' in
  if contains "Classroom" room_type then
    new_Classroom (room_id room') (name room') (capacity room')
  else if contains "Conference" room_type then
    new_ConferenceRoom (room_id room') (name room') (capacity room')
  else if contains "Computer" room_type then
    new_ComputerLab (room_id room') (name room') (capacity room')
  else
    new_Laboratory (room_id room') (name room') (capacity room').

(** The reservation that the file repository loads after [r] was
    written. *)
Definition reloaded (r : Reservation) : Reservation :=
  mk_Reservation (reservation_id r) (reloaded_room (room r)) (user_name r)
    (start_time r) (end_time r) (purpose r) (status r).

(** The two timestamps of a reservation are values that the
    [datetime] constructor accepts. *)
Definition valid_times (r : Reservation) : Prop :=
  valid_datetime (start_time r) = true ∧ valid_datetime (end_time r) = true.

(** [j] is an object that has the key: [j[key]] does not raise. *)
Definition has_key (key : string) (j : json) : bool :=
  match jget key j with Some _ => true | None => false end.

(** [_deserialize_room] raises on [data]: [data] is no object or has
    no type ([TypeError], [KeyError]); or the type is null, a boolean
    or a number, on which [in] raises [TypeError]; or one of the three
    keys that every branch reads is not there ([KeyError]). *)
Definition room_raises (data : json) : bool :=
  match jget "type" data with
  | None | Some JNull | Some (JBool _) | Some (JNum _) => true
  | Some _ =>
      negb (has_key "room_id" data && has_key "name" data
            && has_key "capacity" data)
  end.

(** [datetime.fromisoformat(item[key])] raises: the key is not there
    ([KeyError]), or its value is no string ([TypeError]). *)
Definition timestamp_raises (key : string) (item : json) : bool :=
  match jget key item with
  | Some (JStr _) => false
  | _ => true
  end.

(** The body of the loop of [_load_reservations] raises on [item]:
    the record is no object, or one of the five keys that the body
    reads with [item[...]] is not there, or the room or a timestamp
    makes the call that reads it raise. *)
Definition item_raises (item : json) : bool :=
  match jget "room" item with
  | Some data => room_raises data
  | None => true
  end
  || negb (has_key "reservation_id" item)
  || negb (has_key "user_name" item)
  || timestamp_raises "start_time" item
  || timestamp_raises "end_time" item.

(** The file cannot be read or parsed: there is no file, or its text
    is no JSON, or the document is not an array (iterating it raises,
    or yields characters or keys on which the body raises, or
    nothing), or the body of the loop raises on one of the records. In
    each case [_load_reservations] ends in its [except] block or with
    no record. *)
Definition unreadable (self : file_state) : bool :=
  match content self with
  | Json (JArr data) => existsb item_raises data
  | _ => true
  end.

(** The list that [FileRepository.save] writes, given the list it
    loaded. *)
Definition upserted (r : Reservation) (l : list Reservation)
    : list Reservation :=
  match FileRepository.update_first r l with
  | Some updated => updated
  | None => append l r
  end.

(** The character does not occur in the string. *)
Fixpoint avoids (c : ascii) (s : string) : bool :=
  match s with
  | String c' s' => negb (Ascii.eqb c c') && avoids c s'
  | EmptyString => true
  end.

(** The [lab_type] of a laboratory holds none of the three words that
    [_deserialize_room] looks for; true of every other room. *)
Definition lab_type_is_plain (room' : Room) : bool :=
  match room' with
  | Laboratory _ _ _ lab_type _ =>
      negb (contains "Classroom" lab_type || contains "Conference" lab_type
            || contains "Computer" lab_type)
  | _ => true
  end.

(** [r'] has the identifier, room variant, room identifier, room
    capacity, user name, timestamps, purpose and status of [r]. *)
Definition reproduces (r r' : Reservation) : Prop :=
  reservation_id r' = reservation_id r
  ∧ kind_of (room r') = kind_of (room r)
  ∧ room_id (room r') = room_id (room r)
  ∧ capacity (room r') = capacity (room r)
  ∧ user_name r' = user_name r
  ∧ start_time r' = start_time r
  ∧ end_time r' = end_time r
  ∧ purpose r' = purpose r
  ∧ status r' = status r.

(** Saving [r] and looking its identifier up again reproduces it. *)
Definition round_trips (f : file_state) (r : Reservation) : Prop :=
  ∃ r', find_by_id (reservation_id r) (save r f).2 = Some r'
        ∧ reproduces r r'.

(** The variant that the substring rule assigns to a type tag. *)
Definition kind_of_tag (room_type : string) : room_kind :=
  if contains "Classroom" room_type then KClassroom
  else if contains "Conference" room_type then KConferenceRoom
  else if contains "Computer" room_type then KComputerLab
  else KLaboratory.

(** *** Calls on a repository *)

Inductive repo_call :=
  | CallSave (reservation : Reservation)
  | CallFindById (reservation_id : string)
  | CallFindByRoomAndTime (room : Room) (start_time end_time : datetime)
  | CallFindAll
  | CallDelete (reservation_id : string).

Inductive repo_result :=
  | ResBool (b : bool)
  | ResOption (o : option Reservation)
  | ResList (l : list Reservation).

(** One call: what it returns, and the state it leaves. *)
Definition call {S : Type} `{!IReservationRepository S} (c : repo_call)
    (st : S) : repo_result * S :=
  match c with
  | CallSave r => let '(b, st') := save r st in (ResBool b, st')
  | CallFindById i => (ResOption (find_by_id i st), st)
  | CallFindByRoomAndTime room' s e =>
      (ResList (find_by_room_and_time room' s e st), st)
  | CallFindAll => (ResList (find_all st), st)
  | CallDelete i => let '(b, st') := delete i st in (ResBool b, st')
  end.

(** The same result, lists being compared up to their order. *)
Definition same_result (a b : repo_result) : Prop :=
  match a, b with
  | ResBool x, ResBool y => x = y
  | ResOption x, ResOption y => x = y
  | ResList x, ResList y => x ≡ₚ y
  | _, _ => False
  end.

(** Every call of the sequence returns the same result on the
    dictionary [m] and on the file [f]. *)
Fixpoint results_same (calls : list repo_call)
    (m : gmap string Reservation) (f : file_state) : Prop :=
  match calls with
  | [] => True
  | c :: calls' =>
      same_result (call c m).1 (call c f).1
      ∧ results_same calls' (call c m).2 (call c f).2
  end.

(** The call is a [delete] of an identifier that is not stored. *)
Definition deletes_absent (c : repo_call) (m : gmap string Reservation)
    : Prop :=
  match c with
  | CallDelete i => m !! i = None
  | _ => False
  end.

(** As [results_same], except that nothing is asked of the result of
    a [delete] of an identifier that is not stored. *)
Fixpoint results_agree (calls : list repo_call)
    (m : gmap string Reservation) (f : file_state) : Prop :=
  match calls with
  | [] => True
  | c :: calls' =>
      (deletes_absent c m ∨ same_result (call c m).1 (call c f).1)
      ∧ results_agree calls' (call c m).2 (call c f).2
  end.

(** The attributes of the variant have the values that the
    constructor gives them by default, as in every room that
    [_deserialize_room] builds. *)
Definition default_equipped (room' : Room) : bool :=
  match room' with
  | Classroom _ _ _ has_projector whiteboard => has_projector && whiteboard
  | ConferenceRoom _ _ _ video_conference sound_system =>
      video_conference && sound_system
  | Laboratory _ _ _ lab_type safety_equipment =>
      bool_decide (lab_type = "General") && safety_equipment
  | ComputerLab _ _ capacity num_computers has_printer =>
      bool_decide (num_computers = capacity) && has_printer
  end.

(** A reservation that the file format stores without loss. *)
Definition storable (r : Reservation) : Prop :=
  valid_times r ∧ default_equipped (room r) = true.

Definition storable_call (c : repo_call) : Prop :=
  match c with
  | CallSave r => storable r
  | _ => True
  end.

(** The dictionary with the reservations of [l] under their
    identifiers. *)
Definition keyed (l : list Reservation) : list (string * Reservation) :=
  (λ r, (reservation_id r, r)) <$> l.

(** The dictionary [m] and the file [f] hold the same reservations:
    the file can be written, and its records are the serialized forms
    of a list of storable reservations, distinct in their identifiers,
    of which [m] is the dictionary. *)
Definition same_store (m : gmap string Reservation) (f : file_state) : Prop :=
  disk f = WriteOk
  ∧ ∃ l, content f = Json (JArr (FileRepository.serialize_reservation <$> l))
         ∧ Forall storable l
         ∧ NoDup (reservation_id <$> l)
         ∧ m = list_to_map (keyed l).

(** *** Calls on the service, and the booking invariant *)

Inductive service_call :=
  | CallCreate (uuid_hex : string) (room : Room) (user_name : string)
      (start_time end_time : datetime) (purpose : string)
  | CallCancel (reservation_id : string).

(** The world after one call of the service, and after a sequence of
    calls. *)
Definition serve {S : Type} `{!IReservationRepository S} (c : service_call)
    (w : ReservationService.world S) : ReservationService.world S :=
  match c with
  | CallCreate uuid_hex room' user s e purpose' =>
      (ReservationService.create_reservation uuid_hex room' user s e
         purpose' w).2
  | CallCancel i => (ReservationService.cancel_reservation i w).2
  end.

Definition serve_all {S : Type} `{!IReservationRepository S}
    (calls : list service_call) (w : ReservationService.world S)
    : ReservationService.world S :=
  fold_left (λ w c, serve c w) calls w.

(** The half-open overlap of the intervals of two reservations:
    [start_A < end_B] and [start_B < end_A]. *)
Definition intervals_overlap (a b : Reservation) : bool :=
  Dt.lt (start_time a) (end_time b) && Dt.lt (start_time b) (end_time a).

(** No two reservations of the list (at two different positions) that
    are both not cancelled and on the same room overlap. *)
Definition no_double_booking (l : list Reservation) : Prop :=
  ∀ (i j : nat) (a b : Reservation),
    i ≠ j → l !! i = Some a → l !! j = Some b →
    room_id (room a) = room_id (room b) →
    status a ≠ "CANCELLED" → status b ≠ "CANCELLED" →
    intervals_overlap a b = false.

(** The same, for two reservations with different identifiers. *)
Definition booked (l : list Reservation) : Prop :=
  ∀ a b : Reservation,
    a ∈ l → b ∈ l → reservation_id a ≠ reservation_id b →
    room_id (room a) = room_id (room b) →
    status a ≠ "CANCELLED" → status b ≠ "CANCELLED" →
    intervals_overlap a b = false.

(** [b] is the same booking as [a]: identifier, room identifier,
    interval and status. *)
Definition same_booking (a b : Reservation) : Prop :=
  reservation_id b = reservation_id a
  ∧ room_id (room b) = room_id (room a)
  ∧ start_time b = start_time a
  ∧ end_time b = end_time a
  ∧ status b = status a.

(** What the service relies on in a repository. [wf] is the
    invariant of its states, [ok] the reservations it stores
    faithfully. *)
Class RepositoryLaws (S : Type) `{!IReservationRepository S}
    (wf : S → Prop) (ok : Reservation → Prop) : Prop := {
  law_conflicts st room' s e :
    wf st →
    find_by_room_and_time room' s e st
    = collect_overlapping room' s e (find_all st);
  law_find_by_id st i r :
    wf st → find_by_id i st = Some r →
    r ∈ find_all st ∧ reservation_id r = i;
  law_stored_ok st r : wf st → r ∈ find_all st → ok r;
  law_ok_cancel r : ok r → ok (cancel r);
  law_unique st : wf st → NoDup (reservation_id <$> find_all st);
  law_save st r b st' :
    wf st → ok r → save r st = (b, st') →
    wf st'
    ∧ ∀ x, x ∈ find_all st' →
        (b = true ∧ same_booking r x)
        ∨ ∃ y, y ∈ find_all st ∧ same_booking y x
               ∧ (b = true → reservation_id y ≠ reservation_id r) }.

(** The reservation that a call of [create_reservation] builds is one
    that the repository stores faithfully. *)
Definition service_call_ok (ok : Reservation → Prop) (c : service_call)
    : Prop :=
  match c with
  | CallCreate uuid_hex room' user s e purpose' =>
      ok (new_Reservation
            (ReservationService._generate_reservation_id uuid_hex)
            room' user s e purpose')
  | CallCancel _ => True
  end.

(** The timestamps of the calls are valid datetimes. *)
Definition service_call_valid (c : service_call) : Prop :=
  match c with
  | CallCreate _ _ _ s e _ =>
      valid_datetime s = true ∧ valid_datetime e = true
  | CallCancel _ => True
  end.

(** The keys of the dictionary are the identifiers of its values. *)
Definition keys_are_ids (m : gmap string Reservation) : Prop :=
  ∀ k r, m !! k = Some r → reservation_id r = k.

(** The records of the file have distinct identifiers. *)
Definition ids_distinct (f : file_state) : Prop :=
  NoDup (reservation_id <$> FileRepository._load_reservations f).

(** Sample data, in the manner of the tests of the repository. *)
Module Sample.

Definition room101 : Room := new_Classroom "CL-101" "Test Room" 30.

(** 20 December 2025 at the given hour. *)
Definition at_hour (h : Z) : datetime :=
  mk_datetime (mk_date 2025 12 20) (mk_time h 0 0 0).

Definition booking : Reservation :=
  new_Reservation "RES-00000001" room101 "John Doe" (at_hour 9) (at_hour 11)
    "Test".

Definition empty_memory : gmap string Reservation := InMemoryRepository.init.

Definition empty_file : file_state := mk_file_state (Json (JArr [])) WriteOk.

Definition cs_lab : Room :=
  Laboratory "LAB-303" "CS Lab" 20 "Computer Science" true.

Definition cs_booking : Reservation :=
  new_Reservation "RES-00000002" cs_lab "Jane Smith" (at_hour 14) (at_hour 16)
    "Seminar".

Definition bare_room : Room := Classroom "CL-102" "Bare Room" 30 false true.

Definition bare_booking : Reservation :=
  new_Reservation "RES-00000004" bare_room "John Doe" (at_hour 9) (at_hour 11)
    "Exam".

Definition chemistry_lab : Room :=
  Laboratory "LAB-301" "Chemistry Lab" 25 "Chemistry" true.

Definition chemistry_booking : Reservation :=
  new_Reservation "RES-00000003" chemistry_lab "Jane Smith" (at_hour 14)
    (at_hour 16) "Titration".

End Sample.

(** *** Sequences of repository calls *)

(** The timestamps of a saved reservation are valid datetimes. *)
Definition valid_call (c : repo_call) : Prop :=
  match c with
  | CallSave r => valid_times r
  | _ => True
  end.

(** The state that a sequence of calls leaves. *)
Definition after_calls {S : Type} `{!IReservationRepository S}
    (calls : list repo_call) (st : S) : S :=
  fold_left (λ st c, (call c st).2) calls st.

(** The records of [serialize_reservation r], without the fields
    [purpose] and [status]. *)
Definition bare_record (r : Reservation) : json :=
  JObj [("reservation_id", JStr (reservation_id r));
        ("room", FileRepository._serialize_room (room r));
        ("user_name", JStr (user_name r));
        ("start_time", JStr (isoformat (start_time r)));
        ("end_time", JStr (isoformat (end_time r)))].

(** *** Shapes of strings *)

(** Every character of the string passes the test. *)
Fixpoint string_forall (P : ascii → bool) (s : string) : bool :=
  match s with
  | String c s' => P c && string_forall P s'
  | EmptyString => true
  end.

(** A digit or a letter from [a] to [f]; respectively from [A] to [F]. *)
Definition is_hex_lower (c : ascii) : bool :=
  let n := nat_of_ascii c in
  ((48 <=? n) && (n <=? 57) || (97 <=? n) && (n <=? 102))%nat.

Definition is_hex_upper (c : ascii) : bool :=
  let n := nat_of_ascii c in
  ((48 <=? n) && (n <=? 57) || (65 <=? n) && (n <=? 70))%nat.

(** ** The capacity validator (services/validation_service.py) *)

Module CapacityValidator.

Section Validate.

(** The floats of the third test are left open: [float] is the type
    of the floats; [nine_tenths c] is the float [c * 0.9], where the
    integer is converted and the product rounded, and [None] stands
    for the [OverflowError] of an integer too large for a float;
    [exceeds n x] is the comparison [n > x] of an integer with a
    float. *)
Variable float : Type.
Variable nine_tenths : Z → option float.
Variable exceeds : Z → float → bool.

(** The text of [(num_attendees / room.capacity) * 100] under the
    format [.0f]. The two operations are on floats and the format
    rounds; the text is left open. *)
Variable percent_text : Z → Z → string.

(** [validate]; [None] stands for the exception that escapes when the
    product of the third test cannot be formed. *)
Definition validate (room' : Room) (num_attendees : Z)
    : option (bool * option string) :=
  if num_attendees <=? 0 then
    Some (false, Some "Number of attendees must be positive")
  else if capacity room' <? num_attendees then
    Some (false,
          Some ("Room capacity (" +:+ pretty (capacity room')
                +:+ ") exceeded by "
                +:+ pretty (num_attendees - capacity room') +:+ " people"))
  else
    x ← nine_tenths (capacity room');
    if exceeds num_attendees x then
      Some (true,
            Some ("⚠️ Warning: Room will be at "
                  +:+ percent_text num_attendees (capacity room')
                  +:+ "% capacity"))
    else Some (true, None).

End Validate.

(** The outcome of [validate] is a verdict with or without a
    message. *)
Definition accepts (out : option (bool * option string)) : Prop :=
  ∃ message, out = Some (true, message).

Definition refuses (out : option (bool * option string)) : Prop :=
  ∃ message, out = Some (false, message).

End CapacityValidator.

(** ** The room factory (services/factory_pattern.py) *)

Module RoomFactory.

(** The keyword arguments that [create_room] reads, each given or
    not. *)
Record kwargs := mk_kwargs {
  has_projector : option bool;
  whiteboard : option bool;
  video_conference : option bool;
  sound_system : option bool;
  lab_type : option string;
  safety_equipment : option bool;
  num_computers : option Z;
  has_printer : option bool }.

Definition no_kwargs : kwargs :=
  mk_kwargs None None None None None None None None.

(** [str.lower()] on ASCII text. *)
Definition lower_char (c : ascii) : ascii :=
  let n := nat_of_ascii c in
  if ((65 <=? n) && (n <=? 90))%nat then ascii_of_nat (n + 32) else c.

Fixpoint lower (s : string) : string :=
  match s with
  | String c s' => String (lower_char c) (lower s')
  | EmptyString => EmptyString
  end.

(** [s.replace(' ', '_')] *)
Fixpoint replace_spaces (s : string) : string :=
  match s with
  | String c s' =>
      String (if Ascii.eqb c " " then "_"%char else c) (replace_spaces s')
  | EmptyString => EmptyString
  end.

(** [create_room]; [None] is the [None] that it returns for a type it
    does not know. *)
Definition create_room (room_type room_id' name' : string) (capacity' : Z)
    (kw : kwargs) : option Room :=
  let room_type := replace_spaces (lower room_type) in
  if bool_decide (room_type = "classroom") then
    Some (Classroom room_id' name' capacity'
            (default true (has_projector kw)) (default true (whiteboard kw)))
  else if bool_decide (room_type = "conference")
          || bool_decide (room_type = "conference_room") then
    Some (ConferenceRoom room_id' name' capacity'
            (default true (video_conference kw))
            (default true (sound_system kw)))
  else if bool_decide (room_type = "laboratory")
          || bool_decide (room_type = "lab") then
    Some (Laboratory room_id' name' capacity'
            (default "General" (lab_type kw))
            (default true (safety_equipment kw)))
  else if bool_decide (room_type = "computer_lab") then
    Some (init_ComputerLab room_id' name' capacity'
            (default capacity' (num_computers kw))
            (default true (has_printer kw)))
  else None.

Definition get_available_types : list string :=
  ["classroom"; "conference"; "laboratory"; "computer_lab"].

End RoomFactory.

(** ** Observers of reservation events (services/observer_pattern.py) *)

Module Observers.

(** An entry of the audit log, a dict with these five keys. *)
Record log_entry := mk_log_entry {
  log_timestamp : datetime;
  log_event : string;
  log_reservation_id : string;
  log_room : string;
  log_user : string }.

(** The two observer classes with their attributes. *)
Inductive observer :=
  | StatisticsObserver
      (total_created total_cancelled total_modified active_reservations : Z)
  | AuditLogObserver (audit_log : list log_entry).

(** The two [__init__]. *)
Definition new_StatisticsObserver : observer := StatisticsObserver 0 0 0 0.
Definition new_AuditLogObserver : observer := AuditLogObserver [].

(** What the handlers act on besides the observer: the number of
    readings of the clock so far, and the lines printed, oldest
    first. *)
Record env := mk_env {
  reads : nat;
  printed : list string }.

Definition print (line : string) (e : env) : env :=
  mk_env (reads e) (append (printed e) line).

Section Clock.

(** [now n] is what the [n]-th call of [datetime.now()] returns. *)
Variable now : nat → datetime.

Definition _log_event (event_type : string) (reservation : Reservation)
    (audit_log : list log_entry) (e : env) : list log_entry * env :=
  let entry :=
    mk_log_entry (now (reads e)) event_type (reservation_id reservation)
      (name (room reservation)) (user_name reservation) in
  (append audit_log entry,
   print ("📝 Audit: " +:+ event_type +:+ " - " +:+ reservation_id reservation
          +:+ " by " +:+ user_name reservation)
     (mk_env (S (reads e)) (printed e))).

Definition on_reservation_created (reservation : Reservation) (self : observer)
    (e : env) : observer * env :=
  match self with
  | StatisticsObserver total_created total_cancelled total_modified
      active_reservations =>
      let total_created := total_created + 1 in
      let active_reservations := active_reservations + 1 in
      (StatisticsObserver total_created total_cancelled total_modified
         active_reservations,
       print ("📊 Stats: " +:+ pretty total_created +:+ " created, "
              +:+ pretty active_reservations +:+ " active") e)
  | AuditLogObserver audit_log =>
      let '(audit_log, e) := _log_event "CREATED" reservation audit_log e in
      (AuditLogObserver audit_log, e)
  end.

Definition on_reservation_cancelled (reservation : Reservation)
    (self : observer) (e : env) : observer * env :=
  match self with
  | StatisticsObserver total_created total_cancelled total_modified
      active_reservations =>
      let total_cancelled := total_cancelled + 1 in
      let active_reservations := active_reservations - 1 in
      (StatisticsObserver total_created total_cancelled total_modified
         active_reservations,
       print ("📊 Stats: " +:+ pretty total_cancelled +:+ " cancelled, "
              +:+ pretty active_reservations +:+ " active") e)
  | AuditLogObserver audit_log =>
      let '(audit_log, e) := _log_event "CANCELLED" reservation audit_log e in
      (AuditLogObserver audit_log, e)
  end.

Definition on_reservation_modified (reservation : Reservation)
    (self : observer) (e : env) : observer * env :=
  match self with
  | StatisticsObserver total_created total_cancelled total_modified
      active_reservations =>
      let total_modified := total_modified + 1 in
      (StatisticsObserver total_created total_cancelled total_modified
         active_reservations,
       print ("📊 Stats: " +:+ pretty total_modified +:+ " modified") e)
  | AuditLogObserver audit_log =>
      let '(audit_log, e) := _log_event "MODIFIED" reservation audit_log e in
      (AuditLogObserver audit_log, e)
  end.

(** *** The subject *)

(** The observers are objects that the subject and its users share: an
    observer is known by its identity, a number, and [objects] gives
    the object of each identity. The list [_observers] of the subject
    holds identities; [in] and [remove] compare by identity, as the
    observer classes define no equality. *)
Definition objects := gmap nat observer.

Definition attach (observer : nat) (_observers : list nat) : list nat :=
  if bool_decide (observer ∈ _observers) then _observers
  else append _observers observer.

(** [list.remove]: the first occurrence is removed. *)
Fixpoint list_remove (x : nat) (l : list nat) : list nat :=
  match l with
  | [] => []
  | y :: l' => if bool_decide (y = x) then l' else y :: list_remove x l'
  end.

Definition detach (observer : nat) (_observers : list nat) : list nat :=
  if bool_decide (observer ∈ _observers) then list_remove observer _observers
  else _observers.

(** The loop of the three [notify_] methods, over the handler that
    each one calls. An identity without an object does not occur in a
    running program; it is passed over. *)
Fixpoint for_each (handler : observer → env → observer * env)
    (_observers : list nat) (h : objects) (e : env) : objects * env :=
  match _observers with
  | [] => (h, e)
  | a :: rest =>
      match h !! a with
      | Some o =>
          let '(o', e') := handler o e in
          for_each handler rest (<[a := o']> h) e'
      | None => for_each handler rest h e
      end
  end.

Definition notify_created (reservation : Reservation) :=
  for_each (on_reservation_created reservation).

Definition notify_cancelled (reservation : Reservation) :=
  for_each (on_reservation_cancelled reservation).

Definition notify_modified (reservation : Reservation) :=
  for_each (on_reservation_modified reservation).

End Clock.

(** *** Sequences of events and of calls *)

Inductive event_kind := Created | Cancelled | Modified.

#[export] Instance event_kind_eq_dec : EqDecision event_kind.
Proof. solve_decision. Defined.

(** The handler of an observer for an event of the given kind. *)
Definition handle (now : nat → datetime) (ev : event_kind * Reservation)
    (self : observer) (e : env) : observer * env :=
  match ev.1 with
  | Created => on_reservation_created now ev.2 self e
  | Cancelled => on_reservation_cancelled now ev.2 self e
  | Modified => on_reservation_modified now ev.2 self e
  end.

(** The [notify_] method of the subject for an event of the given
    kind. *)
Definition notify (now : nat → datetime) (ev : event_kind * Reservation)
    : list nat → objects → env → objects * env :=
  match ev.1 with
  | Created => notify_created now ev.2
  | Cancelled => notify_cancelled now ev.2
  | Modified => notify_modified now ev.2
  end.

(** An observer that receives the events one after the other. *)
Fixpoint handle_all (now : nat → datetime)
    (evs : list (event_kind * Reservation)) (self : observer) (e : env)
    : observer * env :=
  match evs with
  | [] => (self, e)
  | ev :: evs' =>
      let '(self', e') := handle now ev self e in
      handle_all now evs' self' e'
  end.

(** The number of events of one kind. *)
Definition count_kind (k : event_kind)
    (evs : list (event_kind * Reservation)) : Z :=
  Z.of_nat (length (filter (λ ev, ev.1 = k) evs)).

(** The entry that [_log_event] writes for an event read at [t]. *)
Definition entry_of (t : datetime) (ev : event_kind * Reservation)
    : log_entry :=
  mk_log_entry t
    match ev.1 with
    | Created => "CREATED"
    | Cancelled => "CANCELLED"
    | Modified => "MODIFIED"
    end
    (reservation_id ev.2) (name (room ev.2)) (user_name ev.2).

(** A call of [attach] or of [detach] on a subject. *)
Inductive subject_call :=
  | Attach (observer : nat)
  | Detach (observer : nat).

Definition subject_step (_observers : list nat) (c : subject_call) : list nat :=
  match c with
  | Attach a => attach a _observers
  | Detach a => detach a _observers
  end.

(** The list of a new subject after the calls, in order. *)
Definition subject_after (calls : list subject_call) : list nat :=
  foldl subject_step [] calls.

End Observers.

(** * Properties *)

(** ** Order on naive datetimes *)

Lemma time_cmp_refl t : time_cmp t t = Eq.
Proof. unfold time_cmp. by rewrite !Z.compare_refl. Qed.

Lemma date_cmp_refl d : date_cmp d d = Eq.
Proof. unfold date_cmp. by rewrite !Z.compare_refl. Qed.

Lemma datetime_cmp_refl t : datetime_cmp t t = Eq.
Proof. unfold datetime_cmp. by rewrite date_cmp_refl, time_cmp_refl. Qed.

Lemma lt_irrefl t : Dt.lt t t = false.
Proof. unfold Dt.lt. by rewrite datetime_cmp_refl. Qed.

Lemma lex_opp c1 c2 : CompOpp (lex c1 c2) = lex (CompOpp c1) (CompOpp c2).
Proof. by destruct c1. Qed.

Lemma datetime_cmp_antisym a b : datetime_cmp b a = CompOpp (datetime_cmp a b).
Proof.
  unfold datetime_cmp, date_cmp, time_cmp.
  rewrite !lex_opp, <- !Z.compare_antisym. done.
Qed.

Lemma lt_asym a b : Dt.lt a b = true → Dt.lt b a = false.
Proof.
  unfold Dt.lt. rewrite (datetime_cmp_antisym a b).
  by destruct (datetime_cmp a b).
Qed.

Lemma gt_lt a b : Dt.gt a b = Dt.lt b a.
Proof.
  unfold Dt.gt, Dt.lt. rewrite (datetime_cmp_antisym a b).
  by destruct (datetime_cmp a b).
Qed.

(** ** The validator *)

Section ValidatorProperties.
Import Validator.

(** C7. [validate_all] runs every rule whatever the outcome of the
    others: the list it returns is, rule by rule and in the order of
    the rules, the message of each rule that is violated (followed by
    the small-room message when the capacity is below 5). An input
    that violates the time order, the duration bounds and the business
    hours therefore gets at least three messages. *)
Theorem validate_all_collects_every_violation
    (self : ReservationValidator) (now1 now2 : datetime) (room : Room)
    (start_time end_time : datetime) (user_name : string) :
  let errors :=
    (validate_all self now1 now2 room start_time end_time user_name).2 in
  errors =
    ((if _validate_time_order start_time end_time then []
      else ["End time must be after start time"])
     ++ option_to_list (_validate_duration self start_time end_time)
     ++ option_to_list (_validate_business_hours self start_time end_time)
     ++ option_to_list (_validate_advance_booking self now1 start_time)
     ++ (if _validate_not_in_past now2 start_time then []
         else ["Cannot book reservations in the past"])
     ++ (if _validate_user_name user_name then []
         else ["User name must be at least 2 characters"])
     ++ (if capacity room <? 5 then [small_capacity_warning room]
         else []))%list
  ∧ (_validate_time_order start_time end_time = false →
     is_Some (_validate_duration self start_time end_time) →
     is_Some (_validate_business_hours self start_time end_time) →
     (3 ≤ length errors)%nat).
Proof.
  assert (Heq : (validate_all self now1 now2 room start_time end_time
                   user_name).2 =
    ((if _validate_time_order start_time end_time then []
      else ["End time must be after start time"])
     ++ option_to_list (_validate_duration self start_time end_time)
     ++ option_to_list (_validate_business_hours self start_time end_time)
     ++ option_to_list (_validate_advance_booking self now1 start_time)
     ++ (if _validate_not_in_past now2 start_time then []
         else ["Cannot book reservations in the past"])
     ++ (if _validate_user_name user_name then []
         else ["User name must be at least 2 characters"])
     ++ (if capacity room <? 5 then [small_capacity_warning room]
         else []))%list).
  { unfold validate_all. cbn [snd].
    destruct (_validate_time_order start_time end_time),
      (_validate_duration self start_time end_time),
      (_validate_business_hours self start_time end_time),
      (_validate_advance_booking self now1 start_time),
      (_validate_not_in_past now2 start_time),
      (_validate_user_name user_name),
      (capacity room <? 5); reflexivity. }
  cbv zeta. split; [exact Heq|].
  intros Horder [d Hd] [h Hh]. rewrite Heq, Horder, Hd, Hh.
  cbn [option_to_list]. rewrite !length_app. cbn [length]. lia.
Qed.

(** A concrete input that breaks the three rules named in C7. *)
Lemma validate_all_collects_every_violation_witness :
  (3 ≤ length
     (validate_all default
        (mk_datetime (mk_date 2025 12 1) (mk_time 12 0 0 0))
        (mk_datetime (mk_date 2025 12 1) (mk_time 12 0 0 0))
        (new_Classroom "CL-101" "Test Room" 30)
        (mk_datetime (mk_date 2025 12 20) (mk_time 6 0 0 0))
        (mk_datetime (mk_date 2025 12 20) (mk_time 5 0 0 0))
        "John Doe").2)%nat.
Proof.
  refine (proj2 (validate_all_collects_every_violation default
           (mk_datetime (mk_date 2025 12 1) (mk_time 12 0 0 0))
           (mk_datetime (mk_date 2025 12 1) (mk_time 12 0 0 0))
           (new_Classroom "CL-101" "Test Room" 30)
           (mk_datetime (mk_date 2025 12 20) (mk_time 6 0 0 0))
           (mk_datetime (mk_date 2025 12 20) (mk_time 5 0 0 0))
           "John Doe") _ _ _).
  - reflexivity.
  - vm_compute. eexists. reflexivity.
  - vm_compute. eexists. reflexivity.
Defined.

(** When every rule passes, the only message is the small-room one,
    and it alone decides the flag. *)
Lemma validate_all_when_rules_pass
    (self : ReservationValidator) (now1 now2 : datetime) (room : Room)
    (start_time end_time : datetime) (user_name : string) :
  _validate_time_order start_time end_time = true →
  _validate_duration self start_time end_time = None →
  _validate_business_hours self start_time end_time = None →
  _validate_advance_booking self now1 start_time = None →
  _validate_not_in_past now2 start_time = true →
  _validate_user_name user_name = true →
  validate_all self now1 now2 room start_time end_time user_name =
    if capacity room <? 5 then (false, [small_capacity_warning room])
    else (true, []).
Proof.
  intros H1 H2 H3 H4 H5 H6. unfold validate_all.
  rewrite H1, H2, H3, H4, H5, H6. cbn [negb].
  by destruct (capacity room <? 5).
Qed.

(** C8. A request that passes every rule, for a room of capacity 4
    (the validator with its default settings, a two-hour slot inside
    business hours, nineteen days ahead): the small-room warning is
    the only message, and [is_valid] is false. *)
Theorem validate_all_small_room_is_invalid :
  validate_all default
    (mk_datetime (mk_date 2025 12 1) (mk_time 12 0 0 0))
    (mk_datetime (mk_date 2025 12 1) (mk_time 12 0 0 0))
    (new_Classroom "CL-001" "Study Cell" 4)
    (mk_datetime (mk_date 2025 12 20) (mk_time 9 0 0 0))
    (mk_datetime (mk_date 2025 12 20) (mk_time 11 0 0 0))
    "John Doe"
  = (false, ["⚠️ Warning: Small room capacity (4 people)"]).
Proof. vm_compute. reflexivity. Qed.

End ValidatorProperties.

(** ** The conflict query *)

Lemma conflicts_with_true room' s e x :
  conflicts_with room' s e x = true ↔
  room_id (room x) = room_id room' ∧ status x ≠ "CANCELLED"
  ∧ Dt.lt (start_time x) e = true ∧ Dt.lt s (end_time x) = true.
Proof.
  unfold conflicts_with, overlaps_with.
  rewrite !andb_true_iff, negb_true_iff, bool_decide_eq_true,
    bool_decide_eq_false.
  tauto.
Qed.

Lemma collect_overlapping_from room' s e l acc :
  fold_left
    (λ overlapping reservation,
       if conflicts_with room' s e reservation
       then append overlapping reservation else overlapping) l acc
  = (acc ++ List.filter (conflicts_with room' s e) l)%list.
Proof.
  revert acc. induction l as [|x l IH]; intros acc; cbn.
  - by rewrite app_nil_r.
  - rewrite IH. destruct (conflicts_with room' s e x); [|done].
    unfold append. by rewrite <- app_assoc.
Qed.

Lemma collect_overlapping_filter room' s e l :
  collect_overlapping room' s e l = List.filter (conflicts_with room' s e) l.
Proof. unfold collect_overlapping. by rewrite collect_overlapping_from. Qed.

Lemma collect_overlapping_spec room' s e l :
  collect_overlapping room' s e l =
  filter (λ x, room_id (room x) = room_id room' ∧ status x ≠ "CANCELLED"
               ∧ Dt.lt (start_time x) e = true
               ∧ Dt.lt s (end_time x) = true) l.
Proof.
  rewrite collect_overlapping_filter.
  induction l as [|x l IH]; [done|]. cbn [List.filter].
  rewrite filter_cons, <- IH.
  destruct (conflicts_with room' s e x) eqn:Hc.
  - apply conflicts_with_true in Hc. by rewrite decide_True.
  - rewrite decide_False; [done|].
    intros Hx. apply conflicts_with_true in Hx. congruence.
Qed.

Lemma elem_of_collect_overlapping room' s e l x :
  x ∈ collect_overlapping room' s e l ↔
  x ∈ l ∧ room_id (room x) = room_id room' ∧ status x ≠ "CANCELLED"
  ∧ Dt.lt (start_time x) e = true ∧ Dt.lt s (end_time x) = true.
Proof. rewrite collect_overlapping_spec, list_elem_of_filter. tauto. Qed.

Lemma elem_of_values (m : gmap string Reservation) x :
  x ∈ InMemoryRepository.values m ↔ ∃ k, m !! k = Some x.
Proof.
  unfold InMemoryRepository.values. rewrite list_elem_of_fmap. split.
  - intros [[k y] [-> Hin]]. exists k. by apply elem_of_map_to_list.
  - intros [k Hk]. exists (k, x). split; [done|].
    by apply elem_of_map_to_list.
Qed.

(** C2. In both repositories [find_by_room_and_time] returns the
    stored reservations (the values of the dictionary, respectively
    the records loaded from the file) that are on the room with the
    identifier asked for, are not cancelled, and overlap the range
    under the half-open rule, and nothing else. A cancelled
    reservation is never returned, and neither is one whose interval
    only touches the range at an endpoint. *)
Theorem find_by_room_and_time_exact
    (m : gmap string Reservation) (f : file_state)
    (room' : Room) (s e : datetime) :
  let wanted x :=
    room_id (room x) = room_id room' ∧ status x ≠ "CANCELLED"
    ∧ Dt.lt (start_time x) e = true ∧ Dt.lt s (end_time x) = true in
  find_by_room_and_time room' s e m = filter wanted (find_all m)
  ∧ find_by_room_and_time room' s e f = filter wanted (find_all f)
  ∧ (∀ x, x ∈ find_all m ↔ ∃ k, m !! k = Some x)
  ∧ (∀ x, x ∈ find_by_room_and_time room' s e m
          ∨ x ∈ find_by_room_and_time room' s e f →
          status x ≠ "CANCELLED" ∧ end_time x ≠ s ∧ start_time x ≠ e).
Proof.
  cbv zeta. cbn [find_by_room_and_time find_all InMemory_repository
                 File_repository].
  unfold InMemoryRepository.find_by_room_and_time,
    FileRepository.find_by_room_and_time, InMemoryRepository.find_all,
    FileRepository.find_all.
  split_and!.
  - apply collect_overlapping_spec.
  - apply collect_overlapping_spec.
  - apply elem_of_values.
  - intros x Hx.
    assert (status x ≠ "CANCELLED" ∧ Dt.lt (start_time x) e = true
            ∧ Dt.lt s (end_time x) = true) as (Hst & Hlt1 & Hlt2).
    { destruct Hx as [Hx|Hx]; apply elem_of_collect_overlapping in Hx; tauto. }
    split_and!; [done| |].
    + intros Heq. rewrite Heq, lt_irrefl in Hlt2. done.
    + intros Heq. rewrite Heq, lt_irrefl in Hlt1. done.
Qed.

Lemma find_by_room_and_time_exact_witness :
  status Sample.booking ≠ "CANCELLED"
  ∧ end_time Sample.booking ≠ Sample.at_hour 10
  ∧ start_time Sample.booking ≠ Sample.at_hour 12.
Proof.
  refine (proj2 (proj2 (proj2
    (find_by_room_and_time_exact
       (<["RES-00000001" := Sample.booking]> Sample.empty_memory)
       Sample.empty_file Sample.room101
       (Sample.at_hour 10) (Sample.at_hour 12)))) Sample.booking _).
  left. vm_compute. apply list_elem_of_here.
Defined.

(** ** The service, over any repository *)

Section ServiceProperties.
Import ReservationService.
Context {S : Type} `{!IReservationRepository S}.

(** C3. [create_reservation] on a range that is not in order, or on
    one for which the repository reports a conflict, returns nothing,
    leaves the repository as it was and calls no hook (it prints one
    line). Otherwise the reservation it builds is CONFIRMED and is
    handed to [save]; when [save] succeeds the confirmed hook is
    called once with it and it is returned, when [save] fails nothing
    is returned and no hook is called. *)
Theorem create_reservation_outcomes
    (uuid_hex : string) (room' : Room) (user : string) (s e : datetime)
    (purpose' : string) (w : world S) :
  let reservation :=
    new_Reservation (_generate_reservation_id uuid_hex) room' user s e
      purpose' in
  let out := create_reservation uuid_hex room' user s e purpose' w in
  (Dt.lt s e = false →
     out.1 = None ∧ repository out.2 = repository w
     ∧ ∃ line, events out.2 = (events w ++ [Print line])%list)
  ∧ (Dt.lt s e = true →
     find_by_room_and_time room' s e (repository w) ≠ [] →
     out.1 = None ∧ repository out.2 = repository w
     ∧ ∃ line, events out.2 = (events w ++ [Print line])%list)
  ∧ (Dt.lt s e = true →
     find_by_room_and_time room' s e (repository w) = [] →
     status reservation = "CONFIRMED"
     ∧ ∀ saved repository',
         save reservation (repository w) = (saved, repository') →
         repository out.2 = repository'
         ∧ if saved
           then out.1 = Some reservation
                ∧ events out.2
                  = (events w ++ [NotifyConfirmed reservation])%list
           else out.1 = None
                ∧ ∃ line, events out.2 = (events w ++ [Print line])%list).
Proof.
  cbv zeta. unfold create_reservation, _validate_time_range,
    _check_availability, emit, append.
  split_and!.
  - intros ->. cbn. eauto.
  - intros -> Hne. cbn [negb].
    rewrite bool_decide_eq_false_2.
    2:{ by destruct (find_by_room_and_time room' s e (repository w)). }
    cbn. eauto.
  - intros -> ->. cbn. split; [done|]. intros saved repository' ->.
    destruct saved; cbn; eauto.
Qed.

(** C9. [cancel_reservation] returns false when the identifier is not
    found, and when the reservation found is already CANCELLED; in
    both cases the repository is left as it was and no hook is called.
    Otherwise the reservation, now CANCELLED, is handed to [save];
    when [save] succeeds the cancelled hook is called once with it and
    the result is true, when [save] fails the result is false and no
    hook is called. *)
Theorem cancel_reservation_outcomes (i : string) (w : world S) :
  let out := cancel_reservation i w in
  (find_by_id i (repository w) = None →
     out.1 = false ∧ repository out.2 = repository w
     ∧ ∃ line, events out.2 = (events w ++ [Print line])%list)
  ∧ (∀ r, find_by_id i (repository w) = Some r →
       status r = "CANCELLED" →
       out.1 = false ∧ repository out.2 = repository w
       ∧ ∃ line, events out.2 = (events w ++ [Print line])%list)
  ∧ (∀ r, find_by_id i (repository w) = Some r →
       status r ≠ "CANCELLED" →
       status (cancel r) = "CANCELLED"
       ∧ ∀ saved repository',
           save (cancel r) (repository w) = (saved, repository') →
           repository out.2 = repository'
           ∧ if saved
             then out.1 = true
                  ∧ events out.2
                    = (events w ++ [NotifyCancelled (cancel r)])%list
             else out.1 = false
                  ∧ ∃ line, events out.2 = (events w ++ [Print line])%list).
Proof.
  cbv zeta. unfold cancel_reservation, emit, append.
  split_and!.
  - intros ->. cbn. eauto.
  - intros r -> Hst. rewrite bool_decide_eq_true_2 by done. cbn. eauto.
  - intros r -> Hst. rewrite bool_decide_eq_false_2 by done.
    split; [done|]. intros saved repository' ->.
    destruct saved; cbn; eauto.
Qed.

End ServiceProperties.

Lemma create_reservation_outcomes_witness :
  (ReservationService.create_reservation "0123abcd4567" Sample.room101
     "John Doe" (Sample.at_hour 9) (Sample.at_hour 11) "Test"
     (ReservationService.mk_world Sample.empty_memory [])).1
  = Some (new_Reservation "RES-0123ABCD" Sample.room101 "John Doe"
            (Sample.at_hour 9) (Sample.at_hour 11) "Test").
Proof.
  destruct (create_reservation_outcomes "0123abcd4567" Sample.room101
              "John Doe" (Sample.at_hour 9) (Sample.at_hour 11) "Test"
              (ReservationService.mk_world Sample.empty_memory []))
    as (_ & _ & H).
  destruct (H eq_refl eq_refl) as [_ H'].
  destruct (H' true _ eq_refl) as [_ [Hout _]].
  exact Hout.
Defined.

Lemma cancel_reservation_outcomes_witness :
  (ReservationService.cancel_reservation "RES-00000001"
     (ReservationService.mk_world
        (<["RES-00000001" := cancel Sample.booking]> Sample.empty_memory)
        [])).1
  = false.
Proof.
  destruct (cancel_reservation_outcomes "RES-00000001"
              (ReservationService.mk_world
                 (<["RES-00000001" := cancel Sample.booking]>
                    Sample.empty_memory) []))
    as (_ & H & _).
  destruct (H (cancel Sample.booking)) as [Hout _].
  - vm_compute. reflexivity.
  - reflexivity.
  - exact Hout.
Defined.

(** ** Timestamps written and read back *)

Lemma digit_val_char d : 0 ≤ d ≤ 9 → digit_val (digit_char d) = Some d.
Proof.
  intros H.
  assert (d = 0 ∨ d = 1 ∨ d = 2 ∨ d = 3 ∨ d = 4 ∨ d = 5 ∨ d = 6 ∨ d = 7
          ∨ d = 8 ∨ d = 9) as Hd by lia.
  repeat (destruct Hd as [->|Hd]; [reflexivity|]). by subst.
Qed.

Lemma string_app_cons c (s1 s2 : string) :
  String c s1 +:+ s2 = String c (s1 +:+ s2).
Proof. done. Qed.

Lemma string_app_nil (s : string) : "" +:+ s = s.
Proof. done. Qed.

Lemma take_digits_zpad w n rest :
  take_digits w (zpad w n +:+ rest) = Some (n mod 10 ^ Z.of_nat w, rest).
Proof.
  induction w as [|w IH].
  - cbn. by rewrite Z.mod_1_r.
  - cbn [zpad take_digits]. rewrite string_app_cons.
    rewrite digit_val_char
      by (pose proof (Z.mod_pos_bound (n / 10 ^ Z.of_nat w) 10); lia).
    rewrite IH. do 2 f_equal.
    rewrite Nat2Z.inj_succ, Z.pow_succ_r by lia.
    rewrite (Z.mul_comm 10), Z.rem_mul_r by lia. lia.
Qed.

Lemma take_digits_field w n rest :
  0 ≤ n < 10 ^ Z.of_nat w →
  take_digits w (zpad w n +:+ rest) = Some (n, rest).
Proof. intros H. by rewrite take_digits_zpad, Z.mod_small. Qed.

Lemma string_app_empty_r (s : string) : s +:+ "" = s.
Proof. induction s; [done|]. rewrite string_app_cons. congruence. Qed.

Lemma days_in_month_le y m : days_in_month y m ≤ 31.
Proof. unfold days_in_month. repeat case_match; lia. Qed.

Lemma valid_datetime_bounds t :
  valid_datetime t = true →
  (0 ≤ year (date_of t) < 10 ^ Z.of_nat 4)
  ∧ (0 ≤ month (date_of t) < 10 ^ Z.of_nat 2)
  ∧ (0 ≤ day (date_of t) < 10 ^ Z.of_nat 2)
  ∧ (0 ≤ hour (time_of t) < 10 ^ Z.of_nat 2)
  ∧ (0 ≤ minute (time_of t) < 10 ^ Z.of_nat 2)
  ∧ (0 ≤ second (time_of t) < 10 ^ Z.of_nat 2)
  ∧ (0 ≤ microsecond (time_of t) < 10 ^ Z.of_nat 6).
Proof.
  unfold valid_datetime, valid_date, valid_time.
  pose proof (days_in_month_le (year (date_of t)) (month (date_of t))).
  rewrite !andb_true_iff, !Z.leb_le, !Z.ltb_lt. cbn. lia.
Qed.

(** One field of the timestamp and the separator after it. *)
Ltac read_field w n :=
  rewrite (take_digits_field w n) by done;
  cbn [mbind option_bind];
  rewrite ?string_app_cons, ?string_app_nil;
  cbn [expect Ascii.eqb Bool.eqb mbind option_bind].

(** [fromisoformat] is the inverse of [isoformat]. *)
Lemma fromisoformat_isoformat t :
  valid_datetime t = true → fromisoformat (isoformat t) = Some t.
Proof.
  intros Hv.
  destruct (valid_datetime_bounds t Hv) as (Hy & Hm & Hd & Hh & Hmi & Hs & Hu).
  destruct t as [[y m d] [hh mi ss us]]. cbn [date_of time_of year month day
    hour minute second microsecond] in *.
  unfold fromisoformat, isoformat.
  cbn [date_of time_of year month day hour minute second microsecond].
  read_field 4%nat y. read_field 2%nat m. read_field 2%nat d.
  read_field 2%nat hh. read_field 2%nat mi.
  rewrite (take_digits_field 2 ss) by done. cbn [mbind option_bind].
  destruct (us =? 0) eqn:Hus.
  - apply Z.eqb_eq in Hus. subst us. cbn [mbind option_bind]. by rewrite Hv.
  - rewrite ?string_app_cons, ?string_app_nil.
    cbn [expect Ascii.eqb Bool.eqb mbind option_bind].
    rewrite <- (string_app_empty_r (zpad 6 us)).
    rewrite (take_digits_field 6 us) by done.
    cbn [mbind option_bind]. by rewrite Hv.
Qed.

(** What [fromisoformat] returns is a valid datetime. *)
Lemma fromisoformat_valid s t :
  fromisoformat s = Some t → valid_datetime t = true.
Proof.
  unfold fromisoformat. intros H.
  repeat (let x := fresh "x" in
          apply bind_Some in H; destruct H as (x & _ & H);
          lazymatch type of x with
          | (_ * _)%type => destruct x
          | _ => idtac
          end; cbv beta iota in H).
  match type of H with
  | match ?r with EmptyString => _ | String _ _ => _ end = _ =>
      destruct r; [|done]
  end.
  destruct (valid_datetime _) eqn:Hv in H; [|done].
  by injection H as <-.
Qed.

(** ** Records written and read back *)

Lemma lookup_field_here k v rest : lookup_field k ((k, v) :: rest) = Some v.
Proof. cbn. by rewrite bool_decide_eq_true_2. Qed.

Lemma lookup_field_skip k k' v rest :
  k' ≠ k → lookup_field k ((k', v) :: rest) = lookup_field k rest.
Proof. intros H. cbn. by rewrite bool_decide_eq_false_2. Qed.

(** Reads the fields of a record that is given field by field. *)
Ltac read_fields :=
  unfold get_str, get_num, FileRepository.get_str_default, jget;
  repeat first
    [ rewrite lookup_field_here
    | rewrite lookup_field_skip by done ];
  cbn [mbind option_bind as_str as_num].

Lemma deserialize_serialize_room room' :
  FileRepository._deserialize_room (FileRepository._serialize_room room')
  = Some (reloaded_room room').
Proof.
  unfold FileRepository._deserialize_room, FileRepository._serialize_room,
    reloaded_room.
  read_fields. by repeat case_match.
Qed.

Lemma load_item_serialize r :
  valid_times r →
  FileRepository.load_item (FileRepository.serialize_reservation r)
  = Some (reloaded r).
Proof.
  intros [Hs He].
  unfold FileRepository.load_item, FileRepository.serialize_reservation.
  read_fields. rewrite deserialize_serialize_room. read_fields.
  rewrite !fromisoformat_isoformat by done. read_fields. done.
Qed.

Lemma load_item_valid item r :
  FileRepository.load_item item = Some r → valid_times r.
Proof.
  unfold FileRepository.load_item. intros H.
  apply bind_Some in H as (room' & _ & H).
  apply bind_Some in H as (rid & _ & H).
  apply bind_Some in H as (user & _ & H).
  apply bind_Some in H as (s & Hs & H).
  apply bind_Some in H as (e & He & H).
  apply bind_Some in H as (p & _ & H).
  apply bind_Some in H as (st & _ & H).
  injection H as <-.
  apply bind_Some in Hs as (? & _ & Hs).
  apply bind_Some in He as (? & _ & He).
  split; cbn; by eapply fromisoformat_valid.
Qed.

Lemma try_load_written l d :
  Forall valid_times l →
  FileRepository.try_load
    (mk_file_state (Json (JArr (FileRepository.serialize_reservation <$> l))) d)
  = Some (reloaded <$> l).
Proof.
  intros Hl. unfold FileRepository.try_load. cbn [content].
  apply mapM_Some. induction Hl as [|r l Hr Hl IH]; cbn.
  - constructor.
  - constructor; [by apply load_item_serialize | done].
Qed.

Lemma try_load_valid f l :
  FileRepository.try_load f = Some l → Forall valid_times l.
Proof.
  unfold FileRepository.try_load. intros H.
  destruct (content f) as [| |[]]; try done.
  apply mapM_Some in H. induction H; constructor; eauto using load_item_valid.
Qed.

Lemma load_reservations_valid f :
  Forall valid_times (FileRepository._load_reservations f).
Proof.
  unfold FileRepository._load_reservations.
  destruct (FileRepository.try_load f) eqn:H; cbn.
  - by eapply try_load_valid.
  - constructor.
Qed.

(** ** Saving to the file and looking up *)

Lemma upserted_cons r x l :
  upserted r (x :: l) =
  if bool_decide (reservation_id x = reservation_id r) then r :: l
  else x :: upserted r l.
Proof.
  unfold upserted. cbn [FileRepository.update_first].
  case_bool_decide; [done|].
  by destruct (FileRepository.update_first r l).
Qed.

Lemma upserted_nil r : upserted r [] = [r].
Proof. done. Qed.

Lemma first_with_id_upserted r l :
  FileRepository.first_with_id (reservation_id r) (upserted r l) = Some r.
Proof.
  induction l as [|x l IH].
  - cbn. by rewrite bool_decide_eq_true_2.
  - rewrite upserted_cons. case_bool_decide as Hx; cbn.
    + by rewrite bool_decide_eq_true_2.
    + by rewrite bool_decide_eq_false_2.
Qed.

Lemma first_with_id_reloaded i l :
  FileRepository.first_with_id i (reloaded <$> l)
  = reloaded <$> FileRepository.first_with_id i l.
Proof.
  induction l as [|x l IH]; [done|]. cbn.
  by case_bool_decide.
Qed.

Lemma Forall_valid_upserted r l :
  valid_times r → Forall valid_times l → Forall valid_times (upserted r l).
Proof.
  intros Hr Hl. induction Hl as [|x l Hx Hl IH].
  - rewrite upserted_nil. by apply Forall_singleton.
  - rewrite upserted_cons. case_bool_decide; by constructor.
Qed.

Lemma File_save_ok r f :
  disk f = WriteOk →
  FileRepository.save r f
  = (true,
     mk_file_state
       (Json (JArr (FileRepository.serialize_reservation
                      <$> upserted r (FileRepository._load_reservations f))))
       WriteOk).
Proof.
  intros Hd. unfold FileRepository.save, FileRepository._save_reservations,
    FileRepository.write_file, upserted.
  by rewrite Hd.
Qed.

Lemma File_load_after_save r f :
  disk f = WriteOk → valid_times r →
  FileRepository._load_reservations (FileRepository.save r f).2
  = reloaded <$> upserted r (FileRepository._load_reservations f).
Proof.
  intros Hd Hr. rewrite File_save_ok by done. cbn [snd].
  unfold FileRepository._load_reservations at 1.
  rewrite try_load_written; [done|].
  apply Forall_valid_upserted; [done | apply load_reservations_valid].
Qed.

Lemma File_find_after_save r f :
  disk f = WriteOk → valid_times r →
  FileRepository.find_by_id (reservation_id r) (FileRepository.save r f).2
  = Some (reloaded r).
Proof.
  intros Hd Hr. unfold FileRepository.find_by_id.
  rewrite File_load_after_save by done.
  by rewrite first_with_id_reloaded, first_with_id_upserted.
Qed.

(** ** Unreadable backing file *)

Lemma room_raises_None data :
  room_raises data = true → FileRepository._deserialize_room data = None.
Proof.
  unfold room_raises, has_key, FileRepository._deserialize_room, get_str,
    get_num.
  intros H.
  destruct (jget "type" data) as [[]|]; cbn in *; try done;
    destruct (jget "room_id" data) as [[]|]; cbn in *; try done;
    destruct (jget "name" data) as [[]|]; cbn in *; try done;
    destruct (jget "capacity" data) as [[]|]; cbn in *; done.
Qed.

Lemma item_raises_None item :
  item_raises item = true → FileRepository.load_item item = None.
Proof.
  unfold item_raises, timestamp_raises, has_key, FileRepository.load_item,
    get_str.
  intros H.
  destruct (jget "room" item) as [data|]; cbn [mbind option_bind]; [|done].
  destruct (room_raises data) eqn:Hroom.
  { by rewrite room_raises_None. }
  destruct (FileRepository._deserialize_room data);
    cbn [mbind option_bind]; [|done].
  destruct (jget "reservation_id" item) as [[]|];
    cbn [mbind option_bind as_str]; try done.
  destruct (jget "user_name" item) as [[]|];
    cbn [mbind option_bind as_str]; try done.
  destruct (jget "start_time" item) as [[| | |start| |]|];
    cbn [mbind option_bind as_str]; try done.
  destruct (fromisoformat start); cbn [mbind option_bind]; [|done].
  destruct (jget "end_time" item) as [[]|];
    cbn [mbind option_bind as_str]; done.
Qed.

Lemma unreadable_try_load f :
  unreadable f = true → FileRepository.try_load f = None.
Proof.
  unfold unreadable, FileRepository.try_load.
  destruct (content f) as [| |[]]; try done.
  intros (item & Hin & Hitem)%existsb_exists.
  apply mapM_None, Exists_exists. exists item. split.
  - by apply list_elem_of_In.
  - by apply item_raises_None.
Qed.

(** C10. When the file cannot be read or parsed (there is no file,
    its text is no JSON, the document is no array, or the loop raises
    on a record: the record is no object, lacks a key that the loop
    reads, or holds a room type or a timestamp on which the call that
    reads it raises), the three queries return the empty list,
    nothing, and the empty list; and [save], on a medium that accepts
    the write, leaves a file that holds the saved reservation and
    nothing else. *)
Theorem FileRepository_unreadable_file
    (f : file_state) (i : string) (room' : Room) (s e : datetime)
    (r : Reservation) :
  unreadable f = true →
  find_all f = []
  ∧ find_by_id i f = None
  ∧ find_by_room_and_time room' s e f = []
  ∧ (disk f = WriteOk →
     save r f
     = (true,
        mk_file_state (Json (JArr [FileRepository.serialize_reservation r]))
          WriteOk)).
Proof.
  intros Hload%unreadable_try_load.
  cbn [find_all find_by_id find_by_room_and_time save File_repository].
  unfold FileRepository.find_all, FileRepository.find_by_id,
    FileRepository.find_by_room_and_time, FileRepository.save,
    FileRepository._load_reservations.
  rewrite Hload. cbn. split_and!; try done.
  intros Hd. unfold FileRepository._save_reservations,
    FileRepository.write_file. by rewrite Hd.
Qed.

Lemma FileRepository_unreadable_file_witness :
  find_all (mk_file_state Garbage WriteOk) = []
  ∧ save Sample.booking (mk_file_state Garbage WriteOk)
    = (true,
       mk_file_state
         (Json (JArr [FileRepository.serialize_reservation Sample.booking]))
         WriteOk).
Proof.
  destruct (FileRepository_unreadable_file (mk_file_state Garbage WriteOk)
              "RES-00000001" Sample.room101 (Sample.at_hour 9)
              (Sample.at_hour 11) Sample.booking eq_refl)
    as (Hall & _ & _ & Hsave).
  split; [exact Hall | exact (Hsave eq_refl)].
Defined.

(** ** Deleting *)

Lemma InMemory_delete_absent (m : gmap string Reservation) i :
  m !! i = None → InMemoryRepository.delete i m = (false, m).
Proof.
  intros H. unfold InMemoryRepository.delete.
  rewrite bool_decide_eq_false_2; [done|]. rewrite H. by apply is_Some_None.
Qed.

Lemma InMemory_delete_present (m : gmap string Reservation) i r :
  m !! i = Some r →
  InMemoryRepository.delete i m = (true, base.delete i m)
  ∧ InMemoryRepository.find_by_id i (base.delete i m) = None.
Proof.
  intros H. unfold InMemoryRepository.delete, InMemoryRepository.find_by_id.
  rewrite bool_decide_eq_true_2 by (by rewrite H).
  by rewrite lookup_delete_eq.
Qed.

Lemma File_delete_result (f : file_state) i :
  (FileRepository.delete i f).1 = bool_decide (disk f = WriteOk).
Proof.
  unfold FileRepository.delete, FileRepository._save_reservations,
    FileRepository.write_file.
  by destruct (disk f).
Qed.

Lemma Forall_List_filter {A} (P : A → Prop) (g : A → bool) l :
  Forall P l → Forall P (List.filter g l).
Proof.
  induction 1 as [|x l Hx Hl IH]; cbn; [constructor|].
  destruct (g x); [by constructor | done].
Qed.

Lemma first_with_id_deleted i l :
  FileRepository.first_with_id i
    (List.filter (λ r, negb (bool_decide (reservation_id r = i))) l)
  = None.
Proof.
  induction l as [|x l IH]; [done|]. cbn [List.filter].
  case_bool_decide as Hx; cbn [negb]; [done|].
  cbn. by rewrite bool_decide_eq_false_2.
Qed.

(** On a medium that accepts the write, [delete] returns true and the
    identifier is not found afterwards, whether it was stored or not. *)
Lemma File_delete_then_find (f : file_state) (i : string) :
  disk f = WriteOk →
  (FileRepository.delete i f).1 = true
  ∧ FileRepository.find_by_id i (FileRepository.delete i f).2 = None.
Proof.
  intros Hd. split; [by rewrite File_delete_result, Hd|].
  unfold FileRepository.delete, FileRepository._save_reservations,
    FileRepository.write_file.
  rewrite Hd. cbn [snd]. unfold FileRepository.find_by_id,
    FileRepository._load_reservations at 1.
  rewrite try_load_written
    by (apply Forall_List_filter, load_reservations_valid).
  cbn [from_option id].
  by rewrite first_with_id_reloaded, first_with_id_deleted.
Qed.

(** C5. The file repository, holding the empty collection on a medium
    that accepts writes: no reservation has the identifier RES-404,
    and [delete] returns true (and leaves the file as it was). *)
Theorem FileRepository_delete_absent_returns_true :
  let f := mk_file_state (Json (JArr [])) WriteOk in
  find_by_id "RES-404" f = None
  ∧ delete "RES-404" f = (true, f).
Proof. split; reflexivity. Qed.

(** ** The type tag and the substring rule *)

Lemma prefix_app_avoided c n h :
  avoids c n = true → String.prefix n (h +:+ String c "") = String.prefix n h.
Proof.
  revert h. induction n as [|a n IH]; intros h Hn; [by destruct h|].
  cbn in Hn. apply andb_true_iff in Hn as [Hca Hn].
  apply negb_true_iff, Ascii.eqb_neq in Hca.
  destruct h as [|b h].
  - rewrite string_app_nil. cbn. destruct (ascii_dec a c); congruence.
  - rewrite string_app_cons. cbn. destruct (ascii_dec a b); [|done].
    by apply IH.
Qed.

Lemma contains_app_avoided c n h :
  avoids c n = true → n ≠ "" →
  contains n (h +:+ String c "") = contains n h.
Proof.
  intros Hn Hne. induction h as [|b h IH].
  - rewrite string_app_nil. destruct n as [|a n]; [done|].
    cbn in Hn. apply andb_true_iff in Hn as [Hca Hn].
    apply negb_true_iff, Ascii.eqb_neq in Hca.
    cbn. destruct (ascii_dec a c); [congruence|done].
  - rewrite string_app_cons. cbn [contains].
    rewrite <- string_app_cons, prefix_app_avoided by done.
    by rewrite IH.
Qed.

Lemma contains_laboratory_tag n lab_type :
  n = "Classroom" ∨ n = "Conference" ∨ n = "Computer" →
  contains n ("Laboratory (" +:+ lab_type +:+ ")") = contains n lab_type.
Proof.
  intros Hn.
  rewrite <- (contains_app_avoided ")" n lab_type)
    by (destruct Hn as [->|[->| ->]]; done).
  destruct Hn as [->|[->| ->]]; reflexivity.
Qed.

Lemma kind_of_reloaded_room room' :
  kind_of (reloaded_room room') = kind_of_tag (get_room_type room').
Proof. unfold reloaded_room, kind_of_tag. by repeat case_match. Qed.

Lemma kind_of_tag_plain room' :
  lab_type_is_plain room' = true →
  kind_of_tag (get_room_type room') = kind_of room'.
Proof.
  destruct room' as [| |i n c lab_type se|]; try reflexivity.
  cbn [lab_type_is_plain get_room_type kind_of]. intros H.
  apply negb_true_iff in H. apply orb_false_iff in H as [H H3].
  apply orb_false_iff in H as [H1 H2].
  unfold kind_of_tag. rewrite !contains_laboratory_tag by tauto.
  by rewrite H1, H2, H3.
Qed.

Lemma room_id_reloaded_room room' : room_id (reloaded_room room') = room_id room'.
Proof. unfold reloaded_room. by repeat case_match. Qed.

Lemma capacity_reloaded_room room' :
  capacity (reloaded_room room') = capacity room'.
Proof. unfold reloaded_room. by repeat case_match. Qed.

(** ** Round trip through the file *)

(** C6, as stated, fails: a laboratory whose [lab_type] is
    "Computer Science" is written with the tag
    "Laboratory (Computer Science)", which holds the word "Computer",
    and comes back as a computer lab. *)
Lemma round_trip_fails_for_computer_science_lab :
  ¬ round_trips Sample.empty_file Sample.cs_booking.
Proof.
  intros (r' & Hfind & Hrep).
  cbn [find_by_id save File_repository] in Hfind.
  rewrite File_find_after_save in Hfind by (done || (split; reflexivity)).
  injection Hfind as <-.
  destruct Hrep as (_ & Hkind & _). vm_compute in Hkind. discriminate.
Qed.

(** C6, amended. A reservation saved to the file repository (on a
    medium that accepts the write) and looked up again has the same
    identifier, room variant, room identifier, room capacity, user
    name, start and end timestamps, purpose and status, provided its
    room is not a laboratory whose [lab_type] holds one of the words
    "Classroom", "Conference" or "Computer". The variant of a room
    that is read back is decided by the type tag alone: Classroom,
    ConferenceRoom or ComputerLab when the tag holds the respective
    word (tried in that order), and Laboratory otherwise. *)
Theorem file_round_trip (f : file_state) (r : Reservation) :
  disk f = WriteOk →
  valid_times r →
  lab_type_is_plain (room r) = true →
  round_trips f r
  ∧ ∀ (room_type room_id' name' : string) (capacity' : Z) (equipment : json),
      kind_of <$> FileRepository._deserialize_room
                    (JObj [("type", JStr room_type);
                           ("room_id", JStr room_id');
                           ("name", JStr name');
                           ("capacity", JNum capacity');
                           ("equipment", equipment)])
      = Some (kind_of_tag room_type).
Proof.
  intros Hd Hr Hplain. split.
  - exists (reloaded r). split.
    + by apply File_find_after_save.
    + unfold reproduces, reloaded. cbn.
      rewrite kind_of_reloaded_room, kind_of_tag_plain by done.
      by rewrite room_id_reloaded_room, capacity_reloaded_room.
  - intros. unfold FileRepository._deserialize_room, kind_of_tag.
    read_fields. by repeat case_match.
Qed.

(** The type string itself is not kept for a laboratory: the
    [lab_type] is not read back, so "Laboratory (Chemistry)" returns
    as "Laboratory (General)". *)
Lemma laboratory_type_string_not_kept :
  get_room_type (room Sample.chemistry_booking) = "Laboratory (Chemistry)"
  ∧ get_room_type (room (reloaded Sample.chemistry_booking))
    = "Laboratory (General)".
Proof. split; reflexivity. Qed.

Lemma file_round_trip_witness :
  round_trips Sample.empty_file Sample.chemistry_booking.
Proof.
  refine (proj1 (file_round_trip Sample.empty_file Sample.chemistry_booking
                   _ _ _)).
  - reflexivity.
  - split; reflexivity.
  - reflexivity.
Defined.

(** ** The two repositories side by side *)

Lemma reloaded_room_default room' :
  default_equipped room' = true → reloaded_room room' = room'.
Proof.
  destruct room' as [i n c p w|i n c v s|i n c lt se|i n c k p]; cbn;
    rewrite andb_true_iff; intros [H1 H2].
  - by subst.
  - by subst.
  - apply bool_decide_eq_true in H1. by subst.
  - apply bool_decide_eq_true in H1. subst.
    unfold reloaded_room, new_ComputerLab, init_ComputerLab. done.
Qed.

Lemma reloaded_storable r : storable r → reloaded r = r.
Proof.
  intros [_ Hd]. unfold reloaded. rewrite reloaded_room_default by done.
  by destruct r.
Qed.

Lemma fmap_reloaded_storable l : Forall storable l → reloaded <$> l = l.
Proof.
  induction 1 as [|r l Hr Hl IH]; [done|].
  cbn. by rewrite reloaded_storable, IH.
Qed.

Lemma load_written_storable l d :
  Forall storable l →
  FileRepository._load_reservations
    (mk_file_state (Json (JArr (FileRepository.serialize_reservation <$> l))) d)
  = l.
Proof.
  intros Hl. unfold FileRepository._load_reservations.
  rewrite try_load_written.
  - cbn. by apply fmap_reloaded_storable.
  - eapply Forall_impl; [done|]. by intros r [Hr _].
Qed.

Lemma keyed_cons x l :
  (list_to_map (keyed (x :: l)) : gmap string Reservation)
  = <[reservation_id x := x]> (list_to_map (keyed l)).
Proof. done. Qed.

Lemma lookup_keyed l i :
  (list_to_map (keyed l) : gmap string Reservation) !! i
  = FileRepository.first_with_id i l.
Proof.
  induction l as [|x l IH]; [done|].
  cbn. case_bool_decide as Hx.
  - subst. by rewrite lookup_insert_eq.
  - by rewrite lookup_insert_ne.
Qed.

Lemma insert_keyed r l :
  <[reservation_id r := r]> (list_to_map (keyed l) : gmap string Reservation)
  = list_to_map (keyed (upserted r l)).
Proof.
  induction l as [|x l IH]; [done|].
  rewrite upserted_cons. case_bool_decide as Hx; rewrite !keyed_cons.
  - rewrite Hx. by rewrite insert_insert_eq.
  - rewrite <- IH. by apply insert_insert_ne.
Qed.

Lemma ids_upserted r l :
  reservation_id <$> upserted r l =
  if bool_decide (reservation_id r ∈ reservation_id <$> l)
  then reservation_id <$> l
  else ((reservation_id <$> l) ++ [reservation_id r])%list.
Proof.
  induction l as [|x l IH].
  - cbn. rewrite bool_decide_eq_false_2; [done|]. apply not_elem_of_nil.
  - rewrite upserted_cons. rewrite fmap_cons.
    destruct (decide (reservation_id x = reservation_id r)) as [Hx|Hx].
    + rewrite (bool_decide_eq_true_2 _ Hx).
      rewrite bool_decide_eq_true_2 by (rewrite Hx; apply list_elem_of_here).
      cbn. by rewrite Hx.
    + rewrite (bool_decide_eq_false_2 _ Hx). rewrite fmap_cons, IH.
      destruct (decide (reservation_id r ∈ reservation_id <$> l)) as [Hin|Hin].
      * rewrite (bool_decide_eq_true_2 _ Hin).
        by rewrite bool_decide_eq_true_2 by (by apply list_elem_of_further).
      * rewrite (bool_decide_eq_false_2 _ Hin).
        rewrite bool_decide_eq_false_2; [done|].
        rewrite elem_of_cons. intros [Heq|Hin']; [by symmetry in Heq | done].
Qed.

Lemma NoDup_ids_upserted r l :
  NoDup (reservation_id <$> l) → NoDup (reservation_id <$> upserted r l).
Proof.
  intros Hl. rewrite ids_upserted. case_bool_decide as Hin; [done|].
  apply NoDup_app. split_and!; [done| |apply NoDup_singleton].
  intros i Hi Hi'. apply list_elem_of_singleton in Hi'. by subst.
Qed.

Lemma Forall_storable_upserted r l :
  storable r → Forall storable l → Forall storable (upserted r l).
Proof.
  intros Hr Hl. induction Hl as [|x l Hx Hl IH].
  - rewrite upserted_nil. by apply Forall_singleton.
  - rewrite upserted_cons. case_bool_decide; by constructor.
Qed.

Lemma delete_keyed i l :
  base.delete i (list_to_map (keyed l) : gmap string Reservation)
  = list_to_map
      (keyed (List.filter
                (λ r, negb (bool_decide (reservation_id r = i))) l)).
Proof.
  induction l as [|x l IH]; cbn [List.filter].
  - apply delete_empty.
  - rewrite keyed_cons. case_bool_decide as Hx; cbn [negb].
    + subst. by rewrite delete_insert_eq.
    + rewrite keyed_cons, delete_insert_ne by done. by rewrite IH.
Qed.

Lemma filter_ids_sublist i l :
  reservation_id
    <$> List.filter (λ r, negb (bool_decide (reservation_id r = i))) l
  `sublist_of` reservation_id <$> l.
Proof.
  induction l as [|x l IH]; cbn; [done|].
  case_bool_decide; cbn; by constructor.
Qed.

Lemma keyed_fst l : (keyed l).*1 = reservation_id <$> l.
Proof.
  induction l as [|x l IH]; [done|].
  unfold keyed in *. rewrite !fmap_cons. cbn [fst]. by rewrite IH.
Qed.

Lemma keyed_snd l : (keyed l).*2 = l.
Proof.
  induction l as [|x l IH]; [done|].
  unfold keyed in *. rewrite !fmap_cons. cbn [snd]. by rewrite IH.
Qed.

Lemma values_keyed l :
  NoDup (reservation_id <$> l) →
  InMemoryRepository.values (list_to_map (keyed l)) ≡ₚ l.
Proof.
  intros Hl. unfold InMemoryRepository.values.
  rewrite map_to_list_to_map by (by rewrite keyed_fst).
  by rewrite keyed_snd.
Qed.

Lemma same_store_empty :
  same_store InMemoryRepository.init (mk_file_state (Json (JArr [])) WriteOk).
Proof.
  split; [done|]. exists []. split_and!; try done; constructor.
Qed.

Lemma same_store_load m f :
  same_store m f →
  ∃ l, FileRepository._load_reservations f = l
       ∧ Forall storable l ∧ NoDup (reservation_id <$> l)
       ∧ m = list_to_map (keyed l).
Proof.
  intros (Hd & l & Hc & Hl & Hnd & Hm). exists l. split_and!; try done.
  destruct f as [c d]. cbn in Hc. subst c. by apply load_written_storable.
Qed.

(** One call keeps the two stores the same and returns the same
    result, the result of a [delete] that finds nothing apart. *)
Lemma same_store_call c m f :
  same_store m f → storable_call c →
  (deletes_absent c m ∨ same_result (call c m).1 (call c f).1)
  ∧ same_store (call c m).2 (call c f).2.
Proof.
  intros Hsame Hc.
  destruct (same_store_load m f Hsame) as (l & Hload & Hl & Hnd & Hm).
  pose proof Hsame as (Hd & _).
  destruct c as [r|i|room' s e| |i];
    cbn [call save find_by_id find_by_room_and_time find_all delete
         InMemory_repository File_repository].
  - (* save *)
    rewrite File_save_ok by done. cbn. split; [by right|].
    split; [done|]. rewrite Hload. exists (upserted r l). split_and!.
    + done.
    + by apply Forall_storable_upserted.
    + by apply NoDup_ids_upserted.
    + subst m. apply insert_keyed.
  - (* find_by_id *)
    cbn. split; [|exact Hsame].
    right. unfold InMemoryRepository.find_by_id, FileRepository.find_by_id.
    rewrite Hload. subst m. by rewrite lookup_keyed.
  - (* find_by_room_and_time *)
    cbn. split; [|exact Hsame].
    right. unfold InMemoryRepository.find_by_room_and_time,
      FileRepository.find_by_room_and_time.
    rewrite Hload, !collect_overlapping_spec. subst m.
    by rewrite values_keyed.
  - (* find_all *)
    cbn. split; [|exact Hsame].
    right. unfold InMemoryRepository.find_all, FileRepository.find_all.
    rewrite Hload. subst m. by apply values_keyed.
  - (* delete *)
    unfold InMemoryRepository.delete, FileRepository.delete,
      FileRepository._save_reservations, FileRepository.write_file.
    rewrite Hd, Hload.
    assert (same_store (base.delete i m)
              (mk_file_state
                 (Json (JArr (FileRepository.serialize_reservation
                        <$> List.filter
                              (λ r, negb (bool_decide (reservation_id r = i)))
                              l)))
                 WriteOk)) as Hdel.
    { split; [done|]. eexists. split_and!.
      - done.
      - by apply Forall_List_filter.
      - eapply sublist_NoDup; [done | apply filter_ids_sublist].
      - subst m. apply delete_keyed. }
    case_bool_decide as Hi; cbn.
    + split; [by right | done].
    + assert (m !! i = None) as Hnone.
      { destruct (m !! i) eqn:E; [|done]. exfalso. apply Hi. eauto. }
      split; [by left|]. by rewrite delete_id in Hdel.
Qed.

Lemma same_store_results_agree calls m f :
  same_store m f → Forall storable_call calls → results_agree calls m f.
Proof.
  intros Hsame Hcalls. revert m f Hsame.
  induction Hcalls as [|c calls Hc Hcalls IH]; intros m f Hsame; [done|].
  destruct (same_store_call c m f Hsame Hc) as [Hres Hnext].
  cbn [results_agree]. split; [done|]. by apply IH.
Qed.

(** A repository made on a path where there is no file starts from
    the file that holds the empty array. *)
Lemma FileRepository_init_fresh :
  FileRepository._ensure_file_exists (mk_file_state Missing WriteOk)
  = Some Sample.empty_file.
Proof. reflexivity. Qed.

(** C4, as stated, fails: a classroom without a projector is saved
    under RES-00000004 in both repositories; [find_by_id] then returns
    the reservation with that room from the dictionary, and a
    reservation whose room has a projector from the file. *)
Lemma repositories_differ_on_room_attributes :
  ¬ results_same
      [CallSave Sample.bare_booking; CallFindById "RES-00000004"]
      InMemoryRepository.init (mk_file_state (Json (JArr [])) WriteOk).
Proof.
  intros (_ & Hfind & _). vm_compute in Hfind. discriminate.
Qed.

(** The other difference: on an identifier that is not stored,
    [delete] returns false on the dictionary and true on the file. *)
Lemma repositories_differ_on_absent_delete :
  ¬ results_same [CallDelete "RES-404"]
      InMemoryRepository.init (mk_file_state (Json (JArr [])) WriteOk).
Proof. intros (Hdel & _). vm_compute in Hdel. discriminate. Qed.

(** C4, amended. Start from an empty dictionary and from a file that
    holds the empty array on a medium that accepts every write, and
    apply the same calls of [save], [find_by_id],
    [find_by_room_and_time], [find_all] and [delete] to both, every
    saved reservation having valid timestamps and a room whose
    variant attributes have their default values. Then every call
    returns the same result on both, lists being compared up to their
    order; nothing is said of the boolean that [delete] returns for an
    identifier that is not stored. *)
Theorem repositories_agree (calls : list repo_call) :
  Forall storable_call calls →
  results_agree calls InMemoryRepository.init
    (mk_file_state (Json (JArr [])) WriteOk).
Proof.
  intros Hcalls. apply same_store_results_agree; [|done].
  apply same_store_empty.
Qed.

Lemma repositories_agree_witness :
  results_agree
    [CallSave Sample.booking;
     CallFindByRoomAndTime Sample.room101 (Sample.at_hour 10)
       (Sample.at_hour 12);
     CallDelete "RES-404";
     CallFindAll;
     CallDelete "RES-00000001";
     CallFindById "RES-00000001"]
    InMemoryRepository.init (mk_file_state (Json (JArr [])) WriteOk).
Proof.
  apply repositories_agree.
  repeat apply Forall_cons_2; try apply Forall_nil_2; try exact I.
  split; [split; reflexivity | reflexivity].
Defined.

(** ** The booking invariant *)

Lemma intervals_overlap_sym a b : intervals_overlap a b = intervals_overlap b a.
Proof. unfold intervals_overlap. apply andb_comm. Qed.

Lemma intervals_touching a b :
  end_time a = start_time b → intervals_overlap a b = false.
Proof.
  intros H. unfold intervals_overlap. rewrite H, lt_irrefl. apply andb_false_r.
Qed.

Lemma same_booking_refl a : same_booking a a.
Proof. by repeat split. Qed.

Lemma same_booking_overlap a a' b b' :
  same_booking a a' → same_booking b b' →
  intervals_overlap a' b' = intervals_overlap a b.
Proof.
  intros (_ & _ & Hs & He & _) (_ & _ & Hs' & He' & _).
  unfold intervals_overlap. by rewrite Hs, He, Hs', He'.
Qed.

(** A reservation that the conflict query does not return does not
    overlap the range asked for, when it is on that room and not
    cancelled. *)
Lemma not_collected room' s e l y :
  collect_overlapping room' s e l = [] → y ∈ l →
  room_id (room y) = room_id room' → status y ≠ "CANCELLED" →
  Dt.lt (start_time y) e && Dt.lt s (end_time y) = false.
Proof.
  intros Hnone Hy Hroom Hst.
  destruct (Dt.lt (start_time y) e && Dt.lt s (end_time y)) eqn:Hov; [|done].
  apply andb_true_iff in Hov as [H1 H2].
  assert (y ∈ collect_overlapping room' s e l) as Hin
    by (apply elem_of_collect_overlapping; done).
  rewrite Hnone in Hin. by apply not_elem_of_nil in Hin.
Qed.

(** Distinct identifiers at distinct positions. *)
Lemma booked_no_double_booking l :
  NoDup (reservation_id <$> l) → booked l → no_double_booking l.
Proof.
  intros Hnd Hb i j a b Hij Hi Hj. apply Hb.
  - by eapply list_elem_of_lookup_2.
  - by eapply list_elem_of_lookup_2.
  - intros Heq. apply Hij.
    eapply (NoDup_lookup (reservation_id <$> l)); [done| |].
    + by rewrite list_lookup_fmap, Hi.
    + by rewrite list_lookup_fmap, Hj, Heq.
Qed.

Section Invariant.
Import ReservationService.
Context {S : Type} `{!IReservationRepository S}.
Context (wf : S → Prop) (ok : Reservation → Prop).
Context `{!RepositoryLaws S wf ok}.

(** What [save] leaves, for a reservation that conflicts with none
    of the others that are stored. *)
Lemma save_keeps_booked st r b st' :
  wf st → ok r → booked (find_all st) →
  (∀ y, y ∈ find_all st → reservation_id y ≠ reservation_id r →
        room_id (room y) = room_id (room r) →
        status y ≠ "CANCELLED" → status r ≠ "CANCELLED" →
        intervals_overlap r y = false) →
  save r st = (b, st') →
  wf st' ∧ booked (find_all st').
Proof.
  intros Hwf Hok Hb Hr Hsave.
  destruct (law_save st r b st' Hwf Hok Hsave) as [Hwf' Hin]. split; [done|].
  intros x1 x2 Hx1 Hx2 Hid Hroom Hst1 Hst2.
  destruct (Hin x1 Hx1) as [[Hb1 Hc1]|(y1 & Hy1 & Hc1 & Hn1)];
    destruct (Hin x2 Hx2) as [[Hb2 Hc2]|(y2 & Hy2 & Hc2 & Hn2)].
  - destruct Hc1 as (Hi1 & _), Hc2 as (Hi2 & _). congruence.
  - rewrite (same_booking_overlap r x1 y2 x2) by done.
    destruct Hc1 as (Hi1 & Hr1 & _ & _ & Hs1), Hc2 as (Hi2 & Hr2 & _ & _ & Hs2).
    apply Hr; try congruence.
  - rewrite (same_booking_overlap y1 x1 r x2) by done.
    rewrite intervals_overlap_sym.
    destruct Hc1 as (Hi1 & Hr1 & _ & _ & Hs1), Hc2 as (Hi2 & Hr2 & _ & _ & Hs2).
    apply Hr; try congruence.
  - rewrite (same_booking_overlap y1 x1 y2 x2) by done.
    destruct Hc1 as (Hi1 & Hr1 & _ & _ & Hs1), Hc2 as (Hi2 & Hr2 & _ & _ & Hs2).
    apply Hb; try done; congruence.
Qed.

Lemma create_reservation_keeps_booked uuid_hex room' user s e purpose' w :
  wf (repository w) → booked (find_all (repository w)) →
  ok (new_Reservation (_generate_reservation_id uuid_hex) room' user s e
        purpose') →
  let w' := (create_reservation uuid_hex room' user s e purpose' w).2 in
  wf (repository w') ∧ booked (find_all (repository w')).
Proof.
  intros Hwf Hb Hok. cbv zeta. unfold create_reservation.
  destruct (_validate_time_range s e); cbn [negb]; [|done].
  unfold _check_availability.
  rewrite law_conflicts by done.
  case_bool_decide as Hnone; cbn [negb]; [|done].
  apply length_zero_iff_nil in Hnone.
  destruct (save _ (repository w)) as [saved st'] eqn:Hsave.
  assert (wf st' ∧ booked (find_all st')) as Hkeep.
  { eapply save_keeps_booked; [done..| |done].
    intros y Hy _ Hroom Hsty _. rewrite intervals_overlap_sym.
    unfold intervals_overlap. cbn.
    by eapply not_collected. }
  by destruct saved.
Qed.

Lemma cancel_reservation_keeps_booked i w :
  wf (repository w) → booked (find_all (repository w)) →
  let w' := (cancel_reservation i w).2 in
  wf (repository w') ∧ booked (find_all (repository w')).
Proof.
  intros Hwf Hb. cbv zeta. unfold cancel_reservation.
  destruct (find_by_id i (repository w)) as [r|] eqn:Hfind; [|done].
  case_bool_decide as Hst; [done|].
  destruct (law_find_by_id _ _ _ Hwf Hfind) as [Hr Hid].
  destruct (save _ (repository w)) as [saved st'] eqn:Hsave.
  assert (wf st' ∧ booked (find_all st')) as Hkeep.
  { eapply save_keeps_booked; [done| |done| |done].
    - by eapply law_ok_cancel, law_stored_ok.
    - intros ? ? ? ? ? Hc. by destruct Hc. }
  by destruct saved.
Qed.

Lemma serve_all_keeps_booked calls w :
  wf (repository w) → booked (find_all (repository w)) →
  Forall (service_call_ok ok) calls →
  wf (repository (serve_all calls w))
  ∧ booked (find_all (repository (serve_all calls w))).
Proof.
  intros Hwf Hb Hcalls. revert w Hwf Hb.
  induction Hcalls as [|c calls Hc Hcalls IH]; intros w Hwf Hb; [done|].
  cbn [serve_all fold_left]. apply IH.
  - destruct c; cbn [serve].
    + by apply create_reservation_keeps_booked.
    + by apply cancel_reservation_keeps_booked.
  - destruct c; cbn [serve].
    + by apply create_reservation_keeps_booked.
    + by apply cancel_reservation_keeps_booked.
Qed.

Lemma serve_all_no_double_booking calls w :
  wf (repository w) → booked (find_all (repository w)) →
  Forall (service_call_ok ok) calls →
  no_double_booking (get_all_reservations (serve_all calls w)).
Proof.
  intros Hwf Hb Hcalls.
  destruct (serve_all_keeps_booked calls w Hwf Hb Hcalls) as [Hwf' Hb'].
  apply booked_no_double_booking; [|done]. by apply law_unique.
Qed.

End Invariant.

(** *** The in-memory repository keeps the laws *)

Lemma ids_of_values m :
  keys_are_ids m →
  reservation_id <$> InMemoryRepository.values m = (map_to_list m).*1.
Proof.
  intros Hm. unfold InMemoryRepository.values.
  rewrite <- list_fmap_compose. apply list_fmap_ext.
  intros i [k r] Hi. cbn. apply Hm.
  apply elem_of_map_to_list. by eapply list_elem_of_lookup_2.
Qed.

Lemma keys_are_ids_save r m :
  keys_are_ids m → keys_are_ids (<[reservation_id r := r]> m).
Proof.
  intros Hm k x. rewrite lookup_insert.
  case_decide; [by intros [= <-] | apply Hm].
Qed.

#[export] Instance InMemory_laws :
  RepositoryLaws (gmap string Reservation) keys_are_ids (λ _, True).
Proof.
  split.
  - done.
  - intros m i r Hm Hfind. split; [|by apply Hm].
    apply elem_of_values. by exists i.
  - done.
  - done.
  - intros m Hm. cbn. unfold InMemoryRepository.find_all.
    rewrite ids_of_values by done. apply NoDup_fst_map_to_list.
  - intros m r b m' Hm _ [= <- <-]. split; [by apply keys_are_ids_save|].
    intros x Hx. apply elem_of_values in Hx as [k Hk].
    rewrite lookup_insert in Hk. case_decide as Hkr.
    + injection Hk as <-. left. split; [done|apply same_booking_refl].
    + right. exists x. split_and!.
      * apply elem_of_values. by exists k.
      * apply same_booking_refl.
      * intros _. by rewrite (Hm k x Hk).
Qed.

(** *** The file repository keeps the laws *)

Lemma first_with_id_Some i l r :
  FileRepository.first_with_id i l = Some r → r ∈ l ∧ reservation_id r = i.
Proof.
  induction l as [|x l IH]; [done|]. cbn.
  case_bool_decide as Hx.
  - intros [= <-]. split; [apply list_elem_of_here | done].
  - intros H. destruct (IH H). split; [by apply list_elem_of_further | done].
Qed.

Lemma elem_of_upserted r l x :
  NoDup (reservation_id <$> l) → x ∈ upserted r l →
  x = r ∨ (x ∈ l ∧ reservation_id x ≠ reservation_id r).
Proof.
  induction l as [|y l IH]; intros Hnd.
  - rewrite upserted_nil. intros Hx%list_elem_of_singleton. by left.
  - rewrite fmap_cons in Hnd. apply NoDup_cons in Hnd as [Hy Hnd].
    rewrite upserted_cons. case_bool_decide as Hyr.
    + intros [->|Hx]%elem_of_cons; [by left|]. right.
      split; [by apply list_elem_of_further|].
      intros Heq. apply Hy. rewrite Hyr, <- Heq.
      by apply list_elem_of_fmap_2.
    + intros [->|Hx]%elem_of_cons.
      * right. split; [apply list_elem_of_here | done].
      * destruct (IH Hnd Hx) as [->|[Hin Hne]]; [by left|].
        right. split; [by apply list_elem_of_further | done].
Qed.

Lemma same_booking_reloaded r : same_booking r (reloaded r).
Proof.
  unfold same_booking, reloaded. cbn.
  by rewrite room_id_reloaded_room.
Qed.

Lemma ids_reloaded (l : list Reservation) :
  reservation_id <$> (reloaded <$> l) = reservation_id <$> l.
Proof. rewrite <- list_fmap_compose. by apply list_fmap_ext. Qed.

#[export] Instance File_laws :
  RepositoryLaws file_state ids_distinct valid_times.
Proof.
  split.
  - done.
  - intros f i r _ Hfind. by apply first_with_id_Some.
  - intros f r _ Hr. cbn [find_all File_repository] in Hr.
    unfold FileRepository.find_all in Hr.
    pose proof (load_reservations_valid f) as Hall.
    rewrite Forall_forall in Hall. by apply Hall.
  - intros r [Hs He]. by split.
  - done.
  - intros f r b f' Hf Hr Hsave. cbn in Hsave.
    destruct (disk f) eqn:Hd.
    + (* the write succeeds *)
      pose proof (File_load_after_save r f Hd Hr) as Hload.
      rewrite File_save_ok in Hsave by done. injection Hsave as <- <-.
      rewrite File_save_ok in Hload by done. cbn [snd] in Hload.
      split.
      * unfold ids_distinct. rewrite Hload, ids_reloaded.
        by apply NoDup_ids_upserted.
      * intros x Hx. cbn [find_all File_repository] in Hx.
        unfold FileRepository.find_all in Hx. rewrite Hload in Hx.
        apply list_elem_of_fmap in Hx as (y & -> & Hy).
        destruct (elem_of_upserted r _ y Hf Hy) as [->|[Hy' Hne]].
        -- left. split; [done | apply same_booking_reloaded].
        -- right. exists y.
           split_and!; [done | apply same_booking_reloaded | done].
    + (* the file cannot be opened *)
      unfold FileRepository.save, FileRepository._save_reservations,
        FileRepository.write_file in Hsave.
      rewrite Hd in Hsave. injection Hsave as <- <-. split; [done|].
      intros x Hx. right. exists x.
      split_and!; [done | apply same_booking_refl | done].
    + (* the write is cut short *)
      unfold FileRepository.save, FileRepository._save_reservations,
        FileRepository.write_file in Hsave.
      rewrite Hd in Hsave. injection Hsave as <- <-.
      split; [apply NoDup_nil_2|].
      intros x Hx. cbn in Hx. by apply not_elem_of_nil in Hx.
Qed.

Lemma service_call_valid_ok c :
  service_call_valid c → service_call_ok valid_times c.
Proof. by destruct c. Qed.

Lemma service_call_any_ok c : service_call_ok (λ _, True) c.
Proof. by destruct c. Qed.

(** C1. Whatever sequence of [create_reservation] and
    [cancel_reservation] calls is made on a service whose repository
    starts empty (the in-memory one, or the file one on a file that
    holds the empty array, whatever the medium does to writes), the
    stored reservations never hold two reservations that are both not
    cancelled, on the same room, with overlapping intervals. Overlap
    is the half-open rule, so two intervals that touch at an endpoint
    do not overlap. *)
Theorem no_overlapping_active_reservations :
  (∀ (calls : list service_call) (events : list ReservationService.event),
     no_double_booking
       (ReservationService.get_all_reservations
          (serve_all calls
             (ReservationService.mk_world InMemoryRepository.init events))))
  ∧ (∀ (calls : list service_call) (events : list ReservationService.event)
       (d : medium),
       Forall service_call_valid calls →
       no_double_booking
         (ReservationService.get_all_reservations
            (serve_all calls
               (ReservationService.mk_world
                  (mk_file_state (Json (JArr [])) d) events))))
  ∧ (∀ a b : Reservation,
       intervals_overlap a b
       = Dt.lt (start_time a) (end_time b) && Dt.lt (start_time b) (end_time a))
  ∧ (∀ a b : Reservation,
       end_time a = start_time b →
       intervals_overlap a b = false ∧ intervals_overlap b a = false).
Proof.
  split_and!.
  - intros calls events.
    apply (serve_all_no_double_booking keys_are_ids (λ _, True)).
    + intros k r Hk. cbn [ReservationService.repository] in Hk.
      unfold InMemoryRepository.init in Hk. by rewrite lookup_empty in Hk.
    + intros a b Ha.
      cbn [ReservationService.repository find_all InMemory_repository] in Ha.
      unfold InMemoryRepository.find_all, InMemoryRepository.values,
        InMemoryRepository.init in Ha.
      rewrite map_to_list_empty in Ha. by apply not_elem_of_nil in Ha.
    + apply Forall_forall. intros c _. apply service_call_any_ok.
  - intros calls events d Hcalls.
    apply (serve_all_no_double_booking ids_distinct valid_times).
    + apply NoDup_nil_2.
    + intros a b Ha. by apply not_elem_of_nil in Ha.
    + eapply Forall_impl; [done|]. apply service_call_valid_ok.
  - done.
  - intros a b H. split; [|rewrite intervals_overlap_sym];
      by apply intervals_touching.
Qed.

Lemma no_overlapping_active_reservations_witness :
  no_double_booking
    (ReservationService.get_all_reservations
       (serve_all
          [CallCreate "0123abcd4567" Sample.room101 "John Doe"
             (Sample.at_hour 9) (Sample.at_hour 11) "Test";
           CallCreate "89abcdef0123" Sample.room101 "Jane Smith"
             (Sample.at_hour 10) (Sample.at_hour 12) "Clash";
           CallCreate "4567cdef89ab" Sample.room101 "Jane Smith"
             (Sample.at_hour 11) (Sample.at_hour 13) "Next";
           CallCancel "RES-0123ABCD"]
          (ReservationService.mk_world Sample.empty_file []))).
Proof.
  refine (proj1 (proj2 no_overlapping_active_reservations) _ [] WriteOk _).
  repeat apply Forall_cons_2; try apply Forall_nil_2; try exact I;
    split; reflexivity.
Defined.

(** The scenario of the specification: a booking of 9 to 11, one of
    10 to 12 on the same room that is refused, one of 11 to 13 that is
    accepted; after the first is cancelled, 9 to 11 can be booked
    again. *)
Example booking_scenario :
  let w0 := ReservationService.mk_world Sample.empty_memory [] in
  let book uuid_hex s e w :=
    ReservationService.create_reservation uuid_hex Sample.room101 "John Doe"
      (Sample.at_hour s) (Sample.at_hour e) "" w in
  let w1 := (book "0123abcd4567" 9 11 w0).2 in
  let w2 := (book "4567cdef89ab" 11 13 w1).2 in
  let w3 := (ReservationService.cancel_reservation "RES-0123ABCD" w2).2 in
  is_Some (book "0123abcd4567" 9 11 w0).1
  ∧ (book "89abcdef0123" 10 12 w1).1 = None
  ∧ is_Some (book "4567cdef89ab" 11 13 w1).1
  ∧ (book "cdef01234567" 9 11 w2).1 = None
  ∧ is_Some (book "cdef01234567" 9 11 w3).1.
Proof. vm_compute. repeat split; eauto. Qed.

(** * Further properties of the code *)

(** ** The file repository: what is loaded, and what a rewrite keeps *)

Lemma deserialized_room_fixed data room' :
  FileRepository._deserialize_room data = Some room' →
  reloaded_room room' = room'.
Proof.
  unfold FileRepository._deserialize_room. intros H.
  apply bind_Some in H as (t & _ & H).
  apply bind_Some in H as (i & _ & H).
  apply bind_Some in H as (n & _ & H).
  apply bind_Some in H as (c & _ & H).
  repeat case_match; injection H as <-; reflexivity.
Qed.

Lemma loaded_item_fixed item r :
  FileRepository.load_item item = Some r → reloaded r = r.
Proof.
  unfold FileRepository.load_item. intros H.
  apply bind_Some in H as (room' & Hroom & H).
  apply bind_Some in Hroom as (data & _ & Hroom).
  apply bind_Some in H as (rid & _ & H).
  apply bind_Some in H as (user & _ & H).
  apply bind_Some in H as (s & _ & H).
  apply bind_Some in H as (e & _ & H).
  apply bind_Some in H as (p & _ & H).
  apply bind_Some in H as (st & _ & H).
  injection H as <-. unfold reloaded. cbn.
  by rewrite (deserialized_room_fixed data room').
Qed.

Lemma loaded_fixed f :
  reloaded <$> FileRepository._load_reservations f
  = FileRepository._load_reservations f.
Proof.
  unfold FileRepository._load_reservations.
  destruct (FileRepository.try_load f) as [l|] eqn:Hl; [|done]. cbn.
  unfold FileRepository.try_load in Hl.
  destruct (content f) as [| |[]]; try done.
  apply mapM_Some in Hl.
  induction Hl as [|item r data l Hr Hl IH]; [done|].
  cbn. by rewrite (loaded_item_fixed item r), IH.
Qed.

(** X1. Loading is stable under a rewrite: on a medium that accepts
    the write, writing back the records that were loaded and loading
    again gives the same records, in the same order. The
    reload-and-rewrite that every [save] and [delete] performs
    therefore never alters a record that the call does not name. *)
Theorem load_write_load (f : file_state) :
  disk f = WriteOk →
  find_all (FileRepository._save_reservations (find_all f) f).2 = find_all f.
Proof.
  intros Hd. cbn [find_all File_repository]. unfold FileRepository.find_all.
  unfold FileRepository._save_reservations, FileRepository.write_file.
  rewrite Hd. cbn [snd].
  unfold FileRepository._load_reservations at 1.
  rewrite try_load_written by apply load_reservations_valid.
  cbn [from_option id]. apply loaded_fixed.
Qed.

Lemma load_write_load_witness :
  let f := (save Sample.cs_booking Sample.empty_file).2 in
  find_all (FileRepository._save_reservations (find_all f) f).2 = find_all f.
Proof. apply load_write_load. reflexivity. Defined.

Lemma upserted_reloaded r (l : list Reservation) :
  reloaded <$> upserted r l = upserted (reloaded r) (reloaded <$> l).
Proof.
  induction l as [|x l IH]; [done|].
  rewrite fmap_cons, !upserted_cons. cbn [reloaded reservation_id].
  case_bool_decide; [done|]. by rewrite fmap_cons, IH.
Qed.



Lemma first_with_id_upserted_ne r l j :
  j ≠ reservation_id r →
  FileRepository.first_with_id j (upserted r l)
  = FileRepository.first_with_id j l.
Proof.
  intros Hj. induction l as [|x l IH].
  - cbn. by rewrite bool_decide_eq_false_2.
  - rewrite upserted_cons.
    destruct (decide (reservation_id x = reservation_id r)) as [Hx|Hx].
    + rewrite (bool_decide_eq_true_2 _ Hx). cbn.
      rewrite !bool_decide_eq_false_2 by congruence. done.
    + rewrite (bool_decide_eq_false_2 _ Hx). cbn.
      case_bool_decide; [done | apply IH].
Qed.

(** X3. Saving a reservation to the file leaves what [find_by_id]
    returns for every other identifier as it was. *)
Theorem File_save_keeps_others (f : file_state) (r : Reservation) (j : string) :
  disk f = WriteOk → valid_times r → j ≠ reservation_id r →
  find_by_id j (save r f).2 = find_by_id j f.
Proof.
  intros Hd Hr Hj. cbn [save find_by_id File_repository].
  unfold FileRepository.find_by_id.
  rewrite File_load_after_save, first_with_id_reloaded by done.
  rewrite first_with_id_upserted_ne by done.
  by rewrite <- first_with_id_reloaded, loaded_fixed.
Qed.

Lemma File_save_keeps_others_witness :
  find_by_id "RES-00000001"
    (save Sample.chemistry_booking (save Sample.booking Sample.empty_file).2).2
  = find_by_id "RES-00000001" (save Sample.booking Sample.empty_file).2.
Proof.
  apply File_save_keeps_others.
  - reflexivity.
  - split; reflexivity.
  - discriminate.
Defined.

Lemma List_filter_ids i (l : list Reservation) :
  List.filter (λ r, negb (bool_decide (reservation_id r = i))) l
  = filter (λ r, reservation_id r ≠ i) l.
Proof.
  induction l as [|x l IH]; [done|]. cbn [List.filter].
  rewrite filter_cons, <- IH.
  destruct (decide (reservation_id x = i)) as [Hx|Hx].
  - rewrite (bool_decide_eq_true_2 _ Hx). cbn [negb].
    by rewrite decide_False by (by intros ?).
  - rewrite (bool_decide_eq_false_2 _ Hx). cbn [negb].
    by rewrite decide_True.
Qed.

Lemma first_with_id_filter_ne i j (l : list Reservation) :
  j ≠ i →
  FileRepository.first_with_id j
    (List.filter (λ r, negb (bool_decide (reservation_id r = i))) l)
  = FileRepository.first_with_id j l.
Proof.
  intros Hj. induction l as [|x l IH]; [done|]. cbn [List.filter].
  destruct (decide (reservation_id x = i)) as [Hx|Hx].
  - rewrite (bool_decide_eq_true_2 _ Hx). cbn [negb]. cbn.
    by rewrite bool_decide_eq_false_2 by congruence.
  - rewrite (bool_decide_eq_false_2 _ Hx). cbn [negb]. cbn.
    case_bool_decide; [done | apply IH].
Qed.

Lemma reloaded_List_filter i (l : list Reservation) :
  reloaded
    <$> List.filter (λ r, negb (bool_decide (reservation_id r = i))) l
  = List.filter (λ r, negb (bool_decide (reservation_id r = i)))
      (reloaded <$> l).
Proof.
  induction l as [|x l IH]; [done|]. cbn [List.filter fmap list_fmap].
  cbn [reloaded reservation_id].
  destruct (bool_decide (reservation_id x = i)); cbn [negb]; [done|].
  by rewrite <- IH.
Qed.

Lemma File_load_after_delete i f :
  disk f = WriteOk →
  FileRepository._load_reservations (FileRepository.delete i f).2
  = List.filter (λ r, negb (bool_decide (reservation_id r = i)))
      (FileRepository._load_reservations f).
Proof.
  intros Hd. unfold FileRepository.delete, FileRepository._save_reservations,
    FileRepository.write_file.
  rewrite Hd. cbn [snd]. unfold FileRepository._load_reservations at 1.
  rewrite try_load_written
    by (apply Forall_List_filter, load_reservations_valid).
  cbn [from_option id]. by rewrite reloaded_List_filter, loaded_fixed.
Qed.

(** X4. [FileRepository.delete] on a medium that accepts the write
    returns true, removes every record with the identifier (none is
    found afterwards) and leaves the other records, and what
    [find_by_id] returns for them, as they were. *)
Theorem File_delete_removes (f : file_state) (i : string) :
  disk f = WriteOk →
  (delete i f).1 = true
  ∧ find_all (delete i f).2 = filter (λ r, reservation_id r ≠ i) (find_all f)
  ∧ find_by_id i (delete i f).2 = None
  ∧ ∀ j, j ≠ i → find_by_id j (delete i f).2 = find_by_id j f.
Proof.
  intros Hd. cbn [delete find_all find_by_id File_repository].
  unfold FileRepository.find_all, FileRepository.find_by_id.
  rewrite File_load_after_delete by done. split_and!.
  - by rewrite File_delete_result, Hd.
  - apply List_filter_ids.
  - apply first_with_id_deleted.
  - intros j Hj. by apply first_with_id_filter_ne.
Qed.

Lemma File_delete_removes_witness :
  find_all (delete "RES-00000001" (save Sample.booking Sample.empty_file).2).2
  = filter (λ r, reservation_id r ≠ "RES-00000001")
      (find_all (save Sample.booking Sample.empty_file).2).
Proof.
  refine (proj1 (proj2 (File_delete_removes _ "RES-00000001" _))).
  reflexivity.
Defined.

(** ** Identifiers stay distinct *)

Lemma File_call_keeps_distinct c f :
  valid_call c → ids_distinct f → ids_distinct (call c f).2.
Proof.
  intros Hc Hf. destruct c as [r|i|room' s e| |i]; try done.
  - cbn [call]. destruct (save r f) as [b f'] eqn:Hsave.
    by destruct (law_save f r b f' Hf Hc Hsave) as [Hf' _].
  - cbn [call delete File_repository].
    destruct (FileRepository.delete i f) as [b f'] eqn:Hdel. cbn [snd].
    destruct (disk f) eqn:Hd.
    + assert (f' = (FileRepository.delete i f).2) as -> by by rewrite Hdel.
      unfold ids_distinct. rewrite File_load_after_delete by done.
      eapply sublist_NoDup; [exact Hf | apply filter_ids_sublist].
    + unfold FileRepository.delete, FileRepository._save_reservations,
        FileRepository.write_file in Hdel.
      rewrite Hd in Hdel. by injection Hdel as <- <-.
    + unfold FileRepository.delete, FileRepository._save_reservations,
        FileRepository.write_file in Hdel.
      rewrite Hd in Hdel. injection Hdel as <- <-. apply NoDup_nil_2.
Qed.

Lemma keys_are_ids_delete i m : keys_are_ids m → keys_are_ids (base.delete i m).
Proof.
  intros Hm k r Hk. apply lookup_delete_Some in Hk as [_ Hk]. by apply Hm.
Qed.

Lemma InMemory_call_keeps_keys c m :
  keys_are_ids m → keys_are_ids (call c m).2.
Proof.
  intros Hm. destruct c as [r|i|room' s e| |i]; try done.
  - by apply keys_are_ids_save.
  - cbn [call delete InMemory_repository]. unfold InMemoryRepository.delete.
    case_bool_decide; [by apply keys_are_ids_delete | done].
Qed.

(** X5. [find_all] never lists an identifier twice: from the empty
    dictionary, and from a file whose records have distinct
    identifiers (the empty one among them), no sequence of repository
    calls makes either repository hold two reservations with one
    identifier, whatever the medium does to the writes. *)
Theorem identifiers_stay_distinct (calls : list repo_call) :
  NoDup (reservation_id <$> find_all (after_calls calls InMemoryRepository.init))
  ∧ ∀ f : file_state,
      Forall valid_call calls →
      NoDup (reservation_id <$> find_all f) →
      NoDup (reservation_id <$> find_all (after_calls calls f)).
Proof.
  split.
  - apply (law_unique (wf := keys_are_ids) (ok := λ _, True)).
    assert (keys_are_ids InMemoryRepository.init) as Hinit
      by (intros k r Hk; unfold InMemoryRepository.init in Hk;
          by rewrite lookup_empty in Hk).
    revert Hinit. generalize InMemoryRepository.init.
    induction calls as [|c calls IH]; intros m Hm; [done|].
    cbn [after_calls fold_left]. apply IH. by apply InMemory_call_keeps_keys.
  - intros f Hcalls. revert f.
    induction Hcalls as [|c calls Hc Hcalls IH]; intros f Hf; [done|].
    cbn [after_calls fold_left]. apply IH. by apply File_call_keeps_distinct.
Qed.

Lemma identifiers_stay_distinct_witness :
  NoDup (reservation_id
           <$> find_all (after_calls
                           [CallSave Sample.booking; CallSave Sample.booking;
                            CallDelete "RES-404"; CallSave Sample.cs_booking]
                           (mk_file_state (Json (JArr [])) WriteTorn))).
Proof.
  refine (proj2 (identifiers_stay_distinct _) _ _ _).
  - repeat apply Forall_cons_2; try apply Forall_nil_2; try exact I;
      split; reflexivity.
  - apply NoDup_nil_2.
Defined.

(** ** Records that cannot be rebuilt, and records with fields left out *)

(** X6. One record of the file on which the loop raises (it is no
    object, lacks a key that the loop reads, or holds a room type or a
    timestamp on which the call that reads it raises) hides all the
    records: every query then answers as on an empty store, also for
    the records that are well formed. *)
Theorem one_bad_record_hides_all
    (data : list json) (d : medium) (item : json) (i : string)
    (room' : Room) (s e : datetime) :
  item ∈ data → item_raises item = true →
  let f := mk_file_state (Json (JArr data)) d in
  find_all f = [] ∧ find_by_id i f = None
  ∧ find_by_room_and_time room' s e f = [].
Proof.
  intros Hin Hbad%item_raises_None. cbv zeta.
  assert (FileRepository.try_load (mk_file_state (Json (JArr data)) d) = None)
    as Hload.
  { unfold FileRepository.try_load. cbn [content].
    apply mapM_None. apply Exists_exists. by exists item. }
  cbn [find_all find_by_id find_by_room_and_time File_repository].
  unfold FileRepository.find_all, FileRepository.find_by_id,
    FileRepository.find_by_room_and_time, FileRepository._load_reservations.
  by rewrite Hload.
Qed.

Lemma one_bad_record_hides_all_witness :
  find_all
    (mk_file_state
       (Json (JArr [FileRepository.serialize_reservation Sample.booking;
                    JObj [("reservation_id", JStr "RES-00000009")]]))
       WriteOk)
  = [].
Proof.
  refine (proj1 (one_bad_record_hides_all _ WriteOk
                   (JObj [("reservation_id", JStr "RES-00000009")])
                   "RES-00000001" Sample.room101 (Sample.at_hour 9)
                   (Sample.at_hour 11) _ _)).
  - apply list_elem_of_further, list_elem_of_here.
  - reflexivity.
Defined.

(** X7. A record without the fields [purpose] and [status] is loaded
    with an empty purpose and as CONFIRMED. *)
Theorem load_item_defaults (r : Reservation) :
  valid_times r →
  FileRepository.load_item (bare_record r)
  = Some (reloaded
            (new_Reservation (reservation_id r) (room r) (user_name r)
               (start_time r) (end_time r) "")).
Proof.
  intros [Hs He]. unfold FileRepository.load_item, bare_record.
  read_fields. rewrite deserialize_serialize_room. read_fields.
  rewrite !fromisoformat_isoformat by done. read_fields.
  done.
Qed.

Lemma load_item_defaults_witness :
  purpose <$> FileRepository.load_item (bare_record (cancel Sample.booking))
  = Some ""
  ∧ status <$> FileRepository.load_item (bare_record (cancel Sample.booking))
    = Some "CONFIRMED".
Proof.
  rewrite (load_item_defaults (cancel Sample.booking));
    [split; reflexivity | split; reflexivity].
Defined.

(** X8. [_ensure_file_exists] creates the file with the empty array
    only when there is none; a file that exists, readable or not, is
    left as it is, and running it again changes nothing. It fails only
    when there is no file and none can be written. *)
Theorem ensure_file_exists_idempotent (f : file_state) :
  (∀ f', FileRepository._ensure_file_exists f = Some f' →
     content f' ≠ Missing
     ∧ FileRepository._ensure_file_exists f' = Some f'
     ∧ (content f ≠ Missing → f' = f)
     ∧ (content f = Missing →
        content f' = Json (JArr []) ∧ find_all f' = []))
  ∧ (FileRepository._ensure_file_exists f = None
     ↔ content f = Missing ∧ disk f ≠ WriteOk).
Proof.
  destruct f as [c d].
  unfold FileRepository._ensure_file_exists, FileRepository.write_file.
  cbn [content disk]. split.
  - intros f' H. destruct c, d; simplify_eq/=; by split_and!.
  - destruct c, d; cbn; split; try done; intros [? ?]; done.
Qed.

Lemma ensure_file_exists_idempotent_witness :
  content Sample.empty_file ≠ Missing
  ∧ FileRepository._ensure_file_exists Sample.empty_file
    = Some Sample.empty_file.
Proof.
  destruct (proj1 (ensure_file_exists_idempotent
                     (mk_file_state Missing WriteOk))
              Sample.empty_file eq_refl) as (H1 & H2 & _).
  split; [exact H1 | exact H2].
Defined.

(** ** The service: what a call that succeeded leaves behind *)

Section ServiceInversion.
Import ReservationService.
Context {S : Type} `{!IReservationRepository S}.

Lemma create_reservation_Some uuid_hex room' user s e purpose' (w : world S) r :
  (create_reservation uuid_hex room' user s e purpose' w).1 = Some r →
  Dt.lt s e = true
  ∧ find_by_room_and_time room' s e (repository w) = []
  ∧ r = new_Reservation (_generate_reservation_id uuid_hex) room' user s e
          purpose'
  ∧ save r (repository w)
    = (true,
       repository (create_reservation uuid_hex room' user s e purpose' w).2).
Proof.
  unfold create_reservation, _validate_time_range, _check_availability.
  destruct (Dt.lt s e); cbn [negb]; [|done].
  case_bool_decide as Hnone; cbn [negb]; [|done].
  apply length_zero_iff_nil in Hnone.
  destruct (save _ (repository w)) as [[] st'] eqn:Hsave; cbn; [|done].
  intros [= <-]. by rewrite Hsave.
Qed.

Lemma create_reservation_is_Some uuid_hex room' user s e purpose' (w : world S) :
  Dt.lt s e = true →
  find_by_room_and_time room' s e (repository w) = [] →
  (save (new_Reservation (_generate_reservation_id uuid_hex) room' user s e
           purpose') (repository w)).1 = true →
  is_Some (create_reservation uuid_hex room' user s e purpose' w).1.
Proof.
  intros Hlt Hnone Hsave.
  unfold create_reservation, _validate_time_range, _check_availability.
  rewrite Hlt, Hnone. cbn [negb length].
  rewrite bool_decide_eq_true_2 by done. cbn [negb].
  destruct (save _ (repository w)) as [[] st']; cbn in *; [eauto|done].
Qed.

Lemma cancel_reservation_true i (w : world S) :
  (cancel_reservation i w).1 = true →
  ∃ r, find_by_id i (repository w) = Some r
       ∧ status r ≠ "CANCELLED"
       ∧ save (cancel r) (repository w)
         = (true, repository (cancel_reservation i w).2).
Proof.
  unfold cancel_reservation.
  destruct (find_by_id i (repository w)) as [r|]; [|done].
  case_bool_decide as Hst; [done|].
  destruct (save _ (repository w)) as [[] st'] eqn:Hsave; cbn; [|done].
  intros _. exists r. by rewrite Hsave.
Qed.

Lemma cancel_reservation_is_true i (w : world S) r :
  find_by_id i (repository w) = Some r → status r ≠ "CANCELLED" →
  (save (cancel r) (repository w)).1 = true →
  (cancel_reservation i w).1 = true.
Proof.
  intros Hfind Hst Hsave. unfold cancel_reservation.
  rewrite Hfind, bool_decide_eq_false_2 by done.
  by destruct (save _ (repository w)) as [[] st'].
Qed.

End ServiceInversion.

Lemma File_save_true r f f' :
  FileRepository.save r f = (true, f') → disk f = WriteOk.
Proof.
  unfold FileRepository.save, FileRepository._save_reservations,
    FileRepository.write_file.
  by destruct (disk f).
Qed.

Lemma reloaded_cancel r : reloaded (cancel r) = cancel (reloaded r).
Proof. done. Qed.

Lemma loaded_elem_fixed f r :
  r ∈ FileRepository._load_reservations f → reloaded r = r.
Proof.
  intros Hr. pose proof (loaded_fixed f) as Hfix.
  apply list_elem_of_lookup in Hr as [k Hk].
  apply (f_equal (λ l, l !! k)) in Hfix.
  rewrite list_lookup_fmap, Hk in Hfix. cbn in Hfix. by injection Hfix.
Qed.

(** X9. A reservation that [create_reservation] returned can be
    fetched under its identifier: [get_reservation] returns it as it
    is from the in-memory repository, and as the file gives it back
    (room rebuilt from its type tag) from the file repository. *)
Theorem created_reservation_is_found
    (uuid_hex : string) (room' : Room) (user : string) (s e : datetime)
    (purpose' : string) :
  (∀ (w : ReservationService.world (gmap string Reservation)) r,
     (ReservationService.create_reservation uuid_hex room' user s e purpose'
        w).1 = Some r →
     ReservationService.get_reservation (reservation_id r)
       (ReservationService.create_reservation uuid_hex room' user s e
          purpose' w).2
     = Some r)
  ∧ (∀ (w : ReservationService.world file_state) r,
       valid_datetime s = true → valid_datetime e = true →
       (ReservationService.create_reservation uuid_hex room' user s e
          purpose' w).1 = Some r →
       ReservationService.get_reservation (reservation_id r)
         (ReservationService.create_reservation uuid_hex room' user s e
            purpose' w).2
       = Some (reloaded r)).
Proof.
  split.
  - intros w r Hr.
    destruct (create_reservation_Some _ _ _ _ _ _ _ _ Hr) as (_ & _ & _ & Hsave).
    unfold ReservationService.get_reservation.
    cbn [save find_by_id InMemory_repository] in *.
    injection Hsave as <-. apply lookup_insert_eq.
  - intros w r Hs He Hr.
    destruct (create_reservation_Some _ _ _ _ _ _ _ _ Hr)
      as (_ & _ & Hnew & Hsave).
    unfold ReservationService.get_reservation.
    cbn [save find_by_id File_repository] in *.
    pose proof (File_save_true _ _ _ Hsave) as Hd.
    rewrite <- (File_find_after_save r (ReservationService.repository w));
      [by rewrite Hsave | done | by subst r].
Qed.

Lemma created_reservation_is_found_witness :
  ReservationService.get_reservation "RES-0123ABCD"
    (ReservationService.create_reservation "0123abcd4567" Sample.cs_lab
       "Jane Smith" (Sample.at_hour 14) (Sample.at_hour 16) "Seminar"
       (ReservationService.mk_world Sample.empty_file [])).2
  = Some (reloaded
            (new_Reservation "RES-0123ABCD" Sample.cs_lab "Jane Smith"
               (Sample.at_hour 14) (Sample.at_hour 16) "Seminar")).
Proof.
  refine (proj2 (created_reservation_is_found "0123abcd4567" Sample.cs_lab
                   "Jane Smith" (Sample.at_hour 14) (Sample.at_hour 16)
                   "Seminar")
            (ReservationService.mk_world Sample.empty_file [])
            (new_Reservation "RES-0123ABCD" Sample.cs_lab "Jane Smith"
               (Sample.at_hour 14) (Sample.at_hour 16) "Seminar") _ _ _);
    reflexivity.
Defined.

(** X10. After [cancel_reservation] returned true, [get_reservation]
    returns, under the same identifier, the reservation that was
    there before with its status set to CANCELLED and nothing else
    changed. (For the dictionary, its keys being the identifiers of
    its values, as they are when it is filled by the service.) *)
Theorem cancelled_reservation_is_found (i : string) :
  (∀ w : ReservationService.world (gmap string Reservation),
     keys_are_ids (ReservationService.repository w) →
     (ReservationService.cancel_reservation i w).1 = true →
     ∃ r, ReservationService.get_reservation i w = Some r
          ∧ status r ≠ "CANCELLED"
          ∧ ReservationService.get_reservation i
              (ReservationService.cancel_reservation i w).2
            = Some (cancel r))
  ∧ (∀ w : ReservationService.world file_state,
       (ReservationService.cancel_reservation i w).1 = true →
       ∃ r, ReservationService.get_reservation i w = Some r
            ∧ status r ≠ "CANCELLED"
            ∧ ReservationService.get_reservation i
                (ReservationService.cancel_reservation i w).2
              = Some (cancel r)).
Proof.
  split.
  - intros w Hkeys Hc.
    destruct (cancel_reservation_true i w Hc) as (r & Hfind & Hst & Hsave).
    exists r. split_and!; [done..|].
    unfold ReservationService.get_reservation.
    cbn [save find_by_id InMemory_repository] in *.
    injection Hsave as <-. unfold InMemoryRepository.find_by_id in *.
    cbn [cancel reservation_id]. rewrite (Hkeys i r Hfind).
    apply lookup_insert_eq.
  - intros w Hc.
    destruct (cancel_reservation_true i w Hc) as (r & Hfind & Hst & Hsave).
    exists r. split_and!; [done..|].
    unfold ReservationService.get_reservation.
    cbn [save find_by_id File_repository] in *.
    pose proof (File_save_true _ _ _ Hsave) as Hd.
    destruct (first_with_id_Some _ _ _ Hfind) as [Hin Hid].
    assert (valid_times (cancel r)) as Hv.
    { pose proof (load_reservations_valid (ReservationService.repository w))
        as Hall.
      rewrite Forall_forall in Hall. exact (Hall r Hin). }
    pose proof (File_find_after_save (cancel r)
                  (ReservationService.repository w) Hd Hv) as Hafter.
    rewrite Hsave in Hafter. cbn [snd cancel reservation_id] in Hafter.
    rewrite Hid in Hafter. rewrite Hafter, reloaded_cancel.
    by rewrite (loaded_elem_fixed _ _ Hin).
Qed.

Lemma cancelled_reservation_is_found_witness :
  ∃ r, ReservationService.get_reservation "RES-00000001"
         (ReservationService.cancel_reservation "RES-00000001"
            (ReservationService.mk_world
               (save Sample.booking Sample.empty_file).2 [])).2
       = Some (cancel r).
Proof.
  assert ((ReservationService.cancel_reservation "RES-00000001"
             (ReservationService.mk_world
                (save Sample.booking Sample.empty_file).2 [])).1 = true)
    as Hc by (vm_compute; reflexivity).
  destruct (proj2 (cancelled_reservation_is_found "RES-00000001")
              (ReservationService.mk_world
                 (save Sample.booking Sample.empty_file).2 []) Hc)
    as (r & _ & _ & H).
  exists r. exact H.
Defined.

Section ServiceRejection.
Import ReservationService.
Context {S : Type} `{!IReservationRepository S}.

Lemma create_reservation_conflict uuid_hex room' user s e purpose' (w : world S) x :
  x ∈ find_by_room_and_time room' s e (repository w) →
  (create_reservation uuid_hex room' user s e purpose' w).1 = None
  ∧ repository (create_reservation uuid_hex room' user s e purpose' w).2
    = repository w.
Proof.
  intros Hx. unfold create_reservation, _check_availability.
  destruct (_validate_time_range s e); cbn [negb]; [|done].
  rewrite bool_decide_eq_false_2; [done|].
  intros Hlen. apply length_zero_iff_nil in Hlen. rewrite Hlen in Hx.
  by apply not_elem_of_nil in Hx.
Qed.

End ServiceRejection.

(** X11. Once [create_reservation] has returned a reservation, the
    next request for a room with the same identifier and a range that
    overlaps it (half-open rule) is refused, and the repository is
    left as it was; in both repositories. *)
Theorem overlapping_request_is_refused
    (uuid_hex : string) (room' : Room) (user : string) (s e : datetime)
    (purpose' : string)
    (uuid_hex' : string) (room'' : Room) (user' : string) (s' e' : datetime)
    (purpose'' : string) :
  room_id room'' = room_id room' →
  Dt.lt s e' = true → Dt.lt s' e = true →
  (∀ (w : ReservationService.world (gmap string Reservation)) r,
     (ReservationService.create_reservation uuid_hex room' user s e purpose'
        w).1 = Some r →
     let w1 := (ReservationService.create_reservation uuid_hex room' user s e
                  purpose' w).2 in
     let out := ReservationService.create_reservation uuid_hex' room'' user'
                  s' e' purpose'' w1 in
     out.1 = None
     ∧ ReservationService.repository out.2 = ReservationService.repository w1)
  ∧ (∀ (w : ReservationService.world file_state) r,
       valid_datetime s = true → valid_datetime e = true →
       (ReservationService.create_reservation uuid_hex room' user s e
          purpose' w).1 = Some r →
       let w1 := (ReservationService.create_reservation uuid_hex room' user
                    s e purpose' w).2 in
       let out := ReservationService.create_reservation uuid_hex' room''
                    user' s' e' purpose'' w1 in
       out.1 = None
       ∧ ReservationService.repository out.2
         = ReservationService.repository w1).
Proof.
  intros Hroom Hlt1 Hlt2. split.
  - intros w r Hr. cbv zeta.
    destruct (create_reservation_Some _ _ _ _ _ _ _ _ Hr)
      as (_ & _ & Hnew & Hsave).
    apply (create_reservation_conflict _ _ _ _ _ _ _ r).
    cbn [save find_by_room_and_time InMemory_repository] in *.
    injection Hsave as <-.
    apply elem_of_collect_overlapping. split_and!.
    + apply elem_of_values. exists (reservation_id r).
      apply lookup_insert_eq.
    + by subst r.
    + by subst r.
    + by subst r.
    + by subst r.
  - intros w r Hs He Hr. cbv zeta.
    destruct (create_reservation_Some _ _ _ _ _ _ _ _ Hr)
      as (_ & _ & Hnew & Hsave).
    apply (create_reservation_conflict _ _ _ _ _ _ _ (reloaded r)).
    cbn [save find_by_room_and_time File_repository] in *.
    pose proof (File_save_true _ _ _ Hsave) as Hd.
    assert (valid_times r) as Hv by (by subst r).
    pose proof (File_find_after_save r _ Hd Hv) as Hfind.
    rewrite Hsave in Hfind. cbn [snd] in Hfind.
    apply first_with_id_Some in Hfind as [Hin _].
    apply elem_of_collect_overlapping. split_and!; [done|..].
    + cbn. rewrite room_id_reloaded_room. by subst r.
    + by subst r.
    + by subst r.
    + by subst r.
Qed.

Lemma overlapping_request_is_refused_witness :
  (ReservationService.create_reservation "89abcdef0123" Sample.room101
     "Jane Smith" (Sample.at_hour 10) (Sample.at_hour 12) "Clash"
     (ReservationService.create_reservation "0123abcd4567" Sample.room101
        "John Doe" (Sample.at_hour 9) (Sample.at_hour 11) "Test"
        (ReservationService.mk_world Sample.empty_memory [])).2).1
  = None.
Proof.
  refine (proj1 (proj1 (overlapping_request_is_refused "0123abcd4567"
            Sample.room101 "John Doe" (Sample.at_hour 9) (Sample.at_hour 11)
            "Test" "89abcdef0123" Sample.room101 "Jane Smith"
            (Sample.at_hour 10) (Sample.at_hour 12) "Clash" _ _ _)
            (ReservationService.mk_world Sample.empty_memory [])
            (new_Reservation "RES-0123ABCD" Sample.room101 "John Doe"
               (Sample.at_hour 9) (Sample.at_hour 11) "Test") _));
    reflexivity.
Defined.

(** ** Booking again after a cancellation *)

Lemma collect_overlapping_nil room' s e (l : list Reservation) :
  (∀ x, x ∈ l → conflicts_with room' s e x = false) →
  collect_overlapping room' s e l = [].
Proof.
  intros Hl. destruct (collect_overlapping room' s e l) as [|x k] eqn:Hc;
    [done|].
  assert (x ∈ collect_overlapping room' s e l) as Hx
    by (rewrite Hc; apply list_elem_of_here).
  apply elem_of_collect_overlapping in Hx as (Hin & Hx).
  apply conflicts_with_true in Hx. rewrite (Hl x Hin) in Hx. done.
Qed.

Lemma collect_overlapping_nil_inv room' s e (l : list Reservation) x :
  collect_overlapping room' s e l = [] → x ∈ l →
  conflicts_with room' s e x = false.
Proof.
  intros Hc Hx. destruct (conflicts_with room' s e x) eqn:Hcx; [|done].
  assert (x ∈ collect_overlapping room' s e l) as Hin.
  { apply elem_of_collect_overlapping. split; [done|].
    by apply conflicts_with_true. }
  rewrite Hc in Hin. by apply not_elem_of_nil in Hin.
Qed.

Lemma conflicts_with_cancel room' s e r :
  conflicts_with room' s e (cancel r) = false.
Proof.
  unfold conflicts_with. cbn [status cancel].
  rewrite (bool_decide_eq_true_2 ("CANCELLED" = "CANCELLED")) by done.
  apply andb_false_r.
Qed.

Lemma elem_of_upserted_weak r l x : x ∈ upserted r l → x = r ∨ x ∈ l.
Proof.
  induction l as [|y l IH].
  - rewrite upserted_nil. intros Hx%list_elem_of_singleton. by left.
  - rewrite upserted_cons. case_bool_decide.
    + intros [->|Hx]%elem_of_cons; [by left|].
      right. by apply list_elem_of_further.
    + intros [->|Hx]%elem_of_cons; [right; apply list_elem_of_here|].
      destruct (IH Hx) as [->|Hin]; [by left|].
      right. by apply list_elem_of_further.
Qed.

Lemma upserted_upserted c a l :
  reservation_id c = reservation_id a →
  upserted c (upserted a l) = upserted c l.
Proof.
  intros Hid. induction l as [|y l IH].
  - rewrite !upserted_nil, upserted_cons.
    by rewrite bool_decide_eq_true_2.
  - rewrite (upserted_cons a), (upserted_cons c y). rewrite Hid.
    case_bool_decide as Hy.
    + rewrite upserted_cons. by rewrite bool_decide_eq_true_2.
    + rewrite upserted_cons, Hid. rewrite bool_decide_eq_false_2 by done.
      by rewrite IH.
Qed.

Lemma File_load_upserted r f :
  disk f = WriteOk → valid_times r →
  FileRepository._load_reservations (FileRepository.save r f).2
  = upserted (reloaded r) (FileRepository._load_reservations f).
Proof.
  intros Hd Hr.
  rewrite File_load_after_save, upserted_reloaded by done.
  by rewrite loaded_fixed.
Qed.

Lemma File_save_disk r f : disk (FileRepository.save r f).2 = disk f.
Proof.
  unfold FileRepository.save, FileRepository._save_reservations,
    FileRepository.write_file.
  destruct f as [c d]. by destruct d.
Qed.

Lemma reloaded_idem r : reloaded (reloaded r) = reloaded r.
Proof.
  unfold reloaded. cbn.
  by rewrite (deserialized_room_fixed _ _ (deserialize_serialize_room (room r))).
Qed.

(** X12. A slot is free again once its booking is cancelled: after
    [create_reservation] returned a reservation, cancelling it
    succeeds, and a request for the same room and range is then
    accepted, whoever makes it; in both repositories. *)
Theorem slot_is_free_after_cancellation
    (uuid_hex : string) (room' : Room) (user : string) (s e : datetime)
    (purpose' : string) (uuid_hex' user' purpose'' : string) :
  (∀ (w : ReservationService.world (gmap string Reservation)) r,
     (ReservationService.create_reservation uuid_hex room' user s e purpose'
        w).1 = Some r →
     let w1 := (ReservationService.create_reservation uuid_hex room' user s e
                  purpose' w).2 in
     let w2 := (ReservationService.cancel_reservation (reservation_id r)
                  w1).2 in
     (ReservationService.cancel_reservation (reservation_id r) w1).1 = true
     ∧ is_Some (ReservationService.create_reservation uuid_hex' room' user'
                  s e purpose'' w2).1)
  ∧ (∀ (w : ReservationService.world file_state) r,
       valid_datetime s = true → valid_datetime e = true →
       (ReservationService.create_reservation uuid_hex room' user s e
          purpose' w).1 = Some r →
       let w1 := (ReservationService.create_reservation uuid_hex room' user
                    s e purpose' w).2 in
       let w2 := (ReservationService.cancel_reservation (reservation_id r)
                    w1).2 in
       (ReservationService.cancel_reservation (reservation_id r) w1).1 = true
       ∧ is_Some (ReservationService.create_reservation uuid_hex' room'
                    user' s e purpose'' w2).1).
Proof.
  split.
  - intros w r Hr. cbv zeta.
    destruct (create_reservation_Some _ _ _ _ _ _ _ _ Hr)
      as (Hlt & Hnone & Hnew & Hsave).
    set (w1 := (ReservationService.create_reservation uuid_hex room' user s e
                  purpose' w).2) in *.
    cbn [save find_by_room_and_time InMemory_repository] in Hsave, Hnone.
    injection Hsave as Hm1.
    assert (find_by_id (reservation_id r) (ReservationService.repository w1)
            = Some r) as Hfind.
    { rewrite <- Hm1. apply lookup_insert_eq. }
    assert (status r ≠ "CANCELLED") as Hst by (by subst r).
    assert ((ReservationService.cancel_reservation (reservation_id r) w1).1
            = true) as Hc.
    { by apply (cancel_reservation_is_true _ _ r). }
    split; [done|].
    destruct (cancel_reservation_true _ _ Hc) as (r0 & Hfind0 & _ & Hsave2).
    rewrite Hfind in Hfind0. injection Hfind0 as <-.
    cbn [save InMemory_repository] in Hsave2. injection Hsave2 as Hm2.
    apply create_reservation_is_Some; [done| |done].
    cbn [find_by_room_and_time InMemory_repository].
    apply collect_overlapping_nil. intros x Hx.
    rewrite <- Hm2, <- Hm1 in Hx.
    apply elem_of_values in Hx as [k Hk].
    cbn [cancel reservation_id] in Hk. rewrite insert_insert_eq in Hk.
    rewrite lookup_insert in Hk. case_decide.
    + injection Hk as <-. apply conflicts_with_cancel.
    + eapply collect_overlapping_nil_inv; [exact Hnone|].
      apply elem_of_values. by exists k.
  - intros w r Hs He Hr. cbv zeta.
    destruct (create_reservation_Some _ _ _ _ _ _ _ _ Hr)
      as (Hlt & Hnone & Hnew & Hsave).
    set (w1 := (ReservationService.create_reservation uuid_hex room' user s e
                  purpose' w).2) in *.
    set (f := ReservationService.repository w) in *.
    cbn [save find_by_room_and_time File_repository] in Hsave, Hnone.
    pose proof (File_save_true _ _ _ Hsave) as Hd.
    assert (valid_times r) as Hv by (by subst r).
    assert (ReservationService.repository w1 = (FileRepository.save r f).2)
      as Hf1 by (by rewrite Hsave).
    assert (find_by_id (reservation_id r) (ReservationService.repository w1)
            = Some (reloaded r)) as Hfind.
    { rewrite Hf1. by apply File_find_after_save. }
    assert (status (reloaded r) ≠ "CANCELLED") as Hst by (by subst r).
    assert (disk (ReservationService.repository w1) = WriteOk) as Hd1
      by (by rewrite Hf1, File_save_disk).
    assert ((ReservationService.cancel_reservation (reservation_id r) w1).1
            = true) as Hc.
    { apply (cancel_reservation_is_true _ _ (reloaded r)); [done..|].
      cbn [save File_repository]. by rewrite File_save_ok. }
    split; [done|].
    destruct (cancel_reservation_true _ _ Hc) as (r0 & Hfind0 & _ & Hsave2).
    rewrite Hfind in Hfind0. injection Hfind0 as <-.
    cbn [save File_repository] in Hsave2.
    apply create_reservation_is_Some; [done| |].
    + cbn [find_by_room_and_time File_repository].
      unfold FileRepository.find_by_room_and_time.
      apply collect_overlapping_nil. intros x Hx.
      assert (ReservationService.repository
                (ReservationService.cancel_reservation (reservation_id r)
                   w1).2
              = (FileRepository.save (cancel (reloaded r))
                   (ReservationService.repository w1)).2) as Hf2
        by (by rewrite Hsave2).
      rewrite Hf2, File_load_upserted in Hx by done.
      rewrite Hf1, File_load_upserted in Hx by done.
      rewrite upserted_upserted in Hx by done.
      apply elem_of_upserted_weak in Hx as [->|Hx].
      * rewrite reloaded_cancel. apply conflicts_with_cancel.
      * by eapply collect_overlapping_nil_inv.
    + cbn [save File_repository]. rewrite File_save_ok; [done|].
      assert (ReservationService.repository
                (ReservationService.cancel_reservation (reservation_id r)
                   w1).2
              = (FileRepository.save (cancel (reloaded r))
                   (ReservationService.repository w1)).2) as Hf2
        by (by rewrite Hsave2).
      by rewrite Hf2, File_save_disk.
Qed.

Lemma slot_is_free_after_cancellation_witness :
  is_Some
    (ReservationService.create_reservation "89abcdef0123" Sample.room101
       "Jane Smith" (Sample.at_hour 9) (Sample.at_hour 11) "Again"
       (ReservationService.cancel_reservation "RES-0123ABCD"
          (ReservationService.create_reservation "0123abcd4567"
             Sample.room101 "John Doe" (Sample.at_hour 9) (Sample.at_hour 11)
             "Test" (ReservationService.mk_world Sample.empty_file [])).2).2).1.
Proof.
  refine (proj2 (proj2 (slot_is_free_after_cancellation "0123abcd4567"
            Sample.room101 "John Doe" (Sample.at_hour 9) (Sample.at_hour 11)
            "Test" "89abcdef0123" "Jane Smith" "Again")
            (ReservationService.mk_world Sample.empty_file [])
            (new_Reservation "RES-0123ABCD" Sample.room101 "John Doe"
               (Sample.at_hour 9) (Sample.at_hour 11) "Test") _ _ _));
    reflexivity.
Defined.

(** ** Identifiers made by the service *)

Lemma upper_char_idem c :
  ReservationService.upper_char (ReservationService.upper_char c)
  = ReservationService.upper_char c.
Proof. destruct c as [[] [] [] [] [] [] [] []]; reflexivity. Qed.

Lemma upper_idem s :
  ReservationService.upper (ReservationService.upper s)
  = ReservationService.upper s.
Proof.
  induction s as [|c s IH]; [done|]. cbn. by rewrite upper_char_idem, IH.
Qed.

Lemma upper_char_hex c :
  is_hex_lower c = true → is_hex_upper (ReservationService.upper_char c) = true.
Proof. destruct c as [[] [] [] [] [] [] [] []]; cbn; done. Qed.

Lemma upper_hex s :
  string_forall is_hex_lower s = true →
  string_forall is_hex_upper (ReservationService.upper s) = true.
Proof.
  induction s as [|c s IH]; [done|]. cbn.
  rewrite !andb_true_iff. intros [Hc Hs]. split; [by apply upper_char_hex|].
  by apply IH.
Qed.

Lemma substring_prefix_forall P n s :
  string_forall P s = true → string_forall P (substring 0 n s) = true.
Proof.
  revert s. induction n as [|n IH]; intros [|c s]; cbn; try done.
  rewrite !andb_true_iff. intros [Hc Hs]. split; [done | by apply IH].
Qed.

Lemma substring_prefix_length n s :
  (n ≤ String.length s)%nat → String.length (substring 0 n s) = n.
Proof.
  revert s. induction n as [|n IH]; intros [|c s]; cbn; try done; try lia.
  intros Hn. f_equal. apply IH. lia.
Qed.

Lemma upper_length s :
  String.length (ReservationService.upper s) = String.length s.
Proof. induction s as [|c s IH]; cbn; congruence. Qed.

(** X13. The identifier that [_generate_reservation_id] makes from
    the hexadecimal text of a UUID (lowercase digits, at least eight
    of them) is "RES-" followed by exactly eight characters, each a
    digit or a letter from A to F; and whatever the text, the
    identifier is unchanged by [upper], the normalisation that the
    menu applies to an identifier typed by the user. *)
Theorem generated_id_format (uuid_hex : string) :
  ReservationService.upper
    (ReservationService._generate_reservation_id uuid_hex)
  = ReservationService._generate_reservation_id uuid_hex
  ∧ (string_forall is_hex_lower uuid_hex = true →
     (8 ≤ String.length uuid_hex)%nat →
     ∃ suffix,
       ReservationService._generate_reservation_id uuid_hex
       = "RES-" +:+ suffix
       ∧ String.length suffix = 8%nat
       ∧ string_forall is_hex_upper suffix = true).
Proof.
  unfold ReservationService._generate_reservation_id. split.
  - rewrite !string_app_cons, string_app_nil. cbn [ReservationService.upper].
    by rewrite upper_idem.
  - intros Hhex Hlen. eexists. split; [done|]. split.
    + by rewrite upper_length, substring_prefix_length.
    + by apply upper_hex, substring_prefix_forall.
Qed.

Lemma generated_id_format_witness :
  ∃ suffix,
    ReservationService._generate_reservation_id
      "3f2a9c04e1b74d6f8a5c0b1d2e3f4a5b"
    = "RES-" +:+ suffix
    ∧ String.length suffix = 8%nat
    ∧ string_forall is_hex_upper suffix = true.
Proof.
  refine (proj2 (generated_id_format "3f2a9c04e1b74d6f8a5c0b1d2e3f4a5b") _ _).
  - reflexivity.
  - cbn. lia.
Defined.

(** ** What the service never does *)

Section ServiceSteps.
Import ReservationService.
Context {S : Type} `{!IReservationRepository S}.

(** The repository after a call of the service is the one before, or
    the one that a [save] leaves. *)
Lemma serve_repository c (w : world S) :
  repository (serve c w) = repository w
  ∨ (∃ uuid_hex room' user s e purpose',
       c = CallCreate uuid_hex room' user s e purpose'
       ∧ repository (serve c w)
         = (save (new_Reservation (_generate_reservation_id uuid_hex) room'
                    user s e purpose') (repository w)).2)
  ∨ (∃ i r0,
       c = CallCancel i ∧ find_by_id i (repository w) = Some r0
       ∧ repository (serve c w) = (save (cancel r0) (repository w)).2).
Proof.
  destruct c as [uuid_hex room' user s e purpose'|i]; cbn [serve].
  - unfold create_reservation.
    destruct (negb (_validate_time_range s e)); [by left|].
    destruct (negb (_check_availability room' s e w)); [by left|].
    right. left. exists uuid_hex, room', user, s, e, purpose'.
    split; [done|].
    by destruct (save _ (repository w)) as [[] st'].
  - unfold cancel_reservation.
    destruct (find_by_id i (repository w)) as [r0|] eqn:Hfind; [|by left].
    case_bool_decide; [by left|].
    right. right. exists i, r0. split_and!; [done..|].
    by destruct (save _ (repository w)) as [[] st'].
Qed.

Lemma serve_events c (w : world S) :
  ∃ ev, events (serve c w) = (events w ++ [ev])%list.
Proof.
  destruct c as [uuid_hex room' user s e purpose'|i]; cbn [serve].
  - unfold create_reservation, emit, append.
    destruct (negb (_validate_time_range s e)); [cbn; eauto|].
    destruct (negb (_check_availability room' s e w)); [cbn; eauto|].
    destruct (save _ (repository w)) as [[] st']; cbn; eauto.
  - unfold cancel_reservation, emit, append.
    destruct (find_by_id i (repository w)) as [r0|]; [|cbn; eauto].
    case_bool_decide; [cbn; eauto|].
    destruct (save _ (repository w)) as [[] st']; cbn; eauto.
Qed.

End ServiceSteps.

(** X14. The service never removes a reservation: an identifier that
    is stored stays stored through every sequence of
    [create_reservation] and [cancel_reservation] calls, in the
    dictionary, and in the file on a medium that accepts the writes
    (the timestamps of the requests being valid datetimes). *)
Theorem service_never_removes (calls : list service_call) (i : string) :
  (∀ w : ReservationService.world (gmap string Reservation),
     is_Some (ReservationService.get_reservation i w) →
     is_Some (ReservationService.get_reservation i (serve_all calls w)))
  ∧ (∀ w : ReservationService.world file_state,
       Forall service_call_valid calls →
       disk (ReservationService.repository w) = WriteOk →
       is_Some (ReservationService.get_reservation i w) →
       is_Some (ReservationService.get_reservation i (serve_all calls w))).
Proof.
  unfold ReservationService.get_reservation. split.
  - induction calls as [|c calls IH]; intros w Hi; [done|].
    cbn [serve_all fold_left]. apply IH.
    destruct (serve_repository c w) as [->|[H|H]]; [done|..].
    + destruct H as (u & room' & user & s & e & p & _ & ->).
      cbn [save find_by_id InMemory_repository snd] in *.
      unfold InMemoryRepository.find_by_id in *.
      apply lookup_insert_is_Some.
      destruct (decide (reservation_id
                          (new_Reservation
                             (ReservationService._generate_reservation_id u)
                             room' user s e p) = i)); eauto.
    + destruct H as (j & r0 & _ & _ & ->).
      cbn [save find_by_id InMemory_repository snd] in *.
      unfold InMemoryRepository.find_by_id in *.
      apply lookup_insert_is_Some.
      destruct (decide (reservation_id (cancel r0) = i)); eauto.
  - intros w Hcalls. revert w.
    induction Hcalls as [|c calls Hc Hcalls IH]; intros w Hd Hi; [done|].
    cbn [serve_all fold_left].
    assert (∀ r, valid_times r →
              disk (FileRepository.save r (ReservationService.repository w)).2
              = WriteOk
              ∧ is_Some (FileRepository.find_by_id i
                           (FileRepository.save r
                              (ReservationService.repository w)).2))
      as Hstep.
    { intros r Hr. split; [by rewrite File_save_disk|].
      destruct (decide (i = reservation_id r)) as [->|Hne].
      - rewrite File_find_after_save by done. eauto.
      - cbn [find_by_id File_repository] in Hi.
        unfold FileRepository.find_by_id in *.
        rewrite File_load_upserted by done.
        by rewrite first_with_id_upserted_ne
          by (by cbn [reloaded reservation_id]). }
    destruct (serve_repository c w) as [Heq|[H|H]].
    + apply IH; by rewrite Heq.
    + destruct H as (u & room' & user & s & e & p & -> & Heq).
      destruct (Hstep (new_Reservation
                         (ReservationService._generate_reservation_id u)
                         room' user s e p) Hc) as [Hd' Hi'].
      apply IH; by rewrite Heq.
    + destruct H as (j & r0 & _ & Hfind & Heq).
      assert (valid_times (cancel r0)) as Hv.
      { apply first_with_id_Some in Hfind as [Hin _].
        pose proof (load_reservations_valid (ReservationService.repository w))
          as Hall.
        rewrite Forall_forall in Hall. exact (Hall r0 Hin). }
      destruct (Hstep _ Hv) as [Hd' Hi']. apply IH; by rewrite Heq.
Qed.

Lemma service_never_removes_witness :
  is_Some
    (ReservationService.get_reservation "RES-00000001"
       (serve_all
          [CallCancel "RES-00000001";
           CallCreate "0123abcd4567" Sample.room101 "Jane Smith"
             (Sample.at_hour 9) (Sample.at_hour 11) "Again"]
          (ReservationService.mk_world
             (save Sample.booking Sample.empty_file).2 []))).
Proof.
  refine (proj2 (service_never_removes _ "RES-00000001") _ _ _ _).
  - repeat apply Forall_cons_2; try apply Forall_nil_2; try exact I;
      split; reflexivity.
  - reflexivity.
  - vm_compute. eexists. reflexivity.
Defined.

(** X15. Of its own, every call of the service reports once: on
    each path it calls one hook of the notifier or executes one [print]
    of its own, and never both or neither. The events of the service
    after the calls are the events before followed by one event per
    call, whatever the outcome of the calls and whatever the repository
    returns. (What the repository or the notifier prints inside a call
    is not counted.) *)
Theorem service_reports_once_per_call
    {S : Type} `{!IReservationRepository S}
    (calls : list service_call) (w : ReservationService.world S) :
  ∃ new : list ReservationService.event,
    ReservationService.events (serve_all calls w)
    = (ReservationService.events w ++ new)%list
    ∧ length new = length calls.
Proof.
  revert w. induction calls as [|c calls IH]; intros w.
  - exists []. by rewrite app_nil_r.
  - cbn [serve_all fold_left].
    destruct (IH (serve c w)) as (new & Hnew & Hlen).
    destruct (serve_events c w) as [ev Hev].
    exists (ev :: new). split; [|by cbn; rewrite Hlen].
    unfold serve_all in Hnew. rewrite Hnew, Hev. by rewrite <- app_assoc.
Qed.

(** ** The validator: when a request is accepted *)

Section ValidatorAccepts.
Import Validator.

Lemma validate_business_hours_None self s e :
  _validate_business_hours self s e = None ↔
  time_lt (time_of s) (business_start self) = false
  ∧ time_gt (time_of e) (business_end self) = false.
Proof.
  unfold _validate_business_hours. cbv zeta.
  destruct (time_lt (time_of s) (business_start self)),
    (time_gt (time_of e) (business_end self)); cbn; split; try done;
    intros [? ?]; done.
Qed.

Lemma validate_advance_booking_None self now s :
  _validate_advance_booking self now s = None ↔
  date_diff_days (date_of s) (date_of now) ≤ max_advance_days self.
Proof.
  unfold _validate_advance_booking. cbv zeta.
  destruct (Z.ltb_spec (max_advance_days self)
              (date_diff_days (date_of s) (date_of now)));
    split; try done; lia.
Qed.

(** X16. [validate_all] returns [is_valid] true exactly when the
    list of messages is empty, and that is exactly when the start is
    before the end, the duration rule gives no message, the start
    is not before and the end not after business hours (times of day),
    the start date is at most [max_advance_days] days after the
    current date, the start is after the current moment, the name has
    at least two characters once stripped, and the room holds at least
    five people. *)
Theorem validate_all_accepts
    (self : ReservationValidator) (now1 now2 : datetime) (room' : Room)
    (s e : datetime) (user : string) :
  let out := validate_all self now1 now2 room' s e user in
  (out.1 = true ↔ out.2 = [])
  ∧ (out.1 = true ↔
     Dt.lt s e = true
     ∧ _validate_duration self s e = None
     ∧ (time_lt (time_of s) (business_start self) = false
        ∧ time_gt (time_of e) (business_end self) = false)
     ∧ date_diff_days (date_of s) (date_of now1) ≤ max_advance_days self
     ∧ Dt.gt s now2 = true
     ∧ (2 ≤ String.length (strip user))%nat
     ∧ 5 ≤ capacity room').
Proof.
  cbv zeta. split.
  - unfold validate_all. cbn [fst snd].
    rewrite bool_decide_eq_true. apply length_zero_iff_nil.
  - rewrite <- (validate_business_hours_None self s e).
    rewrite <- (validate_advance_booking_None self now1 s).
    change (Dt.lt s e) with (_validate_time_order s e).
    change (Dt.gt s now2) with (_validate_not_in_past now2 s).
    assert ((2 ≤ String.length (strip user))%nat
            ↔ _validate_user_name user = true) as ->
      by (unfold _validate_user_name; by rewrite Nat.leb_le).
    assert (5 ≤ capacity room' ↔ (capacity room' <? 5) = false) as ->
      by (by rewrite Z.ltb_ge).
    unfold validate_all. cbn [fst].
    destruct (_validate_time_order s e), (_validate_duration self s e),
      (_validate_business_hours self s e),
      (_validate_advance_booking self now1 s),
      (_validate_not_in_past now2 s), (_validate_user_name user),
      (capacity room' <? 5); cbn; split; try done;
      intros (?&?&?&?&?&?&?); done.
Qed.

End ValidatorAccepts.

Lemma validate_all_accepts_witness :
  (Validator.validate_all Validator.default
     (mk_datetime (mk_date 2025 12 1) (mk_time 12 0 0 0))
     (mk_datetime (mk_date 2025 12 1) (mk_time 12 0 0 0))
     Sample.room101 (Sample.at_hour 9) (Sample.at_hour 11) "John Doe").1
  = true.
Proof.
  apply (proj2 (validate_all_accepts Validator.default
                  (mk_datetime (mk_date 2025 12 1) (mk_time 12 0 0 0))
                  (mk_datetime (mk_date 2025 12 1) (mk_time 12 0 0 0))
                  Sample.room101 (Sample.at_hour 9) (Sample.at_hour 11)
                  "John Doe")).
  vm_compute. repeat split; try discriminate; lia.
Defined.

Lemma validate_all_time_order self now1 now2 room' s e user :
  (Validator.validate_all self now1 now2 room' s e user).1 = true →
  Dt.lt s e = true.
Proof.
  unfold Validator.validate_all, Validator._validate_time_order. cbn [fst].
  destruct (Dt.lt s e); [done|].
  destruct (Validator._validate_duration self s e),
    (Validator._validate_business_hours self s e),
    (Validator._validate_advance_booking self now1 s),
    (Validator._validate_not_in_past now2 s),
    (Validator._validate_user_name user), (capacity room' <? 5); done.
Qed.

(** X17. A request that [validate_all] accepts is never refused by
    [create_reservation] for its time range: it is booked whenever the
    repository reports no conflict and the save succeeds. *)
Theorem validated_request_is_bookable
    {S : Type} `{!IReservationRepository S}
    (self : Validator.ReservationValidator) (now1 now2 : datetime)
    (uuid_hex : string) (room' : Room) (user : string) (s e : datetime)
    (purpose' : string) (w : ReservationService.world S) :
  (Validator.validate_all self now1 now2 room' s e user).1 = true →
  find_by_room_and_time room' s e (ReservationService.repository w) = [] →
  (save (new_Reservation
           (ReservationService._generate_reservation_id uuid_hex) room' user
           s e purpose') (ReservationService.repository w)).1 = true →
  (ReservationService.create_reservation uuid_hex room' user s e purpose' w).1
  = Some (new_Reservation
            (ReservationService._generate_reservation_id uuid_hex) room' user
            s e purpose').
Proof.
  intros Hvalid Hnone Hsave.
  apply validate_all_time_order in Hvalid.
  destruct (create_reservation_is_Some uuid_hex room' user s e purpose' w
              Hvalid Hnone Hsave) as [r Hr].
  rewrite Hr. f_equal.
  by destruct (create_reservation_Some _ _ _ _ _ _ _ _ Hr) as (_ & _ & -> & _).
Qed.

Lemma validated_request_is_bookable_witness :
  (ReservationService.create_reservation "0123abcd4567" Sample.room101
     "John Doe" (Sample.at_hour 9) (Sample.at_hour 11) "Test"
     (ReservationService.mk_world Sample.empty_memory [])).1
  = Some (new_Reservation "RES-0123ABCD" Sample.room101 "John Doe"
            (Sample.at_hour 9) (Sample.at_hour 11) "Test").
Proof.
  apply (validated_request_is_bookable Validator.default
           (mk_datetime (mk_date 2025 12 1) (mk_time 12 0 0 0))
           (mk_datetime (mk_date 2025 12 1) (mk_time 12 0 0 0))).
  - vm_compute. reflexivity.
  - reflexivity.
  - reflexivity.
Defined.

(** ** The user name rule and surrounding white space *)

Section UserName.
Import Validator.

Lemma rev_app_spec (s t : string) :
  String.rev_app s t = String.rev s +:+ t.
Proof.
  unfold String.rev. revert t. induction s as [|c s IH]; intros t; [done|].
  cbn [String.rev_app]. rewrite (IH (String c t)), (IH (String c "")).
  clear IH. generalize (String.rev_app s ""). intros u.
  induction u as [|d u IHu]; [done|].
  rewrite !string_app_cons. by rewrite IHu.
Qed.

Lemma string_app_assoc (s t u : string) : (s +:+ t) +:+ u = s +:+ t +:+ u.
Proof.
  induction s as [|c s IH]; [done|]. rewrite !string_app_cons. by rewrite IH.
Qed.

Lemma rev_cons c (s : string) : String.rev (String c s) = String.rev s +:+ String c "".
Proof. unfold String.rev at 1. cbn [String.rev_app]. apply rev_app_spec. Qed.

Lemma rev_app_distr (s t : string) :
  String.rev (s +:+ t) = String.rev t +:+ String.rev s.
Proof.
  induction s as [|c s IH].
  - rewrite string_app_nil. by rewrite string_app_empty_r.
  - rewrite string_app_cons, !rev_cons, IH. by rewrite string_app_assoc.
Qed.

Lemma string_forall_app P (s t : string) :
  string_forall P (s +:+ t) = string_forall P s && string_forall P t.
Proof.
  induction s as [|c s IH]; [done|].
  rewrite string_app_cons. cbn. rewrite IH. by rewrite andb_assoc.
Qed.

Lemma string_forall_rev P (s : string) :
  string_forall P (String.rev s) = string_forall P s.
Proof.
  induction s as [|c s IH]; [done|].
  rewrite rev_cons, string_forall_app, IH. cbn.
  rewrite andb_true_r. apply andb_comm.
Qed.

Lemma lstrip_spaces (a : string) :
  string_forall is_space a = true → lstrip a = "".
Proof.
  induction a as [|c a IH]; [done|]. cbn.
  rewrite andb_true_iff. intros [-> Ha]. by apply IH.
Qed.

Lemma lstrip_app_spaces_l (a s : string) :
  string_forall is_space a = true → lstrip (a +:+ s) = lstrip s.
Proof.
  induction a as [|c a IH]; [done|]. rewrite string_app_cons. cbn.
  rewrite andb_true_iff. intros [-> Ha]. by apply IH.
Qed.

Lemma lstrip_app_spaces_r (s b : string) :
  string_forall is_space b = true →
  lstrip (s +:+ b)
  = if string_forall is_space s then "" else lstrip s +:+ b.
Proof.
  intros Hb. induction s as [|c s IH].
  - rewrite string_app_nil. by apply lstrip_spaces.
  - rewrite string_app_cons. cbn. destruct (is_space c); [|done].
    cbn. apply IH.
Qed.

Lemma strip_spaces (s : string) :
  string_forall is_space s = true → strip s = "".
Proof. intros Hs. unfold strip. by rewrite (lstrip_spaces s). Qed.

Lemma strip_padded (a s b : string) :
  string_forall is_space a = true → string_forall is_space b = true →
  strip (a +:+ s +:+ b) = strip s.
Proof.
  intros Ha Hb. unfold strip.
  rewrite lstrip_app_spaces_l, lstrip_app_spaces_r by done.
  destruct (string_forall is_space s) eqn:Hs.
  - by rewrite (lstrip_spaces s).
  - rewrite rev_app_distr, lstrip_app_spaces_l; [done|].
    by rewrite string_forall_rev.
Qed.

(** X18. White space around a user name does not count: a name made
    of white space only is rejected whatever its length, and padding a
    name with white space on either side does not change the verdict
    of [_validate_user_name]. *)
Theorem user_name_ignores_padding (a s b : string) :
  string_forall is_space a = true → string_forall is_space b = true →
  _validate_user_name a = false
  ∧ _validate_user_name (a +:+ s +:+ b) = _validate_user_name s.
Proof.
  intros Ha Hb. unfold _validate_user_name. split.
  - by rewrite strip_spaces.
  - by rewrite strip_padded.
Qed.

End UserName.

Lemma user_name_ignores_padding_witness :
  Validator._validate_user_name "    " = false
  ∧ Validator._validate_user_name ("    " +:+ "J" +:+ "  ")
    = Validator._validate_user_name "J".
Proof. apply user_name_ignores_padding; reflexivity. Defined.

(** ** The capacity validator *)

(** X19. [CapacityValidator.validate] refuses a number of attendees
    exactly when it is not positive or above the capacity of the room,
    and a refusal always carries a message; it accepts exactly when
    the number is positive and at most the capacity, provided that the
    float product of the third test can be formed; and when a number
    is accepted, so is every smaller positive one. *)
Theorem capacity_validate_accepts
    (float : Type) (nine_tenths : Z → option float)
    (exceeds : Z → float → bool) (percent_text : Z → Z → string)
    (room' : Room) (n : Z) :
  let validate :=
    CapacityValidator.validate float nine_tenths exceeds percent_text room' in
  (CapacityValidator.refuses (validate n) ↔ n ≤ 0 ∨ capacity room' < n)
  ∧ (∀ message, validate n = Some (false, message) → is_Some message)
  ∧ (CapacityValidator.accepts (validate n) ↔
     0 < n ≤ capacity room' ∧ is_Some (nine_tenths (capacity room')))
  ∧ (∀ m, CapacityValidator.accepts (validate n) → 0 < m ≤ n →
          CapacityValidator.accepts (validate m)).
Proof.
  cbv zeta.
  assert (∀ k, CapacityValidator.accepts
                 (CapacityValidator.validate float nine_tenths exceeds
                    percent_text room' k)
               ↔ 0 < k ≤ capacity room'
                 ∧ is_Some (nine_tenths (capacity room'))) as Hacc.
  { intros k. unfold CapacityValidator.accepts, CapacityValidator.validate.
    destruct (Z.leb_spec k 0).
    { split; [by intros [? ?] | lia]. }
    destruct (Z.ltb_spec (capacity room') k).
    { split; [by intros [? ?] | lia]. }
    destruct (nine_tenths (capacity room')) as [x|]; cbn [mbind option_bind].
    - split; [intros _; split; [lia | by eexists]|intros _].
      destruct (exceeds k x); by eexists.
    - split; [by intros [? ?] | by intros [_ [? ?]]]. }
  split_and!.
  - unfold CapacityValidator.refuses, CapacityValidator.validate.
    destruct (Z.leb_spec n 0).
    { split; [lia | by eexists]. }
    destruct (Z.ltb_spec (capacity room') n).
    { split; [lia | by eexists]. }
    split; [|lia]. intros [message Hout].
    destruct (nine_tenths (capacity room')) as [x|];
      cbn [mbind option_bind] in Hout; [|done].
    by destruct (exceeds n x).
  - intros message. unfold CapacityValidator.validate.
    destruct (n <=? 0); [by intros [= <-]|].
    destruct (capacity room' <? n); [by intros [= <-]|].
    destruct (nine_tenths (capacity room')) as [x|];
      cbn [mbind option_bind]; [|done].
    by destruct (exceeds n x).
  - apply Hacc.
  - intros m Hn Hm. apply Hacc. apply Hacc in Hn. split; [lia|apply Hn].
Qed.

Lemma capacity_validate_accepts_witness :
  CapacityValidator.accepts
    (CapacityValidator.validate Z (λ c, Some (9 * c)) (λ n x, x <? 10 * n)
       (λ _ _, "97") Sample.room101 25).
Proof.
  refine (proj2 (proj2 (proj2
            (capacity_validate_accepts Z (λ c, Some (9 * c))
               (λ n x, x <? 10 * n) (λ _ _, "97") Sample.room101 29))) 25 _ _).
  - by eexists.
  - lia.
Defined.

(** ** The room factory *)

(** X20. The names that [get_available_types] lists are all accepted
    by [create_room]. Of the type strings that the rooms themselves
    report, "Classroom", "Conference Room" and "Computer Lab" are
    accepted and give a room of the same variant, whereas the string of
    a laboratory, "Laboratory (...)", is never accepted. *)
Theorem create_room_accepted_names
    (room_id' name' : string) (capacity' : Z) (kw : RoomFactory.kwargs) :
  (∀ room_type, room_type ∈ RoomFactory.get_available_types →
     is_Some (RoomFactory.create_room room_type room_id' name' capacity' kw))
  ∧ (∀ room' : Room,
       kind_of <$> RoomFactory.create_room (get_room_type room') room_id'
                     name' capacity' kw
       = match kind_of room' with
         | KLaboratory => None
         | k => Some k
         end).
Proof.
  split.
  - intros t Ht. unfold RoomFactory.get_available_types in Ht.
    repeat (apply elem_of_cons in Ht as [->|Ht]; [cbn; eauto|]).
    by apply not_elem_of_nil in Ht.
  - intros [i n c p w|i n c v s|i n c lt se|i n c k p]; reflexivity.
Qed.

Lemma create_room_accepted_names_witness :
  is_Some (RoomFactory.create_room "computer_lab" "CL-401" "AI Research Lab"
             35 RoomFactory.no_kwargs).
Proof.
  refine (proj1 (create_room_accepted_names "CL-401" "AI Research Lab" 35
                   RoomFactory.no_kwargs) "computer_lab" _).
  unfold RoomFactory.get_available_types.
  do 3 apply list_elem_of_further. apply list_elem_of_here.
Defined.

(** X21. A room that [create_room] builds has the identifier, name
    and capacity that were given; built without keyword arguments it
    has the default attributes of its variant, so that the file
    repository gives it back as it is. *)
Theorem create_room_defaults
    (room_type room_id' name' : string) (capacity' : Z)
    (kw : RoomFactory.kwargs) (room' : Room) :
  RoomFactory.create_room room_type room_id' name' capacity' kw = Some room' →
  room_id room' = room_id' ∧ name room' = name' ∧ capacity room' = capacity'
  ∧ (kw = RoomFactory.no_kwargs →
     default_equipped room' = true ∧ reloaded_room room' = room').
Proof.
  unfold RoomFactory.create_room. cbv zeta. intros H.
  repeat case_match; simplify_eq; split_and!; try done;
    intros ->; (split; [|apply reloaded_room_default]); cbn;
    rewrite ?Z.ltb_irrefl, ?andb_true_r; try done;
    by repeat case_match; rewrite ?bool_decide_eq_true_2.
Qed.

Lemma create_room_defaults_witness :
  reloaded_room (ComputerLab "CL-401" "AI Research Lab" 35 35 true)
  = ComputerLab "CL-401" "AI Research Lab" 35 35 true.
Proof.
  refine (proj2 (proj2 (proj2 (proj2
            (create_room_defaults "Computer Lab" "CL-401" "AI Research Lab"
               35 RoomFactory.no_kwargs
               (ComputerLab "CL-401" "AI Research Lab" 35 35 true) _))) _)).
  - reflexivity.
  - reflexivity.
Defined.

(** ** Observers *)

Section ObserverProperties.

Import Observers.

Variable now : nat → datetime.

Lemma count_kind_cons k ev evs :
  count_kind k (ev :: evs)
  = (if decide (ev.1 = k) then 1 else 0) + count_kind k evs.
Proof.
  unfold count_kind. rewrite filter_cons.
  destruct (decide _); cbn [length]; lia.
Qed.

Ltac same_counters :=
  match goal with
  | |- StatisticsObserver ?a1 ?a2 ?a3 ?a4 = StatisticsObserver ?b1 ?b2 ?b3 ?b4 =>
      replace b1 with a1 by lia; replace b2 with a2 by lia;
      replace b3 with a3 by lia; replace b4 with a4 by lia; reflexivity
  end.

Lemma handle_all_statistics evs : ∀ c x m a e,
  (handle_all now evs (StatisticsObserver c x m a) e).1
  = StatisticsObserver (c + count_kind Created evs)
      (x + count_kind Cancelled evs) (m + count_kind Modified evs)
      (a + count_kind Created evs - count_kind Cancelled evs)
  ∧ length (printed (handle_all now evs (StatisticsObserver c x m a) e).2)
    = (length (printed e) + length evs)%nat.
Proof.
  induction evs as [|[k r] evs IH]; intros c x m a e.
  - unfold count_kind. cbn. split; [same_counters | lia].
  - rewrite !count_kind_cons. cbn [handle_all].
    destruct k; unfold handle; cbn [fst snd on_reservation_created
      on_reservation_cancelled on_reservation_modified];
      match goal with
      | |- context [handle_all now evs (StatisticsObserver ?c' ?x' ?m' ?a') ?e']
        => destruct (IH c' x' m' a' e') as [-> ->]
      end;
      repeat first [rewrite decide_True by done
                   |rewrite decide_False by done];
      (split; [same_counters|]);
      unfold print, append; cbn [printed]; rewrite length_app; cbn; lia.
Qed.

(** X22. A statistics observer counts what it is told: after any
    sequence of events given to a new [StatisticsObserver], the three
    totals are the numbers of events of each kind, the number of
    active reservations is the created minus the cancelled (negative
    when more cancellations than creations were reported), and one
    line was printed per event. *)
Theorem statistics_count_the_events
    (evs : list (event_kind * Reservation)) (e : env) :
  let after := handle_all now evs new_StatisticsObserver e in
  after.1 = StatisticsObserver (count_kind Created evs)
              (count_kind Cancelled evs) (count_kind Modified evs)
              (count_kind Created evs - count_kind Cancelled evs)
  ∧ length (printed after.2) = (length (printed e) + length evs)%nat.
Proof.
  cbv zeta. unfold new_StatisticsObserver.
  destruct (handle_all_statistics evs 0 0 0 0 e) as [-> ->]. done.
Qed.

Lemma handle_all_audit_log evs : ∀ log e,
  (handle_all now evs (AuditLogObserver log) e).1
  = AuditLogObserver
      (log ++ imap (λ i ev, entry_of (now (reads e + i)) ev) evs)%list.
Proof.
  induction evs as [|[k r] evs IH]; intros log e.
  - cbn. by rewrite app_nil_r.
  - cbn [handle_all imap].
    assert (∃ line,
      handle now (k, r) (AuditLogObserver log) e
      = (AuditLogObserver (log ++ [entry_of (now (reads e)) (k, r)])%list,
         mk_env (S (reads e)) line)) as [line ->].
    { destruct k; eexists; reflexivity. }
    rewrite IH. cbn [reads]. rewrite <- app_assoc. cbn [app].
    rewrite Nat.add_0_r. do 3 f_equal.
    apply imap_ext. intros i ev _. cbn. do 2 f_equal. lia.
Qed.

(** X23. The audit log is complete and in order: after any sequence
    of events given to a new [AuditLogObserver], the log holds one
    entry per event, in the order of the events, each with the kind of
    the event, the identifier, room name and user of its reservation,
    and the reading of the clock made for it. *)
Theorem audit_log_records_every_event
    (evs : list (event_kind * Reservation)) (e : env) :
  (handle_all now evs new_AuditLogObserver e).1
  = AuditLogObserver (imap (λ i ev, entry_of (now (reads e + i)) ev) evs).
Proof. unfold new_AuditLogObserver. by rewrite handle_all_audit_log. Qed.

(** *** The subject *)

Lemma elem_of_list_remove_ne a b l :
  b ≠ a → b ∈ list_remove a l ↔ b ∈ l.
Proof.
  intros Hne. induction l as [|y l IH]; [done|]. cbn [list_remove].
  case_bool_decide as Hy.
  - subst y. rewrite elem_of_cons. split; [by right | by intros [?|?]].
  - rewrite !elem_of_cons, IH. done.
Qed.

Lemma list_remove_NoDup a l :
  NoDup l → NoDup (list_remove a l) ∧ a ∉ list_remove a l.
Proof.
  induction 1 as [|y l Hy Hl IH]; cbn [list_remove].
  - split; [constructor | apply not_elem_of_nil].
  - case_bool_decide as Hya.
    + subst y. done.
    + destruct IH as [IH1 IH2]. split.
      * constructor; [|done]. by rewrite elem_of_list_remove_ne.
      * rewrite elem_of_cons. by intros [?|?].
Qed.

Lemma attach_NoDup a l : NoDup l → NoDup (attach a l).
Proof.
  intros Hl. unfold attach, append. case_bool_decide as Ha; [done|].
  apply NoDup_app. split_and!; [done| |apply NoDup_singleton].
  intros x Hx ->%list_elem_of_singleton. done.
Qed.

Lemma detach_NoDup a l : NoDup l → NoDup (detach a l).
Proof.
  intros Hl. unfold detach. case_bool_decide; [|done].
  by apply list_remove_NoDup.
Qed.

Lemma subject_step_NoDup calls : ∀ l,
  NoDup l → NoDup (foldl subject_step l calls).
Proof.
  induction calls as [|c calls IH]; intros l Hl; [done|].
  cbn [foldl]. apply IH.
  destruct c; [by apply attach_NoDup | by apply detach_NoDup].
Qed.

Lemma subject_after_NoDup calls : NoDup (subject_after calls).
Proof. apply subject_step_NoDup. constructor. Qed.

(** X24. A subject holds an observer at most once: whatever calls of
    [attach] and [detach] were made on a new subject, its list has no
    observer twice; [attach] puts the observer in the list, and a
    second [attach] changes nothing; [detach] takes it out of the list
    altogether; and neither changes whether another observer is in the
    list. *)
Theorem subject_holds_an_observer_once
    (calls : list subject_call) (a : nat) :
  let l := subject_after calls in
  NoDup l
  ∧ a ∈ attach a l
  ∧ attach a (attach a l) = attach a l
  ∧ (a ∉ detach a l)
  ∧ (∀ b, b ≠ a → (b ∈ attach a l ↔ b ∈ l) ∧ (b ∈ detach a l ↔ b ∈ l)).
Proof.
  cbv zeta. pose proof (subject_after_NoDup calls) as Hl.
  set (l := subject_after calls) in *. clearbody l.
  assert (a ∈ attach a l) as Hin.
  { unfold attach, append. case_bool_decide; [done|].
    apply elem_of_app. right. apply list_elem_of_singleton. done. }
  split_and!; [done|done| | |].
  - unfold attach at 1. by rewrite bool_decide_eq_true_2.
  - unfold detach. case_bool_decide; [|done]. by apply list_remove_NoDup.
  - intros b Hb. split.
    + unfold attach, append. case_bool_decide; [done|].
      rewrite elem_of_app, list_elem_of_singleton.
      split; [by intros [?|?] | by left].
    + unfold detach. case_bool_decide; [|done].
      by apply elem_of_list_remove_ne.
Qed.

Lemma for_each_other f a l : ∀ h e,
  a ∉ l → (for_each f l h e).1 !! a = h !! a.
Proof.
  induction l as [|b l IH]; intros h e Ha; [done|].
  apply not_elem_of_cons in Ha as [Hab Ha]. cbn [for_each].
  destruct (h !! b) as [o|]; [|by apply IH].
  destruct (f o e) as [o' e']. rewrite IH by done.
  by apply lookup_insert_ne.
Qed.

Lemma for_each_once f a o l : ∀ h e,
  NoDup l → a ∈ l → h !! a = Some o →
  ∃ e0, (for_each f l h e).1 !! a = Some (f o e0).1.
Proof.
  induction l as [|b l IH]; intros h e Hl Ha Ho.
  { by apply not_elem_of_nil in Ha. }
  apply NoDup_cons in Hl as [Hb Hl]. cbn [for_each].
  destruct (decide (a = b)) as [->|Hab].
  - rewrite Ho. exists e. destruct (f o e) as [o' e'].
    rewrite for_each_other by done. apply lookup_insert_eq.
  - apply elem_of_cons in Ha as [?|Ha]; [done|].
    destruct (h !! b) as [ob|]; [|by apply IH].
    destruct (f ob e) as [o' e']. apply IH; [done..|].
    rewrite <- Ho. by apply lookup_insert_ne.
Qed.

Lemma notify_for_each ev : notify now ev = for_each (handle now ev).
Proof. by destruct ev as [[] r]. Qed.

(** X25. A notification reaches each attached observer once: when a
    subject that was set up by any calls of [attach] and [detach]
    notifies an event, every observer in its list has handled the event
    exactly once, also one that was attached several times, and every
    other object is as it was. *)
Theorem notify_reaches_each_observer_once
    (calls : list subject_call) (ev : event_kind * Reservation)
    (h : objects) (e : env) (a : nat) (o : observer) :
  let l := subject_after calls in
  let h' := (notify now ev l h e).1 in
  (a ∉ l → h' !! a = h !! a)
  ∧ (a ∈ l → h !! a = Some o → ∃ e0, h' !! a = Some (handle now ev o e0).1).
Proof.
  cbv zeta. rewrite notify_for_each. split.
  - apply for_each_other.
  - apply for_each_once, subject_after_NoDup.
Qed.

End ObserverProperties.

Lemma notify_reaches_each_observer_once_witness :
  (Observers.notify (λ _, Sample.at_hour 9) (Observers.Created, Sample.booking)
     (Observers.subject_after
        [Observers.Attach 1%nat; Observers.Attach 1%nat])
     {[ 1%nat := Observers.new_StatisticsObserver ]}
     (Observers.mk_env 0 [])).1 !! 1%nat
  = Some (Observers.StatisticsObserver 1 0 0 1).
Proof.
  destruct (proj2 (notify_reaches_each_observer_once (λ _, Sample.at_hour 9)
              [Observers.Attach 1%nat; Observers.Attach 1%nat]
              (Observers.Created, Sample.booking)
              {[ 1%nat := Observers.new_StatisticsObserver ]}
              (Observers.mk_env 0 []) 1%nat Observers.new_StatisticsObserver))
    as [e0 ->].
  - vm_compute. apply list_elem_of_here.
  - reflexivity.
  - reflexivity.
Defined.
